(** * HLS proxy handlers of [api/proxy.js]: a shallow embedding

    The repository holds two near-duplicate request handlers (both in
    [src/api/proxy.js]): the first one, with [getProxyBaseUrl],
    [rewriteUriInTag] and a full error taxonomy, and a second, looser one.
    They are embedded here as [handler1] and [handler2].

    JavaScript strings are sequences of UTF-16 code units; they are modelled
    as [list N].  The functions of the JavaScript runtime the handlers call
    ([trim], [startsWith], [encodeURIComponent], ...) are written out from
    ECMA-262; the [URL] constructor is an interface ([Runtime]) with a
    reference instance for plain http(s) URLs. *)

From Stdlib Require Import ZArith NArith List String Ascii Lia Bool.
From stdpp Require Import base option list gmap strings pretty.

Local Open Scope N_scope.

(** ** JavaScript strings *)

Abbreviation jsstring := (list N).

(** A JavaScript string literal with ASCII characters only. *)
Definition js (s : string) : jsstring :=
  map N_of_ascii (list_ascii_of_string s).

(** Every code unit fits in 16 bits. *)
Definition wf_string (s : jsstring) : Prop := Forall (fun c => c < 65536) s.

(** [s.startsWith(p)] *)
Fixpoint startsWith (s p : jsstring) {struct p} : bool :=
  match p, s with
  | [], _ => true
  | c :: p', d :: s' => (c =? d) && startsWith s' p'
  | _ :: _, [] => false
  end.

(** [s.includes(p)] *)
Fixpoint includes (s p : jsstring) {struct s} : bool :=
  startsWith s p ||
  match s with
  | [] => false
  | _ :: s' => includes s' p
  end.

(** [s.endsWith(p)] *)
Definition endsWith (s p : jsstring) : bool :=
  startsWith (rev s) (rev p).

(** [s.lastIndexOf(p)], scanning from position [i]; [-1] when [p] does not
    occur. *)
Fixpoint lastIndexOf_from (s p : jsstring) (i : Z) : Z :=
  match s with
  | [] => if startsWith [] p then i else (-1)%Z
  | _ :: s' =>
      let r := lastIndexOf_from s' p (i + 1) in
      if (0 <=? r)%Z then r
      else if startsWith s p then i else (-1)%Z
  end.

Definition lastIndexOf (s p : jsstring) : Z := lastIndexOf_from s p 0.

(** [s.substring(a, b)]: both indices are clamped to [0, length] and swapped
    when out of order. *)
Definition substring (s : jsstring) (a b : Z) : jsstring :=
  let len := Z.of_nat (length s) in
  let clamp i := Z.min (Z.max i 0) len in
  let lo := Z.min (clamp a) (clamp b) in
  let hi := Z.max (clamp a) (clamp b) in
  take (Z.to_nat (hi - lo)) (drop (Z.to_nat lo) s).

(** [s.split(sep)] for a separator of one code unit. *)
Fixpoint split (s : jsstring) (sep : N) : list jsstring :=
  match s with
  | [] => [[]]
  | c :: s' =>
      if c =? sep then [] :: split s' sep
      else match split s' sep with
           | l :: ls => (c :: l) :: ls
           | [] => [[c]]
           end
  end.

(** [ls.join(sep)] *)
Fixpoint join (ls : list jsstring) (sep : jsstring) : jsstring :=
  match ls with
  | [] => []
  | [l] => l
  | l :: ls' => l ++ sep ++ join ls' sep
  end.

(** WhiteSpace and LineTerminator code points of ECMA-262, the characters
    [trim] removes. *)
Definition isWhiteSpace (c : N) : bool :=
  (9 <=? c) && (c <=? 13) || (c =? 32) || (c =? 160) || (c =? 5760)
  || (8192 <=? c) && (c <=? 8202) || (c =? 8232) || (c =? 8233)
  || (c =? 8239) || (c =? 8287) || (c =? 12288) || (c =? 65279).

Fixpoint trimStart (s : jsstring) : jsstring :=
  match s with
  | [] => []
  | c :: s' => if isWhiteSpace c then trimStart s' else s
  end.

Definition trimEnd (s : jsstring) : jsstring := rev (trimStart (rev s)).

(** [s.trim()] *)
Definition trim (s : jsstring) : jsstring := trimEnd (trimStart s).

(** ** Exceptions *)

(** The response object axios hands over: status line, headers (lower-case
    names) and the body as an array buffer. *)
Record axios_response := {
  ar_status : Z;
  ar_statusText : jsstring;
  ar_headers : gmap string jsstring;
  ar_data : list Byte.byte
}.

(** A thrown JavaScript error, with the properties the handlers read. *)
Record js_error := {
  e_name : string;
  e_message : jsstring;
  e_code : option string;
  e_response : option axios_response
}.

Definition URIError : js_error :=
  {| e_name := "URIError"; e_message := js "URI malformed";
     e_code := None; e_response := None |}.

Definition InvalidURL : js_error :=
  {| e_name := "TypeError"; e_message := js "Invalid URL";
     e_code := Some "ERR_INVALID_URL"; e_response := None |}.

(** A completion: a value or a thrown error. *)
Inductive completion (A : Type) : Type :=
| Normal (a : A)
| Throw (e : js_error).
Arguments Normal {A} a.
Arguments Throw {A} e.

#[global] Instance completion_ret : MRet completion := fun A a => Normal a.
#[global] Instance completion_bind : MBind completion := fun A B k c =>
  match c with
  | Normal a => k a
  | Throw e => Throw e
  end.

(** ** [encodeURIComponent] and [decodeURIComponent] (ECMA-262, 19.2.6) *)

Definition isAlnum (c : N) : bool :=
  (48 <=? c) && (c <=? 57) || (65 <=? c) && (c <=? 90)
  || (97 <=? c) && (c <=? 122).

(** uriUnescaped: letters, digits and [-_.!~*'()]. *)
Definition uriUnreserved (c : N) : bool :=
  isAlnum c
  || (c =? 45) || (c =? 95) || (c =? 46) || (c =? 33) || (c =? 126)
  || (c =? 42) || (c =? 39) || (c =? 40) || (c =? 41).

Definition hexDigit (d : N) : N := if d <? 10 then 48 + d else 55 + d.

Definition hexValue (c : N) : option N :=
  if (48 <=? c) && (c <=? 57) then Some (c - 48)
  else if (65 <=? c) && (c <=? 70) then Some (c - 55)
  else if (97 <=? c) && (c <=? 102) then Some (c - 87)
  else None.

(** The escape sequence [%XX] of one octet. *)
Definition pctOctet (b : N) : jsstring :=
  [37; hexDigit (b / 16); hexDigit (b mod 16)].

(** The UTF-8 encoding of a code point. *)
Definition utf8 (cp : N) : list N :=
  if cp <? 128 then [cp]
  else if cp <? 2048 then [192 + cp / 64; 128 + cp mod 64]
  else if cp <? 65536 then
    [224 + cp / 4096; 128 + (cp / 64) mod 64; 128 + cp mod 64]
  else
    [240 + cp / 262144; 128 + (cp / 4096) mod 64;
     128 + (cp / 64) mod 64; 128 + cp mod 64].

Definition pctEncode (cp : N) : jsstring := flat_map pctOctet (utf8 cp).

Definition isHighSurrogate (c : N) : bool := (55296 <=? c) && (c <=? 56319).
Definition isLowSurrogate (c : N) : bool := (56320 <=? c) && (c <=? 57343).

(** Encode(string, uriUnescaped): an unpaired surrogate throws a URIError. *)
Fixpoint encodeURIComponent (s : jsstring) : completion jsstring :=
  match s with
  | [] => Normal []
  | c :: s' =>
      if uriUnreserved c then
        r ← encodeURIComponent s'; Normal (c :: r)
      else if isLowSurrogate c then Throw URIError
      else if isHighSurrogate c then
        match s' with
        | d :: s'' =>
            if isLowSurrogate d then
              let cp := (c - 55296) * 1024 + (d - 56320) + 65536 in
              r ← encodeURIComponent s''; Normal (pctEncode cp ++ r)
            else Throw URIError
        | [] => Throw URIError
        end
      else
        r ← encodeURIComponent s'; Normal (pctEncode c ++ r)
  end.

(** Number of leading one bits of an octet (5 stands for "more than 4"). *)
Definition leadingOnes (b : N) : nat :=
  if b <? 128 then 0 else if b <? 192 then 1 else if b <? 224 then 2
  else if b <? 240 then 3 else if b <? 248 then 4 else 5.

Definition isCont (b : N) : bool := (128 <=? b) && (b <=? 191).

(** The code point of a well-formed UTF-8 sequence of two to four octets
    (Unicode, table 3-7); [None] for anything else. *)
Definition utf8Decode (octets : list N) : option N :=
  match octets with
  | [b0; b1] =>
      if (194 <=? b0) && (b0 <=? 223) && isCont b1
      then Some ((b0 - 192) * 64 + (b1 - 128)) else None
  | [b0; b1; b2] =>
      if (b0 =? 224) && (160 <=? b1) && (b1 <=? 191) && isCont b2
         || (225 <=? b0) && (b0 <=? 236) && isCont b1 && isCont b2
         || (b0 =? 237) && (128 <=? b1) && (b1 <=? 159) && isCont b2
         || (238 <=? b0) && (b0 <=? 239) && isCont b1 && isCont b2
      then Some ((b0 - 224) * 4096 + (b1 - 128) * 64 + (b2 - 128)) else None
  | [b0; b1; b2; b3] =>
      if (b0 =? 240) && (144 <=? b1) && (b1 <=? 191) && isCont b2 && isCont b3
         || (241 <=? b0) && (b0 <=? 243) && isCont b1 && isCont b2 && isCont b3
         || (b0 =? 244) && (128 <=? b1) && (b1 <=? 143) && isCont b2 && isCont b3
      then Some ((b0 - 240) * 262144 + (b1 - 128) * 4096
                 + (b2 - 128) * 64 + (b3 - 128))
      else None
  | _ => None
  end.

(** UTF16EncodeCodePoint *)
Definition utf16 (cp : N) : jsstring :=
  if cp <? 65536 then [cp]
  else [55296 + (cp - 65536) / 1024; 56320 + (cp - 65536) mod 1024].

(** Decode(string, empty reserved set).  [pending] holds the octets of an
    unfinished multi-octet sequence and [need] the number of octets still
    missing; every malformed input throws the same URIError. *)
Fixpoint Decode (s : jsstring) (pending : list N) (need : nat)
  : completion jsstring :=
  match s with
  | [] => match need with O => Normal [] | S _ => Throw URIError end
  | c :: s1 =>
      if c =? 37 then
        match s1 with
        | h1 :: h2 :: s2 =>
            match hexValue h1, hexValue h2 with
            | Some a, Some b =>
                let B := 16 * a + b in
                match need with
                | O =>
                    match leadingOnes B with
                    | O => r ← Decode s2 [] 0; Normal (B :: r)
                    | 2%nat => Decode s2 [B] 1
                    | 3%nat => Decode s2 [B] 2
                    | 4%nat => Decode s2 [B] 3
                    | _ => Throw URIError
                    end
                | S O =>
                    match utf8Decode (pending ++ [B]) with
                    | Some cp =>
                        r ← Decode s2 [] 0; Normal (utf16 cp ++ r)
                    | None => Throw URIError
                    end
                | S m => Decode s2 (pending ++ [B]) m
                end
            | _, _ => Throw URIError
            end
        | _ => Throw URIError
        end
      else
        match need with
        | O => r ← Decode s1 [] 0; Normal (c :: r)
        | S _ => Throw URIError
        end
  end.

Definition decodeURIComponent (s : jsstring) : completion jsstring :=
  Decode s [] 0.

(** ** [Buffer.from(data).toString('utf-8')] *)

(** What a first octet announces: an ASCII character, the start of a
    sequence (bits so far, octets missing, bounds of the next octet), or an
    octet that cannot start a sequence. *)
Inductive lead :=
| LeadAscii
| LeadSeq (cp : N) (need : nat) (lo hi : N)
| LeadBad.

Definition leadOf (b : N) : lead :=
  if b <? 128 then LeadAscii
  else if (194 <=? b) && (b <=? 223) then LeadSeq (b - 192) 1 128 191
  else if (224 <=? b) && (b <=? 239) then
    LeadSeq (b - 224) 2 (if b =? 224 then 160 else 128)
            (if b =? 237 then 159 else 191)
  else if (240 <=? b) && (b <=? 244) then
    LeadSeq (b - 240) 3 (if b =? 240 then 144 else 128)
            (if b =? 244 then 143 else 191)
  else LeadBad.

(** The UTF-8 decoder with replacement: every maximal ill-formed part
    becomes U+FFFD; the octet that breaks a sequence is read again as a
    first octet. *)
Fixpoint utf8Text (bs : list N) (cp : N) (need : nat) (lo hi : N) : list N :=
  match bs with
  | [] => match need with O => [] | S _ => [65533] end
  | b :: bs' =>
      let start :=
        match leadOf b with
        | LeadAscii => b :: utf8Text bs' 0 0 128 191
        | LeadSeq c n l h => utf8Text bs' c n l h
        | LeadBad => 65533 :: utf8Text bs' 0 0 128 191
        end in
      match need with
      | O => start
      | S m =>
          if (lo <=? b) && (b <=? hi) then
            let cp' := cp * 64 + (b - 128) in
            match m with
            | O => cp' :: utf8Text bs' 0 0 128 191
            | S _ => utf8Text bs' cp' m 128 191
            end
          else 65533 :: start
      end
  end.

Definition bufferToString (data : list Byte.byte) : jsstring :=
  flat_map utf16 (utf8Text (map Byte.to_N data) 0 0 128 191).

(** The octets of an ASCII literal, for examples. *)
Definition bytes (s : string) : list Byte.byte := list_byte_of_string s.

(** ** The [URL] constructor *)

(** The two properties of a [URL] object the handlers read. *)
Record URL := { href : jsstring; origin : jsstring }.

(** [URL_new u base] is [new URL(u)] or [new URL(u, base)]; an invalid URL
    throws.  The handlers are written against this interface, so what is
    proved of them holds for whatever URL parser the platform has. *)
Class Runtime := { URL_new : jsstring -> option jsstring -> completion URL }.

(** *** A reference parser for plain http(s) URLs

    [parseURL] follows the basic URL parser of the WHATWG URL standard on the
    inputs it covers and answers [Unsupported] on the others: a scheme other
    than http and https, credentials, hosts that are not plain ASCII names
    (IPv4 and IPv6 literals, percent escapes, non-ASCII or punycode labels),
    and a circumflex accent, which runtimes do not all escape alike in a
    path. *)

Inductive parsed (A : Type) : Type :=
| Parsed (a : A)
| Failure
| Unsupported.
Arguments Parsed {A} a.
Arguments Failure {A}.
Arguments Unsupported {A}.

Definition pbind {A B} (p : parsed A) (k : A -> parsed B) : parsed B :=
  match p with
  | Parsed a => k a
  | Failure => Failure
  | Unsupported => Unsupported
  end.

Record url_record := {
  u_scheme : jsstring;
  u_host : jsstring;
  u_port : option N;
  u_path : list jsstring;
  u_query : option jsstring;
  u_fragment : option jsstring
}.

(** A USVString: unpaired surrogates become U+FFFD. *)
Fixpoint toUSV (s : jsstring) : list N :=
  match s with
  | [] => []
  | c :: s' =>
      if isHighSurrogate c then
        match s' with
        | d :: s'' =>
            if isLowSurrogate d
            then ((c - 55296) * 1024 + (d - 56320) + 65536) :: toUSV s''
            else 65533 :: toUSV s'
        | [] => [65533]
        end
      else if isLowSurrogate c then 65533 :: toUSV s'
      else c :: toUSV s'
  end.

Definition isC0OrSpace (c : N) : bool := c <=? 32.
Definition isTabOrNewline (c : N) : bool := (c =? 9) || (c =? 10) || (c =? 13).

Fixpoint dropWhile (f : N -> bool) (s : list N) : list N :=
  match s with
  | [] => []
  | c :: s' => if f c then dropWhile f s' else s
  end.

Definition cleanInput (s : list N) : list N :=
  filter (fun c => isTabOrNewline c = false)
         (rev (dropWhile isC0OrSpace (rev (dropWhile isC0OrSpace s)))).

Definition isAlpha (c : N) : bool :=
  (65 <=? c) && (c <=? 90) || (97 <=? c) && (c <=? 122).
Definition isDigit (c : N) : bool := (48 <=? c) && (c <=? 57).
Definition toLower (c : N) : N := if (65 <=? c) && (c <=? 90) then c + 32 else c.
Definition isSlash (c : N) : bool := (c =? 47) || (c =? 92).

(** Scheme start state and scheme state: the lower-cased scheme and what
    follows the colon. *)
Fixpoint scanScheme (s acc : list N) : option (list N * list N) :=
  match s with
  | [] => None
  | c :: s' =>
      if c =? 58 then Some (rev acc, s')
      else if isAlnum c || (c =? 43) || (c =? 45) || (c =? 46)
      then scanScheme s' (toLower c :: acc)
      else None
  end.

Definition parseScheme (s : list N) : option (list N * list N) :=
  match s with
  | c :: _ => if isAlpha c then scanScheme s [] else None
  | [] => None
  end.

(** Percent-encode sets. *)
Definition inC0Set (c : N) : bool := (c <? 32) || (126 <? c).
Definition inFragmentSet (c : N) : bool :=
  inC0Set c || (c =? 32) || (c =? 34) || (c =? 60) || (c =? 62) || (c =? 96).
Definition inQuerySet (c : N) : bool :=
  inC0Set c || (c =? 32) || (c =? 34) || (c =? 35) || (c =? 60) || (c =? 62).
Definition inSpecialQuerySet (c : N) : bool := inQuerySet c || (c =? 39).
Definition inPathSet (c : N) : bool :=
  inQuerySet c || (c =? 63) || (c =? 94) || (c =? 96) || (c =? 123) || (c =? 125).

Definition pctIn (set : N -> bool) (c : N) : jsstring :=
  if set c then pctEncode c else [c].

(** Fragment state and query state (the URL is special). *)
Definition fragmentState (s : list N) : jsstring := flat_map (pctIn inFragmentSet) s.

Fixpoint queryState (s : list N) (acc : jsstring) : jsstring * option jsstring :=
  match s with
  | [] => (acc, None)
  | c :: s' =>
      if c =? 35 then (acc, Some (fragmentState s'))
      else queryState s' (acc ++ pctIn inSpecialQuerySet c)
  end.

Definition lowerString (s : jsstring) : jsstring := map toLower s.

Definition isSingleDot (buf : jsstring) : bool :=
  let b := lowerString buf in
  bool_decide (b = js ".") || bool_decide (b = js "%2e").

Definition isDoubleDot (buf : jsstring) : bool :=
  let b := lowerString buf in
  bool_decide (b = js "..") || bool_decide (b = js ".%2e")
  || bool_decide (b = js "%2e.") || bool_decide (b = js "%2e%2e").

(** Shorten a path: drop its last segment, if any. *)
Definition shorten (path : list jsstring) : list jsstring := removelast path.

(** What the path state does when a segment ends; [slash] tells whether it
    ended at a slash. *)
Definition endSegment (path : list jsstring) (buf : jsstring) (slash : bool)
  : list jsstring :=
  if isDoubleDot buf then
    if slash then shorten path else shorten path ++ [[]]
  else if isSingleDot buf then
    if slash then path else path ++ [[]]
  else path ++ [buf].

(** Path state, then query and fragment. *)
Fixpoint pathState (s : list N) (buf : jsstring) (path : list jsstring)
  : list jsstring * option jsstring * option jsstring :=
  match s with
  | [] => (endSegment path buf false, None, None)
  | c :: s' =>
      if isSlash c then pathState s' [] (endSegment path buf true)
      else if c =? 63 then
        let '(q, f) := queryState s' [] in
        (endSegment path buf false, Some q, f)
      else if c =? 35 then
        (endSegment path buf false, None, Some (fragmentState s'))
      else pathState s' (buf ++ pctIn inPathSet c) path
  end.

(** Forbidden domain code points. *)
Definition isForbiddenDomain (c : N) : bool :=
  (c <=? 32) || (c =? 35) || (c =? 37) || (c =? 47) || (c =? 58) || (c =? 60)
  || (c =? 62) || (c =? 63) || (c =? 64) || (c =? 91) || (c =? 92)
  || (c =? 93) || (c =? 94) || (c =? 124) || (c =? 127).

(** A label that starts with [xn--], whatever the case. *)
Definition hasPunycodeLabel (h : jsstring) : bool :=
  existsb (fun l => startsWith (lowerString l) (js "xn--")) (split h 46).

(** The last label (one trailing empty label apart) starts with a digit:
    the host may end in a number and be an IPv4 address. *)
Definition mayEndInNumber (h : jsstring) : bool :=
  let parts := split h 46 in
  let parts' :=
    match last parts with
    | Some [] => if (1 <? length parts)%nat then removelast parts else parts
    | _ => parts
    end in
  match last parts' with
  | Some (c :: _) => isDigit c
  | _ => false
  end.

(** Host parser, for a host that is not opaque. *)
Definition parseHost (h : jsstring) : parsed jsstring :=
  if existsb (fun c => (127 <? c) || (c =? 37)) h then Unsupported
  else if startsWith h [91] then Unsupported
  else if hasPunycodeLabel h then Unsupported
  else
    let d := lowerString h in
    match d with
    | [] => Failure
    | _ =>
        if existsb isForbiddenDomain d then Failure
        else if mayEndInNumber d then Unsupported
        else Parsed d
    end.

Fixpoint parseDecimal (s : list N) (acc : N) : N :=
  match s with
  | [] => acc
  | c :: s' => parseDecimal s' (10 * acc + (c - 48))
  end.

Definition defaultPort (scheme : jsstring) : option N :=
  if bool_decide (scheme = js "http") then Some 80
  else if bool_decide (scheme = js "https") then Some 443
  else None.

(** Port state, on what the authority has after the colon. *)
Definition parsePort (scheme : jsstring) (s : list N) : parsed (option N) :=
  if forallb isDigit s then
    match s with
    | [] => Parsed None
    | _ =>
        let p := parseDecimal s 0 in
        if 65535 <? p then Failure
        else if bool_decide (defaultPort scheme = Some p) then Parsed None
        else Parsed (Some p)
    end
  else Failure.

(** Host state: the host runs up to the first colon outside brackets. *)
Fixpoint splitHost (s buf : list N) (inBrackets : bool)
  : list N * option (list N) :=
  match s with
  | [] => (buf, None)
  | c :: s' =>
      if (c =? 58) && negb inBrackets then (buf, Some s')
      else
        let inBrackets' :=
          if c =? 91 then true else if c =? 93 then false else inBrackets in
        splitHost s' (buf ++ [c]) inBrackets'
  end.

(** The authority ends at the first [/], [\], [?] or [#]. *)
Fixpoint splitAuthority (s : list N) : list N * list N :=
  match s with
  | [] => ([], [])
  | c :: s' =>
      if isSlash c || (c =? 63) || (c =? 35) then ([], s)
      else let '(a, r) := splitAuthority s' in (c :: a, r)
  end.

(** Authority, host and port states, then path start state and the rest. *)
Definition authorityState (scheme : jsstring) (s : list N) : parsed url_record :=
  let '(auth, rest) := splitAuthority s in
  if existsb (N.eqb 64) auth then Unsupported
  else
    let '(hostBuf, portBuf) := splitHost auth [] false in
    match hostBuf with
    | [] => Failure
    | _ =>
        pbind (parseHost hostBuf) (fun host =>
        pbind (match portBuf with
               | Some p => parsePort scheme p
               | None => Parsed None
               end) (fun port =>
        let rest' :=
          match rest with
          | c :: r => if isSlash c then r else rest
          | [] => rest
          end in
        let '(path, q, f) := pathState rest' [] [] in
        Parsed {| u_scheme := scheme; u_host := host; u_port := port;
                  u_path := path; u_query := q; u_fragment := f |}))
    end.

(** Special authority ignore slashes state. *)
Definition ignoreSlashes (scheme : jsstring) (s : list N) : parsed url_record :=
  authorityState scheme (dropWhile isSlash s).

(** Relative state and relative slash state, against a base that is
    special. *)
Definition relativeState (b : url_record) (s : list N) : parsed url_record :=
  match s with
  | [] =>
      Parsed {| u_scheme := u_scheme b; u_host := u_host b; u_port := u_port b;
                u_path := u_path b; u_query := u_query b; u_fragment := None |}
  | c :: s' =>
      if isSlash c then
        match s' with
        | d :: s'' =>
            if isSlash d then ignoreSlashes (u_scheme b) s''
            else
              let '(path, q, f) := pathState s' [] [] in
              Parsed {| u_scheme := u_scheme b; u_host := u_host b;
                        u_port := u_port b; u_path := path; u_query := q;
                        u_fragment := f |}
        | [] =>
            let '(path, q, f) := pathState [] [] [] in
            Parsed {| u_scheme := u_scheme b; u_host := u_host b;
                      u_port := u_port b; u_path := path; u_query := q;
                      u_fragment := f |}
        end
      else if c =? 63 then
        let '(q, f) := queryState s' [] in
        Parsed {| u_scheme := u_scheme b; u_host := u_host b; u_port := u_port b;
                  u_path := u_path b; u_query := Some q; u_fragment := f |}
      else if c =? 35 then
        Parsed {| u_scheme := u_scheme b; u_host := u_host b; u_port := u_port b;
                  u_path := u_path b; u_query := u_query b;
                  u_fragment := Some (fragmentState s') |}
      else
        let '(path, q, f) := pathState s [] (shorten (u_path b)) in
        Parsed {| u_scheme := u_scheme b; u_host := u_host b; u_port := u_port b;
                  u_path := path; u_query := q; u_fragment := f |}
  end.

Definition isHttpScheme (scheme : jsstring) : bool :=
  bool_decide (scheme = js "http") || bool_decide (scheme = js "https").

(** The basic URL parser. *)
Definition basicParse (input : jsstring) (base : option url_record)
  : parsed url_record :=
  let s := cleanInput (toUSV input) in
  if existsb (N.eqb 94) s then Unsupported else
  match parseScheme s with
  | Some (scheme, rest) =>
      if isHttpScheme scheme then
        match base with
        | Some b =>
            if bool_decide (u_scheme b = scheme) then
              if startsWith rest (js "//") then ignoreSlashes scheme (drop 2 rest)
              else relativeState b rest
            else ignoreSlashes scheme rest
        | None => ignoreSlashes scheme rest
        end
      else Unsupported
  | None =>
      match base with
      | Some b => relativeState b s
      | None => Failure
      end
  end.

Definition portString (p : N) : jsstring := js (pretty p).

(** URL serializer, and the origin of an http(s) URL. *)
Definition serializeOrigin (u : url_record) : jsstring :=
  u_scheme u ++ js "://" ++ u_host u
  ++ match u_port u with Some p => js ":" ++ portString p | None => [] end.

Definition serialize (u : url_record) : jsstring :=
  serializeOrigin u
  ++ flat_map (fun seg => js "/" ++ seg) (u_path u)
  ++ match u_query u with Some q => js "?" ++ q | None => [] end
  ++ match u_fragment u with Some f => js "#" ++ f | None => [] end.

(** [new URL(u)] and [new URL(u, base)]: the base is parsed first. *)
Definition parseURL (u : jsstring) (base : option jsstring) : parsed URL :=
  pbind (match base with
         | Some b => pbind (basicParse b None) (fun r => Parsed (Some r))
         | None => Parsed None
         end) (fun b =>
  pbind (basicParse u b) (fun r =>
  Parsed {| href := serialize r; origin := serializeOrigin r |})).

(** The reference runtime: [parseURL], where an input it does not cover is
    reported as invalid.  It is used for worked examples only, on inputs
    that [parseURL] covers. *)
Definition referenceURL (u : jsstring) (base : option jsstring) : completion URL :=
  match parseURL u base with
  | Parsed r => Normal r
  | Failure | Unsupported => Throw InvalidURL
  end.

Definition reference : Runtime := {| URL_new := referenceURL |}.

Definition hrefOf (u : jsstring) (base : option jsstring) : parsed jsstring :=
  pbind (parseURL u base) (fun r => Parsed (href r)).

(** ** Requests, responses and the outbound fetch *)

(** The inbound request: [req.method], [req.query.url], [req.query.referer]
    (absent, or a string) and [req.headers] (lower-case names). *)
Record request := {
  method : string;
  query_url : option jsstring;
  query_referer : option jsstring;
  req_headers : gmap string jsstring
}.

(** [process.env] *)
Record environment := { PROXY_BASE_URL : option jsstring }.

(** A value is truthy when it is defined and not the empty string. *)
Definition truthy (v : option jsstring) : bool :=
  match v with
  | Some (_ :: _) => true
  | _ => false
  end.

(** [a || b] with a string default, and with a default that may itself be
    undefined. *)
Definition orElse (a : option jsstring) (b : jsstring) : jsstring :=
  match a with
  | Some (c :: s) => c :: s
  | _ => b
  end.

Definition orElseOpt (a b : option jsstring) : option jsstring :=
  if truthy a then a else b.

(** A value inside a template literal: [undefined] prints as such. *)
Definition inTemplate (v : option jsstring) : jsstring :=
  match v with
  | Some s => s
  | None => js "undefined"
  end.

(** The JSON bodies the handlers send are flat objects; the properties
    keep the order in which the source writes them. *)
Inductive json_value :=
| JString (s : jsstring)
| JNumber (n : Z)
| JStrings (items : list jsstring).

Abbreviation json := (list (string * json_value)).

Inductive payload :=
| NoBody
| JsonBody (j : json)
| TextBody (s : jsstring)
| BinaryBody (b : list Byte.byte).

(** What the handler leaves in [res]: the status, the headers it set with
    [res.setHeader] (those that [res.json] and [res.send] add on their own
    are not recorded) and the body. *)
Record response := {
  status : Z;
  headers : gmap string jsstring;
  body : payload
}.

Definition setHeader (name : string) (value : jsstring)
  (res : gmap string jsstring) : gmap string jsstring :=
  <[name := value]> res.

Definition respond (res : gmap string jsstring) (code : Z) (b : payload) : response :=
  {| status := code; headers := res; body := b |}.

(** The configuration object passed to [axios]. *)
Record axios_config := {
  ax_method : string;
  ax_url : jsstring;
  ax_headers : gmap string jsstring;
  ax_responseType : string;
  ax_validateStatus : Z -> bool;
  ax_maxRedirects : Z;
  ax_timeout : Z;
  ax_decompress : option bool
}.

(** How a handler invocation ends: a response was sent, or the promise of
    the async function rejects with an error nobody caught. *)
Inductive outcome :=
| Responded (r : response)
| Uncaught (e : js_error).

(** A handler invocation either ends without any outbound request, or
    awaits exactly one [axios] call and continues with its completion. *)
Inductive handling :=
| Done (o : outcome)
| Await (cfg : axios_config) (k : completion axios_response -> outcome).

(** What happens upstream: a final response (after redirects), no response
    within the time allowed, or a network failure with its error code. *)
Inductive upstream :=
| Replies (r : axios_response)
| TimesOut
| Unreachable (code : string) (message : jsstring).

(** axios: a response is handed over when [validateStatus] accepts its
    status and thrown inside an AxiosError otherwise; a timeout is an
    AxiosError with code ECONNABORTED. *)
Definition axios (cfg : axios_config) (net : upstream) : completion axios_response :=
  match net with
  | Replies r =>
      if ax_validateStatus cfg (ar_status r) then Normal r
      else
        Throw {| e_name := "AxiosError";
                 e_message := js ("Request failed with status code " +:+ pretty (ar_status r));
                 e_code := match (ar_status r / 100 - 4)%Z with
                           | 0%Z => Some "ERR_BAD_REQUEST"
                           | 1%Z => Some "ERR_BAD_RESPONSE"
                           | _ => None
                           end;
                 e_response := Some r |}
  | TimesOut =>
      Throw {| e_name := "AxiosError";
               e_message := js ("timeout of " +:+ pretty (ax_timeout cfg) +:+ "ms exceeded");
               e_code := Some "ECONNABORTED";
               e_response := None |}
  | Unreachable code message =>
      Throw {| e_name := "AxiosError"; e_message := message;
               e_code := Some code; e_response := None |}
  end.

Definition run (h : handling) (net : upstream) : outcome :=
  match h with
  | Done o => o
  | Await cfg k => k (axios cfg net)
  end.

(** The request the handler sent upstream, if any. *)
Definition fetched (h : handling) : option axios_config :=
  match h with
  | Done _ => None
  | Await cfg _ => Some cfg
  end.

(** ** Constants of the source *)

Definition quote : jsstring := [34].
(** The line feed the playlist is split and joined on. *)
Definition LF : jsstring := [10].
Definition defaultReferer : jsstring := js "https://megacloud.tv".
Definition userAgent : jsstring :=
  js "Mozilla/5.0 (Windows NT 10.0; Win64; x64) AppleWebKit/537.36 (KHTML, like Gecko) Chrome/120.0.0.0 Safari/537.36".
Definition immutablePolicy : jsstring := js "public, max-age=31536000, immutable".
Definition noStorePolicy : jsstring := js "no-cache, no-store, must-revalidate".
Definition moderatePolicy : jsstring := js "public, max-age=3600".

(** The self-referencing proxy call
    [${proxyBase}/api/proxy?url=${encodedUrl}&referer=${encodedReferer}]. *)
Definition proxyCall (proxyBase encodedUrl encodedReferer : jsstring) : jsstring :=
  proxyBase ++ js "/api/proxy?url=" ++ encodedUrl ++ js "&referer=" ++ encodedReferer.

(** [validateStatus: (status) => status < 500] *)
Definition validateStatus (s : Z) : bool := (s <? 500)%Z.

(** ** The first handler *)

(** [s.replace(/\/$/, '')]: one trailing slash is removed. *)
Definition stripTrailingSlash (s : jsstring) : jsstring :=
  match last s with
  | Some 47 => removelast s
  | _ => s
  end.

(** [getProxyBaseUrl(req)] *)
Definition getProxyBaseUrl (env : environment) (req : request) : jsstring :=
  if truthy (PROXY_BASE_URL env) then
    stripTrailingSlash (inTemplate (PROXY_BASE_URL env))
  else
    let protocol := orElse (req_headers req !! "x-forwarded-proto") (js "https") in
    let host := orElseOpt (req_headers req !! "x-forwarded-host")
                          (req_headers req !! "host") in
    protocol ++ js "://" ++ inTemplate host.

(** The longest prefix without a double quote, and what follows it. *)
Fixpoint spanUnquoted (s : jsstring) : jsstring * jsstring :=
  match s with
  | [] => ([], [])
  | c :: s' =>
      if c =? 34 then ([], s)
      else let '(run, rest) := spanUnquoted s' in (c :: run, rest)
  end.

(** A match at the start of [s] of the regular expression of
    [rewriteUriInTag] (the text URI=, a double quote, one or more characters
    other than a double quote, a double quote): the captured group and what
    follows the match.  The group is greedy, so it is the whole run. *)
Definition matchUriHere (s : jsstring) : option (jsstring * jsstring) :=
  if startsWith s (js "URI=" ++ quote) then
    match spanUnquoted (drop 5 s) with
    | (c :: run, q :: rest) => Some (c :: run, rest)
    | _ => None
    end
  else None.

(** The leftmost match of that regular expression in [s]: what precedes
    it, the captured group and what follows. *)
Fixpoint matchUri (s : jsstring) : option (jsstring * jsstring * jsstring) :=
  match matchUriHere s with
  | Some (uri, rest) => Some ([], uri, rest)
  | None =>
      match s with
      | [] => None
      | c :: s' =>
          match matchUri s' with
          | Some (before, uri, rest) => Some (c :: before, uri, rest)
          | None => None
          end
      end
  end.

(** A blank line or a comment or directive line, as both handlers test it. *)
Definition isCommentOrBlank (line : jsstring) : bool :=
  bool_decide (trim line = []) || startsWith (trim line) (js "#").

Section Handlers.
Context {R : Runtime}.

(** [rewriteUriInTag(tag, basePath, proxyBaseUrl, encodedReferer)]: the
    first match is replaced by what the callback returns; only the [URL]
    constructor sits inside the callback's [try]. *)
Definition rewriteUriInTag (tag basePath proxyBaseUrl encodedReferer : jsstring)
  : completion jsstring :=
  match matchUri tag with
  | None => Normal tag
  | Some (before, uri, rest) =>
      let matched := js "URI=" ++ quote ++ uri ++ quote in
      let proxied targetUrl :=
        encodedUrl ← encodeURIComponent targetUrl;
        Normal (js "URI=" ++ quote
                ++ proxyCall proxyBaseUrl encodedUrl encodedReferer ++ quote) in
      replacement ←
        (if negb (startsWith uri (js "http")) then
           match URL_new uri (Some basePath) with
           | Normal u => proxied (href u)
           | Throw _ => Normal matched
           end
         else proxied uri);
      Normal (before ++ replacement ++ rest)
  end.

(** The callback of [lines.map] in the first handler. *)
Definition rewriteLine1 (basePath proxyBaseUrl encodedReferer line : jsstring)
  : completion jsstring :=
  let trimmedLine := trim line in
  if bool_decide (trimmedLine = []) || startsWith trimmedLine (js "#") then
    if includes trimmedLine (js "URI=" ++ quote) then
      rewriteUriInTag trimmedLine basePath proxyBaseUrl encodedReferer
    else Normal line
  else
    targetUrl ←
      (if negb (startsWith trimmedLine (js "http")) then
         u ← URL_new trimmedLine (Some basePath); Normal (href u)
       else Normal trimmedLine);
    encodedUrl ← encodeURIComponent targetUrl;
    Normal (proxyCall proxyBaseUrl encodedUrl encodedReferer).

(** [decodedUrl.substring(0, decodedUrl.lastIndexOf('/') + 1)] *)
Definition basePathOf (decodedUrl : jsstring) : jsstring :=
  substring decodedUrl 0 (lastIndexOf decodedUrl (js "/") + 1).

(** The playlist branch of the first handler, from [content] to
    [newContent]. *)
Definition rewritePlaylist1 (content decodedUrl proxyBaseUrl decodedReferer : jsstring)
  : completion jsstring :=
  let basePath := basePathOf decodedUrl in
  encodedReferer ← encodeURIComponent decodedReferer;
  let lines := split content 10 in
  newLines ← mapM (rewriteLine1 basePath proxyBaseUrl encodedReferer) lines;
  Normal (join newLines LF).

(** The headers of the outbound request of the first handler. *)
Definition fetchHeaders1 (req : request) (decodedReferer : jsstring)
  : gmap string jsstring :=
  let h := req_headers req in
  let headers : gmap string jsstring :=
    <["Accept-Encoding" := orElse (h !! "accept-encoding") (js "identity")]>
    (<["Accept-Language" := orElse (h !! "accept-language") (js "en-US,en;q=0.9")]>
    (<["Accept" := orElse (h !! "accept") (js "*/*")]>
    (<["Origin" := decodedReferer]>
    (<["Referer" := decodedReferer]>
    (<["User-Agent" := orElse (h !! "user-agent") userAgent]> ∅))))) in
  match h !! "range" with
  | Some (c :: r) => <["Range" := c :: r]> headers
  | _ => headers
  end.

Definition fetchConfig (decompress : option bool) (decodedUrl : jsstring)
  (headers : gmap string jsstring) : axios_config :=
  {| ax_method := "GET"; ax_url := decodedUrl; ax_headers := headers;
     ax_responseType := "arraybuffer"; ax_validateStatus := validateStatus;
     ax_maxRedirects := 5; ax_timeout := 30000; ax_decompress := decompress |}.

(** Forward [name] from upstream when it is there (and not empty). *)
Definition forward (name : string) (from : string) (response : axios_response)
  (res : gmap string jsstring) : gmap string jsstring :=
  match ar_headers response !! from with
  | Some (c :: v) => setHeader name (c :: v) res
  | _ => res
  end.

(** Cache control based on file type, first handler. *)
Definition cacheControl1 (decodedUrl : jsstring) (res : gmap string jsstring)
  : gmap string jsstring :=
  if endsWith decodedUrl (js ".ts") || endsWith decodedUrl (js ".m4s")
     || endsWith decodedUrl (js ".mp4") then
    setHeader "Cache-Control" immutablePolicy res
  else if endsWith decodedUrl (js ".m3u8") || endsWith decodedUrl (js ".mpd") then
    setHeader "Expires" (js "0")
      (setHeader "Pragma" (js "no-cache")
        (setHeader "Cache-Control" noStorePolicy res))
  else
    setHeader "Cache-Control" moderatePolicy res.

(** [response.headers['content-type'] || 'application/octet-stream'] *)
Definition contentType1 (response : axios_response) : jsstring :=
  orElse (ar_headers response !! "content-type") (js "application/octet-stream").

(** The test [isM3U8] of the first handler. *)
Definition isM3U8 (contentType decodedUrl : jsstring) : bool :=
  includes contentType (js "mpegurl")
  || includes contentType (js "x-mpegurl")
  || endsWith decodedUrl (js ".m3u8").

(** The [catch] block of the first handler; [res] holds the headers set
    before the throw. *)
Definition catch1 (res : gmap string jsstring) (error : js_error)
  (decodedUrl : jsstring) : response :=
  let res := setHeader "Access-Control-Allow-Origin" (js "*") res in
  if bool_decide (e_code error = Some "ECONNABORTED") then
    respond res 504 (JsonBody [
      ("error", JString (js "Gateway timeout"));
      ("message", JString (js "Request to upstream timed out"));
      ("url", JString decodedUrl)])
  else if bool_decide (e_code error = Some "ENOTFOUND")
          || bool_decide (e_code error = Some "EAI_AGAIN") then
    respond res 502 (JsonBody [
      ("error", JString (js "DNS lookup failed"));
      ("message", JString (js "Could not resolve upstream host"));
      ("url", JString decodedUrl)])
  else
    match e_response error with
    | Some r =>
        respond res (if (ar_status r =? 0)%Z then 502 else ar_status r)
          (JsonBody [
            ("error", JString (js "Upstream error"));
            ("status", JNumber (ar_status r));
            ("message", JString (e_message error));
            ("url", JString decodedUrl)])
    | None =>
        respond res 500 (JsonBody [
          ("error", JString (js "Internal proxy error"));
          ("message", JString (e_message error));
          ("url", JString decodedUrl)])
    end.

(** The [try] block of the first handler after [await axios(...)]. *)
Definition afterFetch1 (env : environment) (req : request)
  (decodedUrl decodedReferer : jsstring)
  (result : completion axios_response) : response :=
  match result with
  | Throw error => catch1 ∅ error decodedUrl
  | Normal response =>
      if (400 <=? ar_status response)%Z then
        respond (setHeader "Access-Control-Allow-Origin" (js "*") ∅)
          (ar_status response)
          (JsonBody [
            ("error", JString (js "Upstream error"));
            ("status", JNumber (ar_status response));
            ("statusText", JString (ar_statusText response));
            ("url", JString decodedUrl)])
      else
        let res :=
          setHeader "Access-Control-Expose-Headers"
            (js "Content-Length, Content-Range, Accept-Ranges, Cache-Control, Content-Type, ETag")
          (setHeader "Access-Control-Allow-Headers"
            (js "Range, Content-Type, Accept, Accept-Encoding, Origin, Referer")
          (setHeader "Access-Control-Allow-Methods" (js "GET, OPTIONS")
          (setHeader "Access-Control-Allow-Origin" (js "*") ∅))) in
        let contentType := contentType1 response in
        let res := setHeader "Content-Type" contentType res in
        let res := forward "Content-Length" "content-length" response res in
        let res := forward "Content-Range" "content-range" response res in
        let res :=
          setHeader "Accept-Ranges"
            (orElse (ar_headers response !! "accept-ranges") (js "bytes")) res in
        let res := forward "ETag" "etag" response res in
        let res := forward "Last-Modified" "last-modified" response res in
        let res := cacheControl1 decodedUrl res in
        if isM3U8 contentType decodedUrl then
          let content := bufferToString (ar_data response) in
          let proxyBaseUrl := getProxyBaseUrl env req in
          match rewritePlaylist1 content decodedUrl proxyBaseUrl decodedReferer with
          | Normal newContent => respond res (ar_status response) (TextBody newContent)
          | Throw error => catch1 res error decodedUrl
          end
        else
          respond res (ar_status response) (BinaryBody (ar_data response))
  end.

(** [handler(req, res)], first implementation. *)
Definition handler1 (env : environment) (req : request) : handling :=
  if bool_decide (method req = "OPTIONS") then
    Done (Responded (respond
      (setHeader "Access-Control-Max-Age" (js "86400")
      (setHeader "Access-Control-Expose-Headers"
        (js "Content-Length, Content-Range, Accept-Ranges, Cache-Control, Content-Type")
      (setHeader "Access-Control-Allow-Headers"
        (js "Range, Content-Type, Accept, Accept-Encoding, Origin, Referer")
      (setHeader "Access-Control-Allow-Methods" (js "GET, OPTIONS")
      (setHeader "Access-Control-Allow-Origin" (js "*") ∅)))))
      204 NoBody))
  else if negb (bool_decide (method req = "GET")) then
    Done (Responded (respond
      (setHeader "Access-Control-Allow-Origin" (js "*") ∅) 405
      (JsonBody [
        ("error", JString (js "Method not allowed"));
        ("allowedMethods", JStrings [js "GET"; js "OPTIONS"])])))
  else if negb (truthy (query_url req)) then
    Done (Responded (respond
      (setHeader "Access-Control-Allow-Origin" (js "*") ∅) 400
      (JsonBody [
        ("error", JString (js "URL parameter is required"));
        ("usage", JString (js "/api/proxy?url=<encoded_url>&referer=<optional_referer>"))])))
  else
    match decodeURIComponent (inTemplate (query_url req)) with
    | Throw e =>
        Done (Responded (respond
          (setHeader "Access-Control-Allow-Origin" (js "*") ∅) 400
          (JsonBody [
            ("error", JString (js "Invalid URL encoding"));
            ("message", JString (e_message e))])))
    | Normal decodedUrl =>
        match URL_new decodedUrl None with
        | Throw e =>
            Done (Responded (respond
              (setHeader "Access-Control-Allow-Origin" (js "*") ∅) 400
              (JsonBody [
                ("error", JString (js "Invalid URL format"));
                ("url", JString decodedUrl)])))
        | Normal _ =>
            match (if truthy (query_referer req)
                   then decodeURIComponent (inTemplate (query_referer req))
                   else Normal defaultReferer) with
            | Throw e => Done (Uncaught e)
            | Normal decodedReferer =>
                Await (fetchConfig (Some true) decodedUrl (fetchHeaders1 req decodedReferer))
                      (fun result =>
                         Responded (afterFetch1 env req decodedUrl decodedReferer result))
            end
        end
    end.

(** ** The second handler *)

(** The callback of [lines.map] in the second handler: the reference is
    appended to [basePath], and the referer is encoded as it came in the
    query. *)
Definition rewriteLine2 (basePath proxyBase : jsstring) (referer : option jsstring)
  (line : jsstring) : completion jsstring :=
  let line := trim line in
  if bool_decide (line = []) || startsWith line (js "#") then Normal line
  else
    let targetUrl :=
      if negb (startsWith line (js "http")) then basePath ++ line else line in
    encodedUrl ← encodeURIComponent targetUrl;
    encodedReferer ← encodeURIComponent (orElse referer defaultReferer);
    Normal (proxyCall proxyBase encodedUrl encodedReferer).

(** The playlist branch of the second handler. *)
Definition rewritePlaylist2 (content decodedUrl proxyBase : jsstring)
  (referer : option jsstring) : completion jsstring :=
  let basePath := basePathOf decodedUrl in
  let lines := split content 10 in
  newLines ← mapM (rewriteLine2 basePath proxyBase referer) lines;
  Normal (join newLines LF).

(** The proxy base of the second handler, always from the request. *)
Definition proxyBase2 (req : request) : jsstring :=
  let host := orElseOpt (req_headers req !! "x-forwarded-host")
                        (req_headers req !! "host") in
  let protocol := orElse (req_headers req !! "x-forwarded-proto") (js "https") in
  protocol ++ js "://" ++ inTemplate host.

(** The CORS headers the second handler sets before anything else. *)
Definition corsHeaders2 : gmap string jsstring :=
  setHeader "Access-Control-Max-Age" (js "86400")
  (setHeader "Access-Control-Expose-Headers"
    (js "Content-Length, Content-Range, Accept-Ranges, Cache-Control")
  (setHeader "Access-Control-Allow-Headers"
    (js "Range, Content-Type, Accept, Accept-Encoding")
  (setHeader "Access-Control-Allow-Methods" (js "GET, OPTIONS")
  (setHeader "Access-Control-Allow-Origin" (js "*") ∅)))).

(** The [catch] block of the second handler. *)
Definition catch2 (res : gmap string jsstring) (error : js_error) : response :=
  match e_response error with
  | Some r =>
      respond res (ar_status r)
        (JsonBody [("error", JString (js "Upstream error"));
                   ("status", JNumber (ar_status r))])
  | None => respond res 500 (JsonBody [("error", JString (e_message error))])
  end.

(** The headers of the outbound request of the second handler; the
    [URL] constructor may throw on the decoded referer. *)
Definition fetchHeaders2 (req : request) : completion (gmap string jsstring) :=
  let headers : gmap string jsstring :=
    <["Sec-Fetch-Site" := js "cross-site"]>
    (<["Sec-Fetch-Mode" := js "cors"]>
    (<["Sec-Fetch-Dest" := js "empty"]>
    (<["Pragma" := js "no-cache"]>
    (<["Cache-Control" := js "no-cache"]>
    (<["Connection" := js "keep-alive"]>
    (<["Accept-Encoding" := js "gzip, deflate, br"]>
    (<["Accept-Language" := js "en-US,en;q=0.9"]>
    (<["Accept" := js "*/*"]>
    (<["User-Agent" := userAgent]> ∅))))))))) in
  headers ←
    (if truthy (query_referer req) then
       decodedReferer ← decodeURIComponent (inTemplate (query_referer req));
       u ← URL_new decodedReferer None;
       Normal (<["Origin" := origin u]> (<["Referer" := decodedReferer]> headers))
     else
       Normal (<["Origin" := js "https://megacloud.tv"]>
               (<["Referer" := js "https://megacloud.tv"]> headers)));
  Normal (match req_headers req !! "range" with
          | Some (c :: r) => <["Range" := c :: r]> headers
          | _ => headers
          end).

(** Cache control of the second handler. *)
Definition cacheControl2 (decodedUrl : jsstring) (res : gmap string jsstring)
  : gmap string jsstring :=
  if endsWith decodedUrl (js ".ts") || endsWith decodedUrl (js ".m4s") then
    setHeader "Cache-Control" immutablePolicy res
  else if endsWith decodedUrl (js ".m3u8") then
    setHeader "Cache-Control" (js "no-cache") res
  else res.

(** [response.headers['content-type'] || 'application/vnd.apple.mpegurl'] *)
Definition contentType2 (response : axios_response) : jsstring :=
  orElse (ar_headers response !! "content-type") (js "application/vnd.apple.mpegurl").

(** The test of the playlist branch of the second handler. *)
Definition isPlaylist2 (contentType decodedUrl : jsstring) : bool :=
  includes contentType (js "mpegurl") || endsWith decodedUrl (js ".m3u8").

(** The [try] block of the second handler after [await axios(...)]. *)
Definition afterFetch2 (req : request) (decodedUrl : jsstring)
  (result : completion axios_response) : response :=
  match result with
  | Throw error => catch2 corsHeaders2 error
  | Normal response =>
      let contentType := contentType2 response in
      let res := setHeader "Content-Type" contentType corsHeaders2 in
      let res := forward "Content-Length" "content-length" response res in
      let res := forward "Content-Range" "content-range" response res in
      let res :=
        setHeader "Accept-Ranges"
          (orElse (ar_headers response !! "accept-ranges") (js "bytes")) res in
      let res := cacheControl2 decodedUrl res in
      if isPlaylist2 contentType decodedUrl then
        let content := bufferToString (ar_data response) in
        match rewritePlaylist2 content decodedUrl (proxyBase2 req) (query_referer req) with
        | Normal newContent => respond res (ar_status response) (TextBody newContent)
        | Throw error => catch2 res error
        end
      else
        respond res (ar_status response) (BinaryBody (ar_data response))
  end.

(** [handler(req, res)], second implementation. *)
Definition handler2 (req : request) : handling :=
  if bool_decide (method req = "OPTIONS") then
    Done (Responded (respond corsHeaders2 200 NoBody))
  else if negb (bool_decide (method req = "GET")) then
    Done (Responded (respond corsHeaders2 405
      (JsonBody [("error", JString (js "Method not allowed"))])))
  else if negb (truthy (query_url req)) then
    Done (Responded (respond corsHeaders2 400
      (JsonBody [("error", JString (js "URL parameter is required"))])))
  else
    match decodeURIComponent (inTemplate (query_url req)) with
    | Throw error => Done (Responded (catch2 corsHeaders2 error))
    | Normal decodedUrl =>
        match fetchHeaders2 req with
        | Throw error => Done (Responded (catch2 corsHeaders2 error))
        | Normal headers =>
            Await (fetchConfig None decodedUrl headers)
                  (fun result => Responded (afterFetch2 req decodedUrl result))
        end
    end.

End Handlers.

(** ** Vocabulary of the statements *)

(** A Unicode scalar value. *)
Definition isScalar (cp : N) : Prop :=
  cp < 1114112 /\ ~ (55296 <= cp <= 57343).

(** The referer the first handler works with:
    [referer ? decodeURIComponent(referer) : 'https://megacloud.tv']. *)
Definition refererOf1 (req : request) : completion jsstring :=
  if truthy (query_referer req)
  then decodeURIComponent (inTemplate (query_referer req))
  else Normal defaultReferer.

(** A line that both handlers resolve against the base path: not blank,
    not a comment, and not starting with [http]. *)
Definition isRelativeReference (line : jsstring) : bool :=
  negb (isCommentOrBlank line) && negb (startsWith (trim line) (js "http")).

(** What [rewriteUriInTag] puts in place of the match, for the captured
    [uri]: a proxy call on [uri] itself when it starts with [http], a proxy
    call on its resolution when that succeeds, and the match as it was when
    the [URL] constructor throws. *)
Inductive tagReplacement {R : Runtime} (basePath P encRef uri : jsstring)
  : jsstring -> Prop :=
| replaced_absolute E :
    startsWith uri (js "http") = true ->
    encodeURIComponent uri = Normal E ->
    tagReplacement basePath P encRef uri
      (js "URI=" ++ quote ++ proxyCall P E encRef ++ quote)
| replaced_resolved u E :
    startsWith uri (js "http") = false ->
    URL_new uri (Some basePath) = Normal u ->
    encodeURIComponent (href u) = Normal E ->
    tagReplacement basePath P encRef uri
      (js "URI=" ++ quote ++ proxyCall P E encRef ++ quote)
| replaced_not e :
    startsWith uri (js "http") = false ->
    URL_new uri (Some basePath) = Throw e ->
    tagReplacement basePath P encRef uri (js "URI=" ++ quote ++ uri ++ quote).

(** How a line of a rewritten playlist relates to the line it comes from,
    when the referer sent upstream was [ref]: it is kept (as it is, or
    trimmed), or it is or holds a proxy call whose referer parameter
    percent-decodes to [ref]. *)
Inductive outLine (P ref line : jsstring) : jsstring -> Prop :=
| line_kept : outLine P ref line line
| line_trimmed : outLine P ref line (trim line)
| line_link E encRef :
    decodeURIComponent encRef = Normal ref ->
    outLine P ref line (proxyCall P E encRef)
| line_tag before E encRef rest :
    decodeURIComponent encRef = Normal ref ->
    outLine P ref line
      (before ++ js "URI=" ++ quote ++ proxyCall P E encRef ++ quote ++ rest).

(** The referer query parameter holds no percent escape: it decodes to
    itself. *)
Definition refererUnescaped (req : request) : Prop :=
  truthy (query_referer req) = true ->
  decodeURIComponent (inTemplate (query_referer req))
  = Normal (inTemplate (query_referer req)).

Definition bodyOf (o : outcome) : option payload :=
  match o with
  | Responded r => Some (body r)
  | Uncaught _ => None
  end.

Definition statusOf (o : outcome) : option Z :=
  match o with
  | Responded r => Some (status r)
  | Uncaught _ => None
  end.

(** The response of an invocation that responds. *)
Definition responseOf (o : outcome) : response :=
  match o with
  | Responded r => r
  | Uncaught _ => respond ∅ 0 NoBody
  end.

(** The outbound request of an invocation that fetches. *)
Definition configOf (h : handling) : axios_config :=
  default (fetchConfig None [] ∅) (fetched h).

(** The headers of the response of an invocation that responds. *)
Definition headersOf (o : outcome) : gmap string jsstring := headers (responseOf o).

(** An upstream header as the handlers forward it: only when it is there
    and not empty. *)
Definition forwarded (r : axios_response) (from : string) : option jsstring :=
  if truthy (ar_headers r !! from) then ar_headers r !! from else None.

(** The headers the first handler has set when the upstream status is below
    400, before it looks at the body; and those of the second handler. *)
Definition sent1 (url : jsstring) (r : axios_response) : gmap string jsstring :=
  cacheControl1 url
    (forward "Last-Modified" "last-modified" r
    (forward "ETag" "etag" r
    (setHeader "Accept-Ranges" (orElse (ar_headers r !! "accept-ranges") (js "bytes"))
    (forward "Content-Range" "content-range" r
    (forward "Content-Length" "content-length" r
    (setHeader "Content-Type" (contentType1 r)
    (setHeader "Access-Control-Expose-Headers"
       (js "Content-Length, Content-Range, Accept-Ranges, Cache-Control, Content-Type, ETag")
    (setHeader "Access-Control-Allow-Headers"
       (js "Range, Content-Type, Accept, Accept-Encoding, Origin, Referer")
    (setHeader "Access-Control-Allow-Methods" (js "GET, OPTIONS")
    (setHeader "Access-Control-Allow-Origin" (js "*") ∅)))))))))).

Definition sent2 (url : jsstring) (r : axios_response) : gmap string jsstring :=
  cacheControl2 url
    (setHeader "Accept-Ranges" (orElse (ar_headers r !! "accept-ranges") (js "bytes"))
    (forward "Content-Range" "content-range" r
    (forward "Content-Length" "content-length" r
    (setHeader "Content-Type" (contentType2 r) corsHeaders2)))).

(** [s.isWellFormed()]: no surrogate without its partner, which is what
    [encodeURIComponent] needs. *)
Fixpoint isWellFormed (s : jsstring) : bool :=
  match s with
  | [] => true
  | c :: s' =>
      if isLowSurrogate c then false
      else if isHighSurrogate c then
        match s' with
        | d :: s'' => isLowSurrogate d && isWellFormed s''
        | [] => false
        end
      else isWellFormed s'
  end.

(** A line the first handler can rewrite: every reference it resolves has a
    well-formed [href]; a reference inside a directive may also fail to
    resolve, a reference on a line of its own may not. *)
Definition rewritable1 {R : Runtime} (basePath line : jsstring) : bool :=
  if isCommentOrBlank line then
    match matchUri (trim line) with
    | Some (_, uri, _) =>
        startsWith uri (js "http")
        || match URL_new uri (Some basePath) with
           | Normal u => isWellFormed (href u)
           | Throw _ => true
           end
    | None => true
    end
  else
    startsWith (trim line) (js "http")
    || match URL_new (trim line) (Some basePath) with
       | Normal u => isWellFormed (href u)
       | Throw _ => false
       end.

(** The states of the decoder in which every completion of the sequence is
    a scalar value. *)
Fixpoint completes (need : nat) (cp lo hi : N) : Prop :=
  match need with
  | O => True
  | S m =>
      forall b, lo <= b <= hi ->
        match m with
        | O => isScalar (cp * 64 + (b - 128))
        | S _ => completes m (cp * 64 + (b - 128)) 128 191
        end
  end.

(** What the rewriting makes of a line [L] that starts with [http]: a proxy
    call whose [url] parameter is the encoding of the whole trimmed line, so
    that it percent-decodes to that line. *)
Definition wrapped (P L o : jsstring) : Prop :=
  exists E encRef,
    encodeURIComponent (trim L) = Normal E
    /\ decodeURIComponent E = Normal (trim L)
    /\ o = proxyCall P E encRef.

(** ** Inputs of the worked examples *)

(** A GET request with the given (still encoded) [url] and [referer] query
    parameters and headers. *)
Definition get (url : string) (referer : option string) (hs : list (string * string))
  : request :=
  {| method := "GET"; query_url := Some (js url);
     query_referer := js <$> referer;
     req_headers := list_to_map (prod_map id js <$> hs) |}.

Definition noEnv : environment := {| PROXY_BASE_URL := None |}.

Definition envWithBase : environment :=
  {| PROXY_BASE_URL := Some (js "https://proxy.example/") |}.

Definition reply (code : Z) (contentType : string) (data : list Byte.byte)
  : axios_response :=
  {| ar_status := code; ar_statusText := js "OK";
     ar_headers := {[ "content-type" := js contentType ]};
     ar_data := data |}.

Definition ok200 (contentType : string) (data : list Byte.byte) : upstream :=
  Replies (reply 200 contentType data).

Definition denied : axios_response :=
  {| ar_status := 403; ar_statusText := js "Forbidden";
     ar_headers := {[ "content-type" := js "text/html" ]};
     ar_data := bytes "denied" |}.

Definition mpegurl : string := "application/vnd.apple.mpegurl".
Definition LFb : list Byte.byte := [Byte.x0a].
Definition proxyHost : list (string * string) := [("host", "proxy.example")].
Definition proxyExample : jsstring := js "https://proxy.example".

Definition playlistUrl : string :=
  "https%3A%2F%2Fcdn.example.com%2Fvideos%2Fabc%2Fplaylist.m3u8".
Definition exampleUrl : jsstring :=
  js "https://cdn.example.com/videos/abc/playlist.m3u8".
Definition exampleBase : jsstring := js "https://cdn.example.com/videos/abc/".
Definition exampleURL : URL :=
  {| href := exampleUrl; origin := js "https://cdn.example.com" |}.

Definition exampleRequest : request := get playlistUrl None proxyHost.

(** The same request through another host name, with a range. *)
Definition otherRequest : request :=
  get playlistUrl None
      [("x-forwarded-host", "proxy.example"); ("host", "internal"); ("range", "bytes=0-9")].

Definition segmentRequest : request :=
  get "https%3A%2F%2Fcdn.example.com%2Fvideos%2Fabc%2Fsegment001.ts" None proxyHost.

Definition mp4Request : request :=
  get "https%3A%2F%2Fcdn.example.com%2Fvideos%2Fabc%2Fmovie.mp4" None proxyHost.

Definition escapedRefererRequest : request :=
  get playlistUrl (Some "https://a.com/%41") proxyHost.

Definition malformedRefererRequest : request :=
  get playlistUrl (Some "https://a.com/%zz") proxyHost.

Definition noUrlRequest : request :=
  {| method := "GET"; query_url := None;
     query_referer := Some (js "https://a.com");
     req_headers := list_to_map [("host", js "proxy.example"); ("range", js "bytes=0-99")] |}.

Definition optionsRequest : request :=
  {| method := "OPTIONS"; query_url := None; query_referer := None;
     req_headers := list_to_map [("host", js "proxy.example")] |}.

Definition postRequest : request :=
  {| method := "POST"; query_url := Some (js playlistUrl); query_referer := None;
     req_headers := list_to_map [("host", js "proxy.example")] |}.

Definition rangeRequest : request :=
  get "https%3A%2F%2Fcdn.example.com%2Fvideos%2Fabc%2Fsegment001.ts" None
      [("host", "proxy.example"); ("range", "bytes=100-199")].

Definition undecodableUrlRequest : request := get "%E0%A4%A" None proxyHost.
Definition relativeUrlRequest : request := get "playlist.m3u8" None proxyHost.

Definition unavailable : axios_response :=
  {| ar_status := 503; ar_statusText := js "Service Unavailable";
     ar_headers := ∅; ar_data := bytes "busy" |}.

(** A request for the playlist through the proxy itself. *)
Definition proxiedRequest : request :=
  get "https%3A%2F%2Fproxy.example%2Fapi%2Fproxy%3Furl%3Dhttps%253A%252F%252Fcdn.example.com%252Fvideos%252Fabc%252Fplaylist.m3u8%26referer%3Dhttps%253A%252F%252Fmegacloud.tv"
      None proxyHost.

Definition exampleConfig1 : axios_config :=
  configOf (handler1 (R := reference) noEnv exampleRequest).
Definition exampleConfig2 : axios_config :=
  configOf (handler2 (R := reference) exampleRequest).
Definition segmentConfig2 : axios_config :=
  configOf (handler2 (R := reference) segmentRequest).
Definition mp4Config2 : axios_config :=
  configOf (handler2 (R := reference) mp4Request).

(** The directive [#EXT-X-KEY:METHOD=AES-128,URI=...] with the quoted value
    [key.bin], and with the value [//], which does not resolve. *)
Definition keyLine : list Byte.byte :=
  bytes "#EXT-X-KEY:METHOD=AES-128,URI=" ++ [Byte.x22] ++ bytes "key.bin" ++ [Byte.x22].
Definition badKeyLine : list Byte.byte :=
  bytes "#EXT-X-KEY:METHOD=AES-128,URI=" ++ [Byte.x22] ++ bytes "//" ++ [Byte.x22].

Definition playlistBytes : list Byte.byte :=
  bytes "#EXTM3U" ++ LFb ++ keyLine ++ LFb ++ bytes "segment001.ts".
Definition examplePlaylist : jsstring := bufferToString playlistBytes.

Definition onceRewritten : string :=
  "https://proxy.example/api/proxy?url=https%3A%2F%2Fcdn.example.com%2Fvideos%2Fabc%2Fsegment001.ts&referer=https%3A%2F%2Fmegacloud.tv".

Definition twiceRewritten : string :=
  "https://proxy.example/api/proxy?url=https%3A%2F%2Fproxy.example%2Fapi%2Fproxy%3Furl%3Dhttps%253A%252F%252Fcdn.example.com%252Fvideos%252Fabc%252Fsegment001.ts%26referer%3Dhttps%253A%252F%252Fmegacloud.tv&referer=https%3A%2F%2Fmegacloud.tv".

Definition rewrittenKeyLine : jsstring :=
  js "#EXT-X-KEY:METHOD=AES-128,URI=" ++ quote
  ++ js "https://proxy.example/api/proxy?url=https%3A%2F%2Fcdn.example.com%2Fvideos%2Fabc%2Fkey.bin&referer=https%3A%2F%2Fmegacloud.tv"
  ++ quote.

Definition rewrittenPlaylist1 : jsstring :=
  js "#EXTM3U" ++ LF ++ rewrittenKeyLine ++ LF ++ js onceRewritten.

Definition rewrittenPlaylist2 : jsstring :=
  js "#EXTM3U" ++ LF ++ bufferToString keyLine ++ LF ++ js onceRewritten.

(** The playlist URL as a query parameter without any escape. *)
Definition plainUrlRequest : request :=
  get "https://cdn.example.com/videos/abc/playlist.m3u8" None proxyHost.

(** A segment served without a content type, and a partial response with
    the headers of a range request. *)
Definition untypedSegment : axios_response :=
  {| ar_status := 200; ar_statusText := js "OK"; ar_headers := ∅;
     ar_data := bytes "G@" |}.

Definition partialSegment : axios_response :=
  {| ar_status := 206; ar_statusText := js "Partial Content";
     ar_headers := list_to_map [("content-type", js "video/mp2t");
                                ("content-length", js "100");
                                ("content-range", js "bytes 100-199/5000");
                                ("etag", js "abc")];
     ar_data := bytes "G@" |}.

(** An indented key directive whose value does not resolve, one with two
    attributes, and one with an empty value, which the expression does not
    match. *)
Definition unresolvableTag : jsstring :=
  js "  #EXT-X-KEY:METHOD=AES-128,URI=" ++ quote ++ js "//" ++ quote.

Definition twoUriTag : jsstring :=
  js "#EXT-X-KEY:METHOD=AES-128," ++ js "URI=" ++ quote ++ js "key.bin" ++ quote
  ++ js ",URI=" ++ quote ++ js "other.bin" ++ quote.

Definition emptyUriTag : jsstring :=
  js "  #EXT-X-KEY:METHOD=NONE,URI=" ++ quote ++ quote.

(** Requests whose referer is a page address, and a word that is no URL. *)
Definition pageRefererRequest : request :=
  get playlistUrl (Some "https://site.example/watch?v=1") proxyHost.

Definition wordRefererRequest : request :=
  get playlistUrl (Some "megacloud") proxyHost.

(** A request that brings its own browser headers. *)
Definition browserRequest : request :=
  get playlistUrl None
      [("host", "proxy.example"); ("user-agent", "curl/8.0"); ("accept", "video/*")].

(** A playlist of directives and blank lines only, with a carriage return
    before each line feed. *)
Definition directivesOnly : list Byte.byte :=
  bytes "#EXTM3U" ++ [Byte.x0d] ++ LFb ++ bytes "#EXT-X-VERSION:3" ++ [Byte.x0d] ++ LFb
  ++ LFb ++ bytes "#EXT-X-ENDLIST" ++ LFb.

(** A request whose referer parameter still holds an escaped percent sign
    after one decoding. *)
Definition twiceEscapedRefererRequest : request :=
  get playlistUrl (Some "https://a.com/%2541") proxyHost.

(** The requests a player sends when it follows a link of a rewritten
    playlist: the query parameters are the decoded parameters of the link. *)
Definition escapedFollowUp : request :=
  get "https://cdn.example.com/videos/abc/segment001.ts" (Some "https://a.com/%41")
      proxyHost.

Definition pageFollowUp : request :=
  get "https://cdn.example.com/videos/abc/segment001.ts"
      (Some "https://site.example/watch?v=1") proxyHost.

(** * Properties *)

Ltac Zify.zify_post_hook ::= Z.to_euclidean_division_equations.

(** Case analysis on every comparison of the goal. *)
Ltac ltb_cases :=
  repeat match goal with
         | |- context [?a <? ?b] => destruct (N.ltb_spec a b); try lia
         | |- context [?a <=? ?b] => destruct (N.leb_spec a b); try lia
         | |- context [?a =? ?b] => destruct (N.eqb_spec a b); try lia
         end.

(** ** The runtime functions on examples *)

Example encode_example :
  encodeURIComponent (js "https://cdn.example.com/videos/abc/segment001.ts")
  = Normal (js "https%3A%2F%2Fcdn.example.com%2Fvideos%2Fabc%2Fsegment001.ts").
Proof. reflexivity. Qed.

Example decode_example :
  decodeURIComponent (js "https%3A%2F%2Fa.com%2F%e2%82%ac")
  = Normal (js "https://a.com/" ++ [8364]).
Proof. reflexivity. Qed.

Example decode_malformed : decodeURIComponent (js "%E0%A4%A") = Throw URIError.
Proof. reflexivity. Qed.

Example trim_example : trim (js "  #EXTM3U" ++ [13]) = js "#EXTM3U".
Proof. reflexivity. Qed.

Example split_example :
  split (js "a" ++ [10] ++ js "b" ++ [10]) 10 = [js "a"; js "b"; []].
Proof. reflexivity. Qed.

Example buffer_ascii : bufferToString (bytes "#EXTM3U") = js "#EXTM3U".
Proof. reflexivity. Qed.

Example buffer_broken :
  bufferToString [Byte.xe2; Byte.x82; Byte.x41] = [65533; 65].
Proof. reflexivity. Qed.

Example url_segment :
  hrefOf (js "segment001.ts") (Some (js "https://cdn.example.com/videos/abc/"))
  = Parsed (js "https://cdn.example.com/videos/abc/segment001.ts").
Proof. vm_compute. reflexivity. Qed.

Example url_dotdot :
  hrefOf (js "../x/./seg.ts?a=1#t") (Some (js "https://CDN.example.com:443/videos/abc/p.m3u8"))
  = Parsed (js "https://cdn.example.com/videos/x/seg.ts?a=1#t").
Proof. vm_compute. reflexivity. Qed.

Example url_rooted :
  hrefOf (js "/seg.ts") (Some (js "https://cdn.example.com/videos/abc/"))
  = Parsed (js "https://cdn.example.com/seg.ts").
Proof. vm_compute. reflexivity. Qed.

Example url_scheme_relative :
  hrefOf (js "//other.example:8080/k.bin") (Some (js "https://cdn.example.com/videos/abc/"))
  = Parsed (js "https://other.example:8080/k.bin").
Proof. vm_compute. reflexivity. Qed.

Example url_empty_host :
  hrefOf (js "//") (Some (js "https://cdn.example.com/videos/abc/")) = Failure.
Proof. vm_compute. reflexivity. Qed.

Example url_no_base : hrefOf (js "segment001.ts") None = Failure.
Proof. vm_compute. reflexivity. Qed.

Example url_absolute :
  hrefOf (js "https://cdn.example.com") None = Parsed (js "https://cdn.example.com/").
Proof. vm_compute. reflexivity. Qed.

Example url_example :
  parseURL exampleUrl None = Parsed exampleURL.
Proof. vm_compute. reflexivity. Qed.

Example url_key :
  hrefOf (js "key.bin") (Some exampleBase)
  = Parsed (js "https://cdn.example.com/videos/abc/key.bin").
Proof. vm_compute. reflexivity. Qed.

Example url_referer_origin :
  parseURL (js "https://a.com/A") None
  = Parsed {| href := js "https://a.com/A"; origin := js "https://a.com" |}.
Proof. vm_compute. reflexivity. Qed.

Example url_not_covered :
  hrefOf (js "ftp://files.example/seg.ts") (Some exampleBase) = Unsupported.
Proof. vm_compute. reflexivity. Qed.

Example run1_segment :
  bodyOf (run (handler1 (R := reference) noEnv
                 exampleRequest)
              (ok200 mpegurl (bytes "segment001.ts")))
  = Some (TextBody (js "https://proxy.example/api/proxy?url=https%3A%2F%2Fcdn.example.com%2Fvideos%2Fabc%2Fsegment001.ts&referer=https%3A%2F%2Fmegacloud.tv")).
Proof. vm_compute. reflexivity. Qed.

Example run2_segment :
  bodyOf (run (handler2 (R := reference)
                 exampleRequest)
              (ok200 mpegurl (bytes "segment001.ts")))
  = Some (TextBody (js "https://proxy.example/api/proxy?url=https%3A%2F%2Fcdn.example.com%2Fvideos%2Fabc%2Fsegment001.ts&referer=https%3A%2F%2Fmegacloud.tv")).
Proof. vm_compute. reflexivity. Qed.

(** ** Completions, lists and matching *)

Lemma bind_Normal {A B} (c : completion A) (k : A -> completion B) (b : B) :
  c ≫= k = Normal b -> exists a, c = Normal a /\ k a = Normal b.
Proof. destruct c as [a|e]; [eauto | discriminate]. Qed.

Lemma mapM_Normal {A B} (f : A -> completion B) l ys :
  mapM f l = Normal ys <-> Forall2 (fun x y => f x = Normal y) l ys.
Proof.
  revert ys. induction l as [|x l IH]; intros ys; split.
  - cbn. intros H. inversion H. constructor.
  - intros H. inversion H. done.
  - cbn [mapM]. intros H.
    apply bind_Normal in H as (y & Hy & H).
    apply bind_Normal in H as (ys' & Hys & H).
    inversion H; subst. constructor; [done|]. by apply IH.
  - intros H. inversion H as [|? y ? ys' Hy Hys]; subst.
    cbn [mapM]. rewrite Hy. apply IH in Hys. rewrite Hys. done.
Qed.

Lemma startsWith_app s p : startsWith (p ++ s) p = true.
Proof. induction p as [|c p IH]; [done|]. cbn. by rewrite N.eqb_refl, IH. Qed.

Lemma startsWith_inv s p : startsWith s p = true -> s = p ++ drop (length p) s.
Proof.
  revert s. induction p as [|c p IH]; intros s H; [done|].
  destruct s as [|d s]; [discriminate|]. cbn in H.
  apply andb_true_iff in H as [->%N.eqb_eq H]. cbn. f_equal. by apply IH.
Qed.

Lemma includes_app before p rest : includes (before ++ p ++ rest) p = true.
Proof.
  induction before as [|c before IH].
  - cbn [app]. destruct (p ++ rest) eqn:E; cbn [includes];
      rewrite <- E, startsWith_app; done.
  - cbn [app includes]. rewrite IH. apply orb_true_r.
Qed.

Lemma startsWith_http_not_comment line :
  startsWith (trim line) (js "http") = true -> isCommentOrBlank line = false.
Proof.
  unfold isCommentOrBlank. intros H.
  destruct (trim line) as [|c t]; [discriminate H|].
  cbn in H. apply andb_true_iff in H as [<-%N.eqb_eq _].
  rewrite bool_decide_eq_false_2 by done. done.
Qed.

Lemma spanUnquoted_spec s run rest :
  spanUnquoted s = (run, rest) ->
  s = run ++ rest /\ Forall (fun c => c <> 34) run
  /\ match rest with [] => True | q :: _ => q = 34 end.
Proof.
  revert run rest. induction s as [|c s IH]; intros run rest H.
  - inversion H. done.
  - cbn in H. destruct (N.eqb_spec c 34) as [->|Hc].
    + inversion H. done.
    + destruct (spanUnquoted s) as [run' rest'] eqn:E. inversion H; subst.
      destruct (IH _ _ eq_refl) as (-> & Hrun & Hrest).
      split; [done|]. split; [by constructor | done].
Qed.

Lemma matchUriHere_spec s uri rest :
  matchUriHere s = Some (uri, rest) ->
  s = js "URI=" ++ quote ++ uri ++ quote ++ rest
  /\ uri <> [] /\ Forall (fun c => c <> 34) uri.
Proof.
  unfold matchUriHere. intros H.
  destruct (startsWith s (js "URI=" ++ quote)) eqn:Hs; [|discriminate].
  apply startsWith_inv in Hs. change (length (js "URI=" ++ quote)) with 5%nat in Hs.
  destruct (spanUnquoted (drop 5 s)) as [run tl] eqn:E.
  apply spanUnquoted_spec in E as (Hd & Hrun & Hq).
  destruct run as [|c run]; [discriminate|].
  destruct tl as [|q tl]; [discriminate|]. inversion H; subst uri rest.
  subst q. rewrite Hs at 1. rewrite Hd. split; [|done].
  unfold quote. rewrite <- !app_assoc. done.
Qed.

Lemma matchUri_spec s before uri rest :
  matchUri s = Some (before, uri, rest) ->
  s = before ++ js "URI=" ++ quote ++ uri ++ quote ++ rest
  /\ uri <> [] /\ Forall (fun c => c <> 34) uri.
Proof.
  revert before. induction s as [|c s IH]; intros before H.
  - cbn in H. discriminate.
  - cbn [matchUri] in H. destruct (matchUriHere (c :: s)) as [[u r]|] eqn:E.
    + inversion H; subst. by apply matchUriHere_spec in E.
    + destruct (matchUri s) as [[[b u] r]|]; [|discriminate].
      inversion H; subst. destruct (IH _ eq_refl) as (-> & ? & ?). done.
Qed.

(** ** Percent-encoding round trip *)

Lemma hexValue_hexDigit d : d < 16 -> hexValue (hexDigit d) = Some d.
Proof.
  intros Hd. unfold hexValue, hexDigit.
  destruct (N.ltb_spec d 10).
  - replace ((48 <=? 48 + d) && (48 + d <=? 57)) with true.
    + f_equal. lia.
    + symmetry. apply andb_true_iff. split; apply N.leb_le; lia.
  - replace ((48 <=? 55 + d) && (55 + d <=? 57)) with false.
    + replace ((65 <=? 55 + d) && (55 + d <=? 70)) with true.
      * f_equal. lia.
      * symmetry. apply andb_true_iff. split; apply N.leb_le; lia.
    + symmetry. apply andb_false_iff. right. apply N.leb_gt. lia.
Qed.

Lemma Decode_octet B rest pending need :
  B < 256 ->
  Decode (pctOctet B ++ rest) pending need =
  match need with
  | O =>
      match leadingOnes B with
      | O => r ← Decode rest [] 0; Normal (B :: r)
      | 2%nat => Decode rest [B] 1
      | 3%nat => Decode rest [B] 2
      | 4%nat => Decode rest [B] 3
      | _ => Throw URIError
      end
  | S O =>
      match utf8Decode (pending ++ [B]) with
      | Some cp => r ← Decode rest [] 0; Normal (utf16 cp ++ r)
      | None => Throw URIError
      end
  | S m => Decode rest (pending ++ [B]) m
  end.
Proof.
  intros HB. unfold pctOctet. cbn [app Decode N.eqb Pos.eqb].
  rewrite !hexValue_hexDigit by lia.
  replace (16 * (B / 16) + B mod 16) with B by lia.
  reflexivity.
Qed.

Lemma leadingOnes_0 b : b < 128 -> leadingOnes b = 0%nat.
Proof. intros. unfold leadingOnes. destruct (N.ltb_spec b 128); [done | lia]. Qed.

Lemma leadingOnes_2 b : 192 <= b < 224 -> leadingOnes b = 2%nat.
Proof. intros. unfold leadingOnes. ltb_cases; try done. Qed.

Lemma leadingOnes_3 b : 224 <= b < 240 -> leadingOnes b = 3%nat.
Proof. intros. unfold leadingOnes. ltb_cases; try done. Qed.

Lemma leadingOnes_4 b : 240 <= b < 248 -> leadingOnes b = 4%nat.
Proof. intros. unfold leadingOnes. ltb_cases; try done. Qed.

Lemma utf8Decode_2 b0 b1 :
  194 <= b0 <= 223 -> 128 <= b1 <= 191 ->
  utf8Decode [b0; b1] = Some ((b0 - 192) * 64 + (b1 - 128)).
Proof. intros. unfold utf8Decode, isCont. ltb_cases; done. Qed.

Lemma utf8Decode_3 b0 b1 b2 :
  224 <= b0 <= 239 -> 128 <= b1 <= 191 -> 128 <= b2 <= 191 ->
  (b0 = 224 -> 160 <= b1) -> (b0 = 237 -> b1 <= 159) ->
  utf8Decode [b0; b1; b2]
  = Some ((b0 - 224) * 4096 + (b1 - 128) * 64 + (b2 - 128)).
Proof. intros. unfold utf8Decode, isCont. ltb_cases; done. Qed.

Lemma utf8Decode_4 b0 b1 b2 b3 :
  240 <= b0 <= 244 -> 128 <= b1 <= 191 -> 128 <= b2 <= 191 -> 128 <= b3 <= 191 ->
  (b0 = 240 -> 144 <= b1) -> (b0 = 244 -> b1 <= 143) ->
  utf8Decode [b0; b1; b2; b3]
  = Some ((b0 - 240) * 262144 + (b1 - 128) * 4096 + (b2 - 128) * 64 + (b3 - 128)).
Proof. intros. unfold utf8Decode, isCont. ltb_cases; done. Qed.

Lemma utf8Decode_utf8 cp :
  128 <= cp -> isScalar cp -> utf8Decode (utf8 cp) = Some cp.
Proof.
  intros Hlo [Hhi Hs]. unfold utf8.
  destruct (N.ltb_spec cp 128); [lia|].
  destruct (N.ltb_spec cp 2048).
  { rewrite utf8Decode_2 by lia. f_equal. lia. }
  destruct (N.ltb_spec cp 65536).
  { rewrite utf8Decode_3 by lia. f_equal. lia. }
  rewrite utf8Decode_4 by lia. f_equal. lia.
Qed.

Lemma Decode_pctEncode cp rest :
  isScalar cp ->
  Decode (pctEncode cp ++ rest) [] 0
  = r ← Decode rest [] 0; Normal (utf16 cp ++ r).
Proof.
  intros [Hhi Hs]. unfold pctEncode, utf8.
  destruct (N.ltb_spec cp 128).
  { cbn [flat_map]. rewrite app_nil_r, Decode_octet by lia.
    rewrite leadingOnes_0 by lia. unfold utf16.
    destruct (N.ltb_spec cp 65536); [done | lia]. }
  destruct (N.ltb_spec cp 2048).
  { cbn [flat_map]. rewrite app_nil_r, <- app_assoc.
    rewrite Decode_octet, leadingOnes_2 by lia.
    rewrite Decode_octet by lia. cbn [app].
    rewrite utf8Decode_2 by lia.
    replace ((192 + cp / 64 - 192) * 64 + (128 + cp mod 64 - 128)) with cp by lia.
    done. }
  destruct (N.ltb_spec cp 65536).
  { cbn [flat_map]. rewrite app_nil_r, <- !app_assoc.
    rewrite Decode_octet, leadingOnes_3 by lia.
    rewrite !Decode_octet by lia. cbn [app].
    rewrite utf8Decode_3 by lia.
    replace ((224 + cp / 4096 - 224) * 4096 + (128 + (cp / 64) mod 64 - 128) * 64
             + (128 + cp mod 64 - 128)) with cp by lia.
    done. }
  cbn [flat_map]. rewrite app_nil_r, <- !app_assoc.
  rewrite Decode_octet, leadingOnes_4 by lia.
  rewrite !Decode_octet by lia. cbn [app].
  rewrite utf8Decode_4 by lia.
  replace ((240 + cp / 262144 - 240) * 262144 + (128 + (cp / 4096) mod 64 - 128) * 4096
           + (128 + (cp / 64) mod 64 - 128) * 64 + (128 + cp mod 64 - 128))
    with cp by lia.
  done.
Qed.

Lemma uriUnreserved_not_percent c : uriUnreserved c = true -> (c =? 37) = false.
Proof.
  intros H. destruct (N.eqb_spec c 37) as [->|]; [discriminate H | done].
Qed.

Lemma decode_encode_aux n : forall s e,
  (length s <= n)%nat -> wf_string s ->
  encodeURIComponent s = Normal e -> Decode e [] 0 = Normal s.
Proof.
  induction n as [|n IH]; intros s e Hlen Hwf He.
  { destruct s; [|simpl in Hlen; lia]. simpl in He. by inversion He. }
  destruct s as [|c s]; [simpl in He; by inversion He|].
  simpl in Hlen. apply Forall_cons in Hwf as [Hc Hwf].
  cbn [encodeURIComponent] in He.
  destruct (uriUnreserved c) eqn:Hu.
  { apply bind_Normal in He as (r & Hr & He). inversion He; subst e.
    cbn [Decode]. rewrite (uriUnreserved_not_percent _ Hu).
    rewrite (IH s r) by (done || lia). done. }
  destruct (isLowSurrogate c) eqn:Hl; [discriminate|].
  destruct (isHighSurrogate c) eqn:Hh.
  - destruct s as [|d s]; [discriminate|].
    destruct (isLowSurrogate d) eqn:Hd; [|discriminate].
    apply bind_Normal in He as (r & Hr & He). inversion He; subst e.
    apply Forall_cons in Hwf as [_ Hwf]. simpl in Hlen.
    unfold isHighSurrogate in Hh. unfold isLowSurrogate in Hd.
    apply andb_true_iff in Hh as [Hh1%N.leb_le Hh2%N.leb_le].
    apply andb_true_iff in Hd as [Hd1%N.leb_le Hd2%N.leb_le].
    rewrite Decode_pctEncode by (unfold isScalar; lia).
    rewrite (IH s r) by (done || lia).
    cbn. unfold utf16.
    destruct (N.ltb_spec ((c - 55296) * 1024 + (d - 56320) + 65536) 65536); [lia|].
    cbn [app]. do 3 f_equal; lia.
  - apply bind_Normal in He as (r & Hr & He). inversion He; subst e.
    unfold isHighSurrogate in Hh. unfold isLowSurrogate in Hl.
    assert (isScalar c).
    { unfold isScalar. split; [lia|]. intros [H1 H2].
      destruct (N.leb_spec 55296 c); [|lia].
      destruct (N.leb_spec c 56319); [discriminate Hh|].
      destruct (N.leb_spec 56320 c); [|lia].
      destruct (N.leb_spec c 57343); [discriminate Hl|lia]. }
    rewrite Decode_pctEncode by done.
    rewrite (IH s r) by (done || lia).
    cbn. unfold utf16. destruct (N.ltb_spec c 65536); [done|lia].
Qed.

(** [decodeURIComponent] undoes [encodeURIComponent]. *)
Theorem decode_encode s e :
  wf_string s -> encodeURIComponent s = Normal e ->
  decodeURIComponent e = Normal s.
Proof. intros. by eapply decode_encode_aux. Qed.

(** [decodeURIComponent] throws nothing but a URIError. *)
Lemma Decode_Throw n : forall s pending need e,
  (length s <= n)%nat -> Decode s pending need = Throw e -> e = URIError.
Proof.
  induction n as [|n IH]; intros s pending need e Hlen H.
  { destruct s; [|simpl in Hlen; lia]. destruct need; [discriminate|by inversion H]. }
  destruct s as [|c s]; [destruct need; [discriminate|by inversion H]|].
  simpl in Hlen. cbn [Decode] in H.
  assert (Hrec : forall s' p' n' (k : jsstring -> jsstring),
            (length s' <= n)%nat ->
            (r ← Decode s' p' n'; Normal (k r)) = Throw e -> e = URIError).
  { intros s' p' n' k Hl Hb. destruct (Decode s' p' n') eqn:E; [discriminate|].
    inversion Hb; subst. by eapply IH. }
  destruct (c =? 37).
  - destruct s as [|h1 [|h2 s2]]; [by inversion H..|]. simpl in Hlen.
    destruct (hexValue h1); [|by inversion H].
    destruct (hexValue h2); [|by inversion H].
    destruct need as [|[|m]].
    + destruct (leadingOnes _) as [|[|[|[|[|?]]]]];
        try (by inversion H); try (eapply IH; [|exact H]; lia).
      eapply Hrec; [|exact H]. lia.
    + destruct (utf8Decode _); [|by inversion H]. eapply Hrec; [|exact H]. lia.
    + eapply IH; [|exact H]. lia.
  - destruct need; [|by inversion H]. eapply Hrec; [|exact H]. lia.
Qed.

Lemma decodeURIComponent_Throw s e : decodeURIComponent s = Throw e -> e = URIError.
Proof. intros. by eapply Decode_Throw. Qed.

Lemma wf_defaultReferer : wf_string defaultReferer.
Proof.
  unfold wf_string, defaultReferer. cbn.
  repeat (constructor; [reflexivity|]). constructor.
Qed.

(** ** The handlers *)

Section HandlerFacts.
Context {R : Runtime}.

(** A request that reaches the fetch passed every check before it. *)
Lemma handler1_fetched env req cfg :
  fetched (handler1 env req) = Some cfg ->
  exists decodedUrl decodedReferer u,
    method req = "GET"
    /\ truthy (query_url req) = true
    /\ decodeURIComponent (inTemplate (query_url req)) = Normal decodedUrl
    /\ URL_new decodedUrl None = Normal u
    /\ refererOf1 req = Normal decodedReferer
    /\ cfg = fetchConfig (Some true) decodedUrl (fetchHeaders1 req decodedReferer)
    /\ handler1 env req
       = Await cfg (fun result =>
           Responded (afterFetch1 env req decodedUrl decodedReferer result)).
Proof.
  unfold handler1, refererOf1.
  destruct (bool_decide (method req = "OPTIONS")); [discriminate|].
  destruct (bool_decide (method req = "GET")) eqn:Hm; [|discriminate].
  apply bool_decide_eq_true in Hm. cbn [negb].
  destruct (truthy (query_url req)) eqn:Hu; [|discriminate]. cbn [negb].
  destruct (decodeURIComponent (inTemplate (query_url req))) as [decodedUrl|]; [|discriminate].
  destruct (URL_new decodedUrl None) as [u|] eqn:HU; [|discriminate].
  destruct (if truthy (query_referer req) then _ else _) as [decodedReferer|] eqn:Hr;
    [|discriminate].
  cbn. intros [= <-]. exists decodedUrl, decodedReferer, u. repeat split; try done.
Qed.

Lemma handler2_fetched req cfg :
  fetched (handler2 req) = Some cfg ->
  exists decodedUrl headers,
    method req = "GET"
    /\ truthy (query_url req) = true
    /\ decodeURIComponent (inTemplate (query_url req)) = Normal decodedUrl
    /\ fetchHeaders2 req = Normal headers
    /\ cfg = fetchConfig None decodedUrl headers
    /\ handler2 req
       = Await cfg (fun result => Responded (afterFetch2 req decodedUrl result)).
Proof.
  unfold handler2.
  destruct (bool_decide (method req = "OPTIONS")); [discriminate|].
  destruct (bool_decide (method req = "GET")) eqn:Hm; [|discriminate].
  apply bool_decide_eq_true in Hm. cbn [negb].
  destruct (truthy (query_url req)) eqn:Hu; [|discriminate]. cbn [negb].
  destruct (decodeURIComponent (inTemplate (query_url req))) as [decodedUrl|]; [|discriminate].
  destruct (fetchHeaders2 req) as [headers|]; [|discriminate].
  cbn. intros [= <-]. exists decodedUrl, headers. repeat split; done.
Qed.

Lemma fetchHeaders1_Referer req ref : fetchHeaders1 req ref !! "Referer" = Some ref.
Proof.
  unfold fetchHeaders1.
  destruct (req_headers req !! "range") as [[|c r]|];
    rewrite ?(lookup_insert_ne _ "Range") by done;
    rewrite !lookup_insert_ne by done; by rewrite lookup_insert_eq.
Qed.

Lemma fetchHeaders2_Referer req hs ref :
  fetchHeaders2 req = Normal hs -> hs !! "Referer" = Some ref ->
  if truthy (query_referer req)
  then decodeURIComponent (inTemplate (query_referer req)) = Normal ref
  else ref = defaultReferer.
Proof.
  unfold fetchHeaders2. intros H.
  apply bind_Normal in H as (hs' & H' & H). inversion H; subst hs. clear H.
  destruct (truthy (query_referer req)).
  - apply bind_Normal in H' as (d & Hd & H').
    apply bind_Normal in H' as (u & Hu & H'). inversion H'; subst hs'. clear H'.
    intros Hl. rewrite Hd. f_equal.
    destruct (req_headers req !! "range") as [[|c r]|];
      rewrite ?(lookup_insert_ne _ "Range") in Hl by done;
      rewrite lookup_insert_ne in Hl by done;
      rewrite lookup_insert_eq in Hl; by inversion Hl.
  - inversion H'; subst hs'. clear H'. intros Hl.
    destruct (req_headers req !! "range") as [[|c r]|];
      rewrite ?(lookup_insert_ne _ "Range") in Hl by done;
      rewrite lookup_insert_ne in Hl by done;
      rewrite lookup_insert_eq in Hl; by inversion Hl.
Qed.

Lemma catch1_lookup res error url key :
  key <> "Access-Control-Allow-Origin" ->
  headers (catch1 res error url) !! key = res !! key.
Proof.
  intros Hne. unfold catch1, setHeader.
  repeat case_match; cbn [headers respond]; by rewrite lookup_insert_ne.
Qed.

Lemma catch2_headers res error : headers (catch2 res error) = res.
Proof. unfold catch2. by case_match. Qed.

Lemma catch1_body res error url out : body (catch1 res error url) <> TextBody out.
Proof. unfold catch1. repeat case_match; done. Qed.

Lemma catch2_body res error out : body (catch2 res error) <> TextBody out.
Proof. unfold catch2. case_match; done. Qed.

Lemma catch1_body_headers res res' error url :
  body (catch1 res error url) = body (catch1 res' error url).
Proof. unfold catch1. repeat case_match; done. Qed.

Lemma catch2_body_headers res res' error :
  body (catch2 res error) = body (catch2 res' error).
Proof. unfold catch2. case_match; done. Qed.

Lemma cacheControl1_lookup url res :
  cacheControl1 url res !! "Cache-Control"
  = Some (if endsWith url (js ".ts") || endsWith url (js ".m4s")
             || endsWith url (js ".mp4") then immutablePolicy
          else if endsWith url (js ".m3u8") || endsWith url (js ".mpd")
          then noStorePolicy else moderatePolicy).
Proof.
  unfold cacheControl1, setHeader.
  destruct (_ || _ || _); [by rewrite lookup_insert_eq|].
  destruct (_ || _); [|by rewrite lookup_insert_eq].
  rewrite !lookup_insert_ne by done. by rewrite lookup_insert_eq.
Qed.

Lemma forward_lookup_ne name from response res key :
  name <> key -> forward name from response res !! key = res !! key.
Proof.
  intros Hne. unfold forward, setHeader.
  destruct (ar_headers response !! from) as [[|c v]|]; [done| |done].
  by rewrite lookup_insert_ne.
Qed.

Lemma cacheControl2_lookup url response :
  cacheControl2 url
    (setHeader "Accept-Ranges"
       (orElse (ar_headers response !! "accept-ranges") (js "bytes"))
       (forward "Content-Range" "content-range" response
          (forward "Content-Length" "content-length" response
             (setHeader "Content-Type" (contentType2 response) corsHeaders2))))
    !! "Cache-Control"
  = if endsWith url (js ".ts") || endsWith url (js ".m4s") then Some immutablePolicy
    else if endsWith url (js ".m3u8") then Some (js "no-cache") else None.
Proof.
  unfold cacheControl2.
  destruct (_ || _); [by unfold setHeader; rewrite lookup_insert_eq|].
  destruct (endsWith url (js ".m3u8")); [by unfold setHeader; rewrite lookup_insert_eq|].
  unfold setHeader at 1. rewrite lookup_insert_ne by done.
  rewrite !forward_lookup_ne by done.
  unfold setHeader at 1. rewrite lookup_insert_ne by done.
  done.
Qed.

Lemma afterFetch1_TextBody env req url ref result out :
  body (afterFetch1 env req url ref result) = TextBody out ->
  exists r, result = Normal r
    /\ rewritePlaylist1 (bufferToString (ar_data r)) url (getProxyBaseUrl env req) ref
       = Normal out.
Proof.
  unfold afterFetch1. destruct result as [r|e]; [|by intros ?%catch1_body].
  destruct (400 <=? ar_status r)%Z; [done|].
  destruct (isM3U8 _ _); [|done].
  destruct (rewritePlaylist1 _ _ _ _) as [newContent|e] eqn:E; [|by intros ?%catch1_body].
  cbn. intros [= ->]. by exists r.
Qed.

Lemma afterFetch2_TextBody req url result out :
  body (afterFetch2 req url result) = TextBody out ->
  exists r, result = Normal r
    /\ rewritePlaylist2 (bufferToString (ar_data r)) url (proxyBase2 req)
         (query_referer req) = Normal out.
Proof.
  unfold afterFetch2. destruct result as [r|e]; [|by intros ?%catch2_body].
  destruct (isPlaylist2 _ _); [|done].
  destruct (rewritePlaylist2 _ _ _ _) as [newContent|e] eqn:E; [|by intros ?%catch2_body].
  cbn. intros [= ->]. by exists r.
Qed.

Lemma afterFetch1_playlist_body env req url ref r :
  (ar_status r < 400)%Z ->
  isM3U8 (contentType1 r) url = true ->
  body (afterFetch1 env req url ref (Normal r))
  = match rewritePlaylist1 (bufferToString (ar_data r)) url (getProxyBaseUrl env req) ref with
    | Normal newContent => TextBody newContent
    | Throw error => body (catch1 ∅ error url)
    end.
Proof.
  intros Hs Hm. unfold afterFetch1.
  destruct (Z.leb_spec 400 (ar_status r)); [lia|]. rewrite Hm.
  destruct (rewritePlaylist1 _ _ _ _); [done|]. apply catch1_body_headers.
Qed.

Lemma afterFetch2_playlist_body req url r :
  isPlaylist2 (contentType2 r) url = true ->
  body (afterFetch2 req url (Normal r))
  = match rewritePlaylist2 (bufferToString (ar_data r)) url (proxyBase2 req)
            (query_referer req) with
    | Normal newContent => TextBody newContent
    | Throw error => body (catch2 ∅ error)
    end.
Proof.
  intros Hm. unfold afterFetch2. rewrite Hm.
  destruct (rewritePlaylist2 _ _ _ _); [done|]. apply catch2_body_headers.
Qed.

(** ** The rewriting of a playlist, line by line *)

Lemma rewritePlaylist1_Normal content url P ref out :
  rewritePlaylist1 content url P ref = Normal out ->
  exists encRef newLines,
    encodeURIComponent ref = Normal encRef
    /\ Forall2 (fun l o => rewriteLine1 (basePathOf url) P encRef l = Normal o)
               (split content 10) newLines
    /\ out = join newLines LF.
Proof.
  unfold rewritePlaylist1. intros H.
  apply bind_Normal in H as (encRef & He & H).
  apply bind_Normal in H as (newLines & Hl & H).
  inversion H; subst. exists encRef, newLines.
  split; [done|]. split; [by apply mapM_Normal | done].
Qed.

Lemma rewritePlaylist2_Normal content url P referer out :
  rewritePlaylist2 content url P referer = Normal out ->
  exists newLines,
    Forall2 (fun l o => rewriteLine2 (basePathOf url) P referer l = Normal o)
            (split content 10) newLines
    /\ out = join newLines LF.
Proof.
  unfold rewritePlaylist2. intros H.
  apply bind_Normal in H as (newLines & Hl & H).
  inversion H; subst. exists newLines.
  split; [by apply mapM_Normal | done].
Qed.

Lemma rewriteLine1_relative basePath P encRef line o :
  isRelativeReference line = true ->
  rewriteLine1 basePath P encRef line = Normal o ->
  exists u E,
    URL_new (trim line) (Some basePath) = Normal u
    /\ encodeURIComponent (href u) = Normal E
    /\ o = proxyCall P E encRef.
Proof.
  unfold isRelativeReference, isCommentOrBlank, rewriteLine1.
  intros [Hc Hh]%andb_true_iff.
  apply negb_true_iff in Hc. apply negb_true_iff in Hh.
  rewrite Hc, Hh. cbn [negb]. intros H.
  apply bind_Normal in H as (target & Ht & H).
  apply bind_Normal in Ht as (u & Hu & Ht). inversion Ht; subst target.
  apply bind_Normal in H as (E & HE & H). inversion H; subst o.
  by exists u, E.
Qed.

Lemma rewriteLine2_relative basePath P referer line o :
  isRelativeReference line = true ->
  rewriteLine2 basePath P referer line = Normal o ->
  exists E encRef,
    encodeURIComponent (basePath ++ trim line) = Normal E
    /\ encodeURIComponent (orElse referer defaultReferer) = Normal encRef
    /\ o = proxyCall P E encRef.
Proof.
  unfold isRelativeReference, isCommentOrBlank, rewriteLine2.
  intros [Hc Hh]%andb_true_iff.
  apply negb_true_iff in Hc. apply negb_true_iff in Hh.
  rewrite Hc, Hh. cbn [negb]. intros H.
  apply bind_Normal in H as (E & HE & H).
  apply bind_Normal in H as (encRef & Hr & H). inversion H; subst o.
  by exists E, encRef.
Qed.

Lemma rewriteUriInTag_match tag basePath P encRef before uri rest o :
  matchUri tag = Some (before, uri, rest) ->
  rewriteUriInTag tag basePath P encRef = Normal o ->
  exists replacement,
    tagReplacement basePath P encRef uri replacement
    /\ o = before ++ replacement ++ rest.
Proof.
  unfold rewriteUriInTag. intros -> H.
  apply bind_Normal in H as (replacement & Hr & H). inversion H; subst o.
  exists replacement. split; [|done].
  destruct (startsWith uri (js "http")) eqn:Hh; cbn [negb] in Hr.
  - apply bind_Normal in Hr as (E & HE & Hr). inversion Hr; subst.
    by eapply replaced_absolute.
  - destruct (URL_new uri (Some basePath)) as [u|e] eqn:Hu.
    + apply bind_Normal in Hr as (E & HE & Hr). inversion Hr; subst.
      by eapply replaced_resolved.
    + inversion Hr; subst. by eapply replaced_not.
Qed.

Lemma rewriteLine1_comment basePath P encRef line :
  isCommentOrBlank line = true ->
  rewriteLine1 basePath P encRef line
  = if includes (trim line) (js "URI=" ++ quote)
    then rewriteUriInTag (trim line) basePath P encRef
    else Normal line.
Proof. unfold isCommentOrBlank, rewriteLine1. by intros ->. Qed.

Lemma rewriteLine2_comment basePath P referer line :
  isCommentOrBlank line = true ->
  rewriteLine2 basePath P referer line = Normal (trim line).
Proof. unfold isCommentOrBlank, rewriteLine2. by intros ->. Qed.

Lemma rewriteLine1_outLine basePath P encRef ref line o :
  decodeURIComponent encRef = Normal ref ->
  rewriteLine1 basePath P encRef line = Normal o ->
  outLine P ref line o.
Proof.
  intros Hd H. destruct (isCommentOrBlank line) eqn:Hc.
  - rewrite rewriteLine1_comment in H by done.
    destruct (includes _ _).
    + destruct (matchUri (trim line)) as [[[before uri] rest]|] eqn:Hm.
      * destruct (rewriteUriInTag_match _ _ _ _ _ _ _ _ Hm H) as (rep & Hrep & ->).
        destruct Hrep.
        -- rewrite <- !app_assoc. by apply line_tag.
        -- rewrite <- !app_assoc. by apply line_tag.
        -- apply matchUri_spec in Hm as (Ht & _).
           rewrite <- !app_assoc, <- Ht. apply line_trimmed.
      * unfold rewriteUriInTag in H. rewrite Hm in H. inversion H. apply line_trimmed.
    + inversion H. apply line_kept.
  - unfold isCommentOrBlank in Hc. unfold rewriteLine1 in H. rewrite Hc in H.
    apply bind_Normal in H as (target & _ & H).
    apply bind_Normal in H as (E & _ & H). inversion H. by apply line_link.
Qed.

Lemma rewriteLine2_outLine basePath P referer ref line o :
  (forall encRef, encodeURIComponent (orElse referer defaultReferer) = Normal encRef ->
                  decodeURIComponent encRef = Normal ref) ->
  rewriteLine2 basePath P referer line = Normal o ->
  outLine P ref line o.
Proof.
  intros Hd H. destruct (isCommentOrBlank line) eqn:Hc.
  - rewrite rewriteLine2_comment in H by done. inversion H. apply line_trimmed.
  - unfold isCommentOrBlank in Hc. unfold rewriteLine2 in H. rewrite Hc in H.
    apply bind_Normal in H as (E & _ & H).
    apply bind_Normal in H as (encRef & He & H). inversion H.
    apply line_link. by apply Hd.
Qed.

(** A response whose body is text is a rewritten playlist: it comes from the
    playlist branch, with the URL and the referer of the outbound request. *)
Lemma handler1_playlist env req cfg r resp out :
  fetched (handler1 env req) = Some cfg ->
  run (handler1 env req) (Replies r) = Responded resp ->
  body resp = TextBody out ->
  exists ref,
    ax_headers cfg !! "Referer" = Some ref
    /\ rewritePlaylist1 (bufferToString (ar_data r)) (ax_url cfg)
         (getProxyBaseUrl env req) ref = Normal out.
Proof.
  intros Hf Hrun Hb.
  apply handler1_fetched in Hf as (url & ref & u & _ & _ & _ & _ & _ & -> & Hh).
  rewrite Hh in Hrun. cbn [run] in Hrun. injection Hrun as <-.
  apply afterFetch1_TextBody in Hb as (r' & Hax & Hp).
  destruct (validateStatus _); [injection Hax as <- | discriminate Hax].
  exists ref. split; [apply fetchHeaders1_Referer | exact Hp].
Qed.

Lemma handler2_playlist req cfg r resp out :
  fetched (handler2 req) = Some cfg ->
  run (handler2 req) (Replies r) = Responded resp ->
  body resp = TextBody out ->
  rewritePlaylist2 (bufferToString (ar_data r)) (ax_url cfg)
    (proxyBase2 req) (query_referer req) = Normal out.
Proof.
  intros Hf Hrun Hb.
  apply handler2_fetched in Hf as (url & hs & _ & _ & _ & _ & -> & Hh).
  rewrite Hh in Hrun. cbn [run] in Hrun. injection Hrun as <-.
  apply afterFetch2_TextBody in Hb as (r' & Hax & Hp).
  destruct (validateStatus _); [injection Hax as <- | discriminate Hax].
  exact Hp.
Qed.

(** The lines of a rewritten playlist that were relative references. *)
Lemma playlist1_relative content url P ref out :
  rewritePlaylist1 content url P ref = Normal out ->
  exists encRef newLines,
    encodeURIComponent ref = Normal encRef
    /\ out = join newLines LF
    /\ forall i line,
         split content 10 !! i = Some line ->
         isRelativeReference line = true ->
         exists u E,
           URL_new (trim line) (Some (basePathOf url)) = Normal u
           /\ encodeURIComponent (href u) = Normal E
           /\ newLines !! i = Some (proxyCall P E encRef).
Proof.
  intros H.
  apply rewritePlaylist1_Normal in H as (encRef & newLines & He & Hl & ->).
  exists encRef, newLines. split; [done|]. split; [done|].
  intros i line Hi Hrel.
  destruct (Forall2_lookup_l _ _ _ _ _ Hl Hi) as (o & Ho & Hline).
  destruct (rewriteLine1_relative _ _ _ _ _ Hrel Hline) as (u & E & Hu & HE & ->).
  by exists u, E.
Qed.

Lemma playlist2_relative content url P referer out :
  rewritePlaylist2 content url P referer = Normal out ->
  exists newLines,
    out = join newLines LF
    /\ forall i line,
         split content 10 !! i = Some line ->
         isRelativeReference line = true ->
         exists E encRef,
           encodeURIComponent (basePathOf url ++ trim line) = Normal E
           /\ encodeURIComponent (orElse referer defaultReferer) = Normal encRef
           /\ newLines !! i = Some (proxyCall P E encRef).
Proof.
  intros H.
  apply rewritePlaylist2_Normal in H as (newLines & Hl & ->).
  exists newLines. split; [done|].
  intros i line Hi Hrel.
  destruct (Forall2_lookup_l _ _ _ _ _ Hl Hi) as (o & Ho & Hline).
  destruct (rewriteLine2_relative _ _ _ _ _ Hrel Hline) as (E & encRef & HE & Hr & ->).
  by exists E, encRef.
Qed.

(** The lines of a rewritten playlist that were blank lines, comments or
    directives. *)
Lemma playlist1_comments content url P ref out :
  rewritePlaylist1 content url P ref = Normal out ->
  exists encRef newLines,
    encodeURIComponent ref = Normal encRef
    /\ out = join newLines LF
    /\ forall i line,
         split content 10 !! i = Some line ->
         isCommentOrBlank line = true ->
         (includes (trim line) (js "URI=" ++ quote) = false ->
          newLines !! i = Some line)
         /\ (forall before uri rest,
               matchUri (trim line) = Some (before, uri, rest) ->
               trim line = before ++ js "URI=" ++ quote ++ uri ++ quote ++ rest
               /\ exists replacement,
                    tagReplacement (basePathOf url) P encRef uri replacement
                    /\ newLines !! i = Some (before ++ replacement ++ rest)).
Proof.
  intros H.
  apply rewritePlaylist1_Normal in H as (encRef & newLines & He & Hl & ->).
  exists encRef, newLines. split; [done|]. split; [done|].
  intros i line Hi Hc.
  destruct (Forall2_lookup_l _ _ _ _ _ Hl Hi) as (o & Ho & Hline).
  rewrite rewriteLine1_comment in Hline by done. split.
  - intros Hn. rewrite Hn in Hline. by inversion Hline; subst.
  - intros before uri rest Hm.
    destruct (matchUri_spec _ _ _ _ Hm) as (Ht & _ & _). split; [done|].
    assert (Hinc : includes (trim line) (js "URI=" ++ quote) = true).
    { rewrite Ht, (app_assoc (js "URI=") quote). apply includes_app. }
    rewrite Hinc in Hline.
    destruct (rewriteUriInTag_match _ _ _ _ _ _ _ _ Hm Hline) as (rep & Hrep & ->).
    by exists rep.
Qed.

Lemma playlist2_comments content url P referer out :
  rewritePlaylist2 content url P referer = Normal out ->
  exists newLines,
    out = join newLines LF
    /\ forall i line,
         split content 10 !! i = Some line ->
         isCommentOrBlank line = true ->
         newLines !! i = Some (trim line).
Proof.
  intros H.
  apply rewritePlaylist2_Normal in H as (newLines & Hl & ->).
  exists newLines. split; [done|].
  intros i line Hi Hc.
  destruct (Forall2_lookup_l _ _ _ _ _ Hl Hi) as (o & Ho & Hline).
  rewrite rewriteLine2_comment in Hline by done. by inversion Hline; subst.
Qed.

(** A relative reference that does not resolve makes the whole rewriting of
    the first handler throw: the [URL] constructor of the [map] callback
    sits in no [try] of its own. *)
Lemma unresolvable_reference_throws content url P ref line e :
  line ∈ split content 10 ->
  isRelativeReference line = true ->
  URL_new (trim line) (Some (basePathOf url)) = Throw e ->
  exists e', rewritePlaylist1 content url P ref = Throw e'.
Proof.
  intros Hin Hrel Hu.
  destruct (rewritePlaylist1 content url P ref) as [out|e'] eqn:E; [|by exists e'].
  apply rewritePlaylist1_Normal in E as (encRef & newLines & _ & Hl & _).
  apply list_elem_of_lookup in Hin as [i Hi].
  destruct (Forall2_lookup_l _ _ _ _ _ Hl Hi) as (o & _ & Hline).
  destruct (rewriteLine1_relative _ _ _ _ _ Hrel Hline) as (u & _ & Hu' & _).
  congruence.
Qed.

End HandlerFacts.

(** ** The claims *)

(** C1 (evaluated at a failing input).  The playlist [#EXTM3U], [//],
    [segment001.ts] holds one plain line that does not resolve against
    [https://cdn.example.com/videos/abc/]: the first handler answers 500
    with the JSON body of its [catch] block and sends no playlist at all.
    The same unresolvable value inside a [URI] attribute is caught by
    [rewriteUriInTag]: the response is 200 and the playlist is unchanged. *)
Theorem unresolvable_line_aborts_response :
  run (handler1 (R := reference) noEnv exampleRequest)
      (ok200 mpegurl (bytes "#EXTM3U" ++ LFb ++ bytes "//" ++ LFb ++ bytes "segment001.ts"))
  = Responded (respond
      (setHeader "Access-Control-Allow-Origin" (js "*")
        (cacheControl1 exampleUrl
          (setHeader "Accept-Ranges" (js "bytes")
            (setHeader "Content-Type" (js mpegurl)
              (setHeader "Access-Control-Expose-Headers"
                (js "Content-Length, Content-Range, Accept-Ranges, Cache-Control, Content-Type, ETag")
              (setHeader "Access-Control-Allow-Headers"
                (js "Range, Content-Type, Accept, Accept-Encoding, Origin, Referer")
              (setHeader "Access-Control-Allow-Methods" (js "GET, OPTIONS")
              (setHeader "Access-Control-Allow-Origin" (js "*") ∅))))))))
      500
      (JsonBody [
        ("error", JString (js "Internal proxy error"));
        ("message", JString (js "Invalid URL"));
        ("url", JString exampleUrl)]))
  /\ statusOf (run (handler1 (R := reference) noEnv exampleRequest)
                   (ok200 mpegurl (bytes "#EXTM3U" ++ LFb ++ badKeyLine)))
     = Some 200%Z
  /\ bodyOf (run (handler1 (R := reference) noEnv exampleRequest)
                 (ok200 mpegurl (bytes "#EXTM3U" ++ LFb ++ badKeyLine)))
     = Some (TextBody (bufferToString (bytes "#EXTM3U" ++ LFb ++ badKeyLine))).
Proof. repeat split; vm_compute; reflexivity. Qed.

(** C2 (amended).  In a rewritten playlist, every line whose trimmed text
    is not empty, does not start with [#] and does not start with [http] is
    replaced, as a whole, by the proxy call
    [<proxyBase>/api/proxy?url=<E>&referer=<encodedReferer>].  In the first
    handler [E] is the percent-encoding of the [href] of
    [new URL(trimmedLine, basePath)]; in the second handler [E] is the
    percent-encoding of [basePath] followed by the trimmed line.  For the
    line [segment001.ts] of the playlist
    [https://cdn.example.com/videos/abc/playlist.m3u8] both give
    [url=https%3A%2F%2Fcdn.example.com%2Fvideos%2Fabc%2Fsegment001.ts]. *)
Theorem relative_reference_rewritten {R : Runtime}
  env req1 cfg1 r1 resp1 out1 req2 cfg2 r2 resp2 out2 :
  fetched (handler1 env req1) = Some cfg1 ->
  run (handler1 env req1) (Replies r1) = Responded resp1 ->
  body resp1 = TextBody out1 ->
  fetched (handler2 req2) = Some cfg2 ->
  run (handler2 req2) (Replies r2) = Responded resp2 ->
  body resp2 = TextBody out2 ->
  (exists ref encRef newLines,
     ax_headers cfg1 !! "Referer" = Some ref
     /\ encodeURIComponent ref = Normal encRef
     /\ out1 = join newLines LF
     /\ forall i line,
          split (bufferToString (ar_data r1)) 10 !! i = Some line ->
          isRelativeReference line = true ->
          exists u E,
            URL_new (trim line) (Some (basePathOf (ax_url cfg1))) = Normal u
            /\ encodeURIComponent (href u) = Normal E
            /\ newLines !! i
               = Some (proxyCall (getProxyBaseUrl env req1) E encRef))
  /\ (exists newLines,
        out2 = join newLines LF
        /\ forall i line,
             split (bufferToString (ar_data r2)) 10 !! i = Some line ->
             isRelativeReference line = true ->
             exists E encRef,
               encodeURIComponent (basePathOf (ax_url cfg2) ++ trim line) = Normal E
               /\ encodeURIComponent (orElse (query_referer req2) defaultReferer)
                  = Normal encRef
               /\ newLines !! i = Some (proxyCall (proxyBase2 req2) E encRef))
  /\ bodyOf (run (handler1 (R := reference) noEnv exampleRequest)
                 (ok200 mpegurl (bytes "segment001.ts")))
     = Some (TextBody (js "https://proxy.example/api/proxy?url=https%3A%2F%2Fcdn.example.com%2Fvideos%2Fabc%2Fsegment001.ts&referer=https%3A%2F%2Fmegacloud.tv"))
  /\ bodyOf (run (handler2 (R := reference) exampleRequest)
                 (ok200 mpegurl (bytes "segment001.ts")))
     = Some (TextBody (js "https://proxy.example/api/proxy?url=https%3A%2F%2Fcdn.example.com%2Fvideos%2Fabc%2Fsegment001.ts&referer=https%3A%2F%2Fmegacloud.tv")).
Proof.
  intros Hf1 Hrun1 Hb1 Hf2 Hrun2 Hb2.
  split; [|split; [|split; vm_compute; reflexivity]].
  - destruct (handler1_playlist _ _ _ _ _ _ Hf1 Hrun1 Hb1) as (ref & Href & Hp).
    destruct (playlist1_relative _ _ _ _ _ Hp) as (encRef & newLines & He & Ho & Hl).
    by exists ref, encRef, newLines.
  - apply (playlist2_relative _ _ _ _ _ (handler2_playlist _ _ _ _ _ Hf2 Hrun2 Hb2)).
Qed.

(** Witness of C2: the playlist [#EXTM3U], the key directive,
    [segment001.ts]. *)
Lemma relative_reference_rewritten_witness :
  (exists ref encRef newLines,
     ax_headers exampleConfig1 !! "Referer" = Some ref
     /\ encodeURIComponent ref = Normal encRef
     /\ rewrittenPlaylist1 = join newLines LF
     /\ forall i line,
          split (bufferToString (ar_data (reply 200 mpegurl playlistBytes))) 10 !! i
          = Some line ->
          isRelativeReference line = true ->
          exists u E,
            URL_new (Runtime := reference) (trim line)
              (Some (basePathOf (ax_url exampleConfig1))) = Normal u
            /\ encodeURIComponent (href u) = Normal E
            /\ newLines !! i
               = Some (proxyCall (getProxyBaseUrl noEnv exampleRequest) E encRef))
  /\ (exists newLines,
        rewrittenPlaylist2 = join newLines LF
        /\ forall i line,
             split (bufferToString (ar_data (reply 200 mpegurl playlistBytes))) 10 !! i
             = Some line ->
             isRelativeReference line = true ->
             exists E encRef,
               encodeURIComponent (basePathOf (ax_url exampleConfig2) ++ trim line)
               = Normal E
               /\ encodeURIComponent (orElse (query_referer exampleRequest) defaultReferer)
                  = Normal encRef
               /\ newLines !! i = Some (proxyCall (proxyBase2 exampleRequest) E encRef))
  /\ bodyOf (run (handler1 (R := reference) noEnv exampleRequest)
                 (ok200 mpegurl (bytes "segment001.ts")))
     = Some (TextBody (js "https://proxy.example/api/proxy?url=https%3A%2F%2Fcdn.example.com%2Fvideos%2Fabc%2Fsegment001.ts&referer=https%3A%2F%2Fmegacloud.tv"))
  /\ bodyOf (run (handler2 (R := reference) exampleRequest)
                 (ok200 mpegurl (bytes "segment001.ts")))
     = Some (TextBody (js "https://proxy.example/api/proxy?url=https%3A%2F%2Fcdn.example.com%2Fvideos%2Fabc%2Fsegment001.ts&referer=https%3A%2F%2Fmegacloud.tv")).
Proof.
  apply (relative_reference_rewritten (R := reference) noEnv
           exampleRequest exampleConfig1 (reply 200 mpegurl playlistBytes)
           (responseOf (run (handler1 (R := reference) noEnv exampleRequest)
                            (Replies (reply 200 mpegurl playlistBytes))))
           rewrittenPlaylist1
           exampleRequest exampleConfig2 (reply 200 mpegurl playlistBytes)
           (responseOf (run (handler2 (R := reference) exampleRequest)
                            (Replies (reply 200 mpegurl playlistBytes))))
           rewrittenPlaylist2);
    vm_compute; reflexivity.
Defined.

(** Counterexample to C2 as stated.  The second handler turns the line
    [/seg.ts] into a link to [https://cdn.example.com/videos/abc//seg.ts],
    where resolution gives [https://cdn.example.com/seg.ts]; the first
    handler leaves [httpfoo.ts], which names no scheme, unresolved because
    it starts with [http]. *)
Lemma references_not_resolved_as_claimed :
  bodyOf (run (handler2 (R := reference) exampleRequest)
              (ok200 mpegurl (bytes "/seg.ts")))
  = Some (TextBody (js "https://proxy.example/api/proxy?url=https%3A%2F%2Fcdn.example.com%2Fvideos%2Fabc%2F%2Fseg.ts&referer=https%3A%2F%2Fmegacloud.tv"))
  /\ hrefOf (js "/seg.ts") (Some exampleBase)
     = Parsed (js "https://cdn.example.com/seg.ts")
  /\ bodyOf (run (handler1 (R := reference) noEnv exampleRequest)
                 (ok200 mpegurl (bytes "httpfoo.ts")))
     = Some (TextBody (js "https://proxy.example/api/proxy?url=httpfoo.ts&referer=https%3A%2F%2Fmegacloud.tv"))
  /\ hrefOf (js "httpfoo.ts") (Some exampleBase)
     = Parsed (js "https://cdn.example.com/videos/abc/httpfoo.ts").
Proof. repeat split; vm_compute; reflexivity. Qed.

(** C4 (amended).  First handler: a blank line or a [#] line that does not
    hold [URI=] followed by a double quote is emitted exactly as it is,
    surrounding whitespace included; a [#] line where the regular
    expression of [rewriteUriInTag] matches is emitted trimmed, with the
    first match replaced (see [tagReplacement]) and every character before
    and after the match preserved.  Second handler: every blank or [#] line
    is emitted trimmed and otherwise unchanged; no [URI] attribute is
    rewritten.  For the directive [#EXT-X-KEY:METHOD=AES-128,URI=] with the
    quoted value [key.bin] the first handler replaces the quoted value only. *)
Theorem comments_kept_tags_rewritten {R : Runtime}
  env req1 cfg1 r1 resp1 out1 req2 cfg2 r2 resp2 out2 :
  fetched (handler1 env req1) = Some cfg1 ->
  run (handler1 env req1) (Replies r1) = Responded resp1 ->
  body resp1 = TextBody out1 ->
  fetched (handler2 req2) = Some cfg2 ->
  run (handler2 req2) (Replies r2) = Responded resp2 ->
  body resp2 = TextBody out2 ->
  (exists ref encRef newLines,
     ax_headers cfg1 !! "Referer" = Some ref
     /\ encodeURIComponent ref = Normal encRef
     /\ out1 = join newLines LF
     /\ forall i line,
          split (bufferToString (ar_data r1)) 10 !! i = Some line ->
          isCommentOrBlank line = true ->
          (includes (trim line) (js "URI=" ++ quote) = false ->
           newLines !! i = Some line)
          /\ (forall before uri rest,
                matchUri (trim line) = Some (before, uri, rest) ->
                trim line = before ++ js "URI=" ++ quote ++ uri ++ quote ++ rest
                /\ exists replacement,
                     tagReplacement (basePathOf (ax_url cfg1))
                       (getProxyBaseUrl env req1) encRef uri replacement
                     /\ newLines !! i = Some (before ++ replacement ++ rest)))
  /\ (exists newLines,
        out2 = join newLines LF
        /\ forall i line,
             split (bufferToString (ar_data r2)) 10 !! i = Some line ->
             isCommentOrBlank line = true ->
             newLines !! i = Some (trim line))
  /\ bodyOf (run (handler1 (R := reference) noEnv exampleRequest)
                 (ok200 mpegurl keyLine))
     = Some (TextBody rewrittenKeyLine).
Proof.
  intros Hf1 Hrun1 Hb1 Hf2 Hrun2 Hb2.
  split; [|split; [|vm_compute; reflexivity]].
  - destruct (handler1_playlist _ _ _ _ _ _ Hf1 Hrun1 Hb1) as (ref & Href & Hp).
    destruct (playlist1_comments _ _ _ _ _ Hp) as (encRef & newLines & He & Ho & Hl).
    by exists ref, encRef, newLines.
  - apply (playlist2_comments _ _ _ _ _ (handler2_playlist _ _ _ _ _ Hf2 Hrun2 Hb2)).
Qed.

(** Witness of C4: the playlist of the witness of C2. *)
Lemma comments_kept_tags_rewritten_witness :
  (exists ref encRef newLines,
     ax_headers exampleConfig1 !! "Referer" = Some ref
     /\ encodeURIComponent ref = Normal encRef
     /\ rewrittenPlaylist1 = join newLines LF
     /\ forall i line,
          split (bufferToString (ar_data (reply 200 mpegurl playlistBytes))) 10 !! i
          = Some line ->
          isCommentOrBlank line = true ->
          (includes (trim line) (js "URI=" ++ quote) = false ->
           newLines !! i = Some line)
          /\ (forall before uri rest,
                matchUri (trim line) = Some (before, uri, rest) ->
                trim line = before ++ js "URI=" ++ quote ++ uri ++ quote ++ rest
                /\ exists replacement,
                     tagReplacement (R := reference) (basePathOf (ax_url exampleConfig1))
                       (getProxyBaseUrl noEnv exampleRequest) encRef uri replacement
                     /\ newLines !! i = Some (before ++ replacement ++ rest)))
  /\ (exists newLines,
        rewrittenPlaylist2 = join newLines LF
        /\ forall i line,
             split (bufferToString (ar_data (reply 200 mpegurl playlistBytes))) 10 !! i
             = Some line ->
             isCommentOrBlank line = true ->
             newLines !! i = Some (trim line))
  /\ bodyOf (run (handler1 (R := reference) noEnv exampleRequest)
                 (ok200 mpegurl keyLine))
     = Some (TextBody rewrittenKeyLine).
Proof.
  apply (comments_kept_tags_rewritten (R := reference) noEnv
           exampleRequest exampleConfig1 (reply 200 mpegurl playlistBytes)
           (responseOf (run (handler1 (R := reference) noEnv exampleRequest)
                            (Replies (reply 200 mpegurl playlistBytes))))
           rewrittenPlaylist1
           exampleRequest exampleConfig2 (reply 200 mpegurl playlistBytes)
           (responseOf (run (handler2 (R := reference) exampleRequest)
                            (Replies (reply 200 mpegurl playlistBytes))))
           rewrittenPlaylist2);
    vm_compute; reflexivity.
Defined.

(** Counterexample to C4 as stated.  The second handler leaves the quoted
    value of the key directive as it is, and it drops the carriage return
    that ends [#EXTM3U]; the first handler drops the carriage return that
    ends the key directive. *)
Lemma second_handler_trims_and_keeps_uri :
  bodyOf (run (handler2 (R := reference) exampleRequest) (ok200 mpegurl keyLine))
  = Some (TextBody (bufferToString keyLine))
  /\ bodyOf (run (handler2 (R := reference) exampleRequest)
                 (ok200 mpegurl (bytes "#EXTM3U" ++ [Byte.x0d] ++ LFb ++ bytes "#EXT-X-ENDLIST")))
     = Some (TextBody (js "#EXTM3U" ++ LF ++ js "#EXT-X-ENDLIST"))
  /\ bodyOf (run (handler1 (R := reference) noEnv exampleRequest)
                 (ok200 mpegurl (keyLine ++ [Byte.x0d] ++ LFb ++ bytes "#EXT-X-ENDLIST")))
     = Some (TextBody
         (js "#EXT-X-KEY:METHOD=AES-128,URI=" ++ quote
          ++ js "https://proxy.example/api/proxy?url=https%3A%2F%2Fcdn.example.com%2Fvideos%2Fabc%2Fkey.bin&referer=https%3A%2F%2Fmegacloud.tv"
          ++ quote ++ LF ++ js "#EXT-X-ENDLIST")).
Proof. repeat split; vm_compute; reflexivity. Qed.

(** C5 (amended).  For an upstream response with a status from 400 to 499,
    the first handler answers with that status and the JSON body
    [{error: 'Upstream error', status, statusText, url}]; the second
    handler has no such branch and answers with that status and the
    upstream body itself: the bytes as they are, or the rewritten text when
    the response is a playlist and its rewriting succeeds. *)
Theorem upstream_4xx_passed_through {R : Runtime} env req1 req2 cfg1 cfg2 r :
  (400 <= ar_status r <= 499)%Z ->
  fetched (handler1 env req1) = Some cfg1 ->
  fetched (handler2 req2) = Some cfg2 ->
  run (handler1 env req1) (Replies r)
  = Responded (respond
      (setHeader "Access-Control-Allow-Origin" (js "*") ∅) (ar_status r)
      (JsonBody [
        ("error", JString (js "Upstream error"));
        ("status", JNumber (ar_status r));
        ("statusText", JString (ar_statusText r));
        ("url", JString (ax_url cfg1))]))
  /\ (isPlaylist2 (contentType2 r) (ax_url cfg2) = false ->
      statusOf (run (handler2 req2) (Replies r)) = Some (ar_status r)
      /\ bodyOf (run (handler2 req2) (Replies r)) = Some (BinaryBody (ar_data r)))
  /\ (forall newContent,
        isPlaylist2 (contentType2 r) (ax_url cfg2) = true ->
        rewritePlaylist2 (bufferToString (ar_data r)) (ax_url cfg2)
          (proxyBase2 req2) (query_referer req2) = Normal newContent ->
        statusOf (run (handler2 req2) (Replies r)) = Some (ar_status r)
        /\ bodyOf (run (handler2 req2) (Replies r)) = Some (TextBody newContent)).
Proof.
  intros Hs Hf1 Hf2.
  apply handler1_fetched in Hf1
    as (decodedUrl & decodedReferer & u & _ & _ & _ & _ & _ & -> & ->).
  apply handler2_fetched in Hf2 as (decodedUrl2 & headers & _ & _ & _ & _ & -> & ->).
  cbn [run axios fetchConfig ax_validateStatus ax_url]. unfold validateStatus.
  destruct (Z.ltb_spec (ar_status r) 500); [|lia].
  cbn [afterFetch1 afterFetch2]. destruct (Z.leb_spec 400 (ar_status r)); [|lia].
  split; [done|]. split.
  - intros ->. done.
  - intros newContent -> ->. done.
Qed.

(** Witness of C5: a 403 for the playlist (first handler) and for a segment
    (second handler). *)
Lemma upstream_4xx_passed_through_witness :
  run (handler1 (R := reference) noEnv exampleRequest) (Replies denied)
  = Responded (respond
      (setHeader "Access-Control-Allow-Origin" (js "*") ∅) (ar_status denied)
      (JsonBody [
        ("error", JString (js "Upstream error"));
        ("status", JNumber (ar_status denied));
        ("statusText", JString (ar_statusText denied));
        ("url", JString (ax_url exampleConfig1))]))
  /\ (isPlaylist2 (contentType2 denied) (ax_url segmentConfig2) = false ->
      statusOf (run (handler2 (R := reference) segmentRequest) (Replies denied))
      = Some (ar_status denied)
      /\ bodyOf (run (handler2 (R := reference) segmentRequest) (Replies denied))
         = Some (BinaryBody (ar_data denied)))
  /\ (forall newContent,
        isPlaylist2 (contentType2 denied) (ax_url segmentConfig2) = true ->
        rewritePlaylist2 (bufferToString (ar_data denied))
          (ax_url segmentConfig2) (proxyBase2 segmentRequest)
          (query_referer segmentRequest) = Normal newContent ->
        statusOf (run (handler2 (R := reference) segmentRequest) (Replies denied))
        = Some (ar_status denied)
        /\ bodyOf (run (handler2 (R := reference) segmentRequest) (Replies denied))
           = Some (TextBody newContent)).
Proof.
  apply (upstream_4xx_passed_through (R := reference) noEnv exampleRequest
           segmentRequest exampleConfig1 segmentConfig2 denied);
    [vm_compute; split; discriminate | vm_compute; reflexivity..].
Defined.

(** Counterexample to C5 as stated: on a 403 the second handler sends the
    upstream bytes, not a JSON error body. *)
Lemma second_handler_4xx_not_json :
  statusOf (run (handler2 (R := reference) segmentRequest) (Replies denied)) = Some 403%Z
  /\ bodyOf (run (handler2 (R := reference) segmentRequest) (Replies denied))
     = Some (BinaryBody (bytes "denied")).
Proof. repeat split; vm_compute; reflexivity. Qed.

(** C7 (amended).  When the outbound fetch runs into the timeout of 30000
    milliseconds, the first handler answers 504 with a JSON body whose
    [error] is [Gateway timeout]; the second handler, which has no branch
    for it, answers 500 with the message of axios as [error]. *)
Theorem timeout_responses {R : Runtime} env req1 req2 cfg1 cfg2 :
  fetched (handler1 env req1) = Some cfg1 ->
  fetched (handler2 req2) = Some cfg2 ->
  ax_timeout cfg1 = 30000%Z
  /\ run (handler1 env req1) TimesOut
     = Responded (respond
         (setHeader "Access-Control-Allow-Origin" (js "*") ∅) 504
         (JsonBody [
           ("error", JString (js "Gateway timeout"));
           ("message", JString (js "Request to upstream timed out"));
           ("url", JString (ax_url cfg1))]))
  /\ ax_timeout cfg2 = 30000%Z
  /\ run (handler2 req2) TimesOut
     = Responded (respond corsHeaders2 500
         (JsonBody [("error", JString (js "timeout of 30000ms exceeded"))])).
Proof.
  intros Hf1 Hf2.
  apply handler1_fetched in Hf1
    as (decodedUrl & decodedReferer & u & _ & _ & _ & _ & _ & -> & ->).
  apply handler2_fetched in Hf2 as (decodedUrl2 & headers & _ & _ & _ & _ & -> & ->).
  done.
Qed.

(** Witness of C7: the example request. *)
Lemma timeout_responses_witness :
  ax_timeout exampleConfig1 = 30000%Z
  /\ run (handler1 (R := reference) noEnv exampleRequest) TimesOut
     = Responded (respond
         (setHeader "Access-Control-Allow-Origin" (js "*") ∅) 504
         (JsonBody [
           ("error", JString (js "Gateway timeout"));
           ("message", JString (js "Request to upstream timed out"));
           ("url", JString (ax_url exampleConfig1))]))
  /\ ax_timeout exampleConfig2 = 30000%Z
  /\ run (handler2 (R := reference) exampleRequest) TimesOut
     = Responded (respond corsHeaders2 500
         (JsonBody [("error", JString (js "timeout of 30000ms exceeded"))])).
Proof.
  apply (timeout_responses (R := reference) noEnv exampleRequest exampleRequest
           exampleConfig1 exampleConfig2); vm_compute; reflexivity.
Defined.

(** Counterexample to C7 as stated: the second handler answers a timeout
    with 500. *)
Lemma second_handler_timeout_is_500 :
  run (handler2 (R := reference) exampleRequest) TimesOut
  = Responded (respond corsHeaders2 500
      (JsonBody [("error", JString (js "timeout of 30000ms exceeded"))])).
Proof. vm_compute. reflexivity. Qed.

(** C8 (amended).  For an upstream response with a status below 400, the
    first handler sets [Cache-Control] from the suffix of the decoded URL:
    [.ts], [.m4s] and [.mp4] give the immutable policy, [.m3u8] and [.mpd]
    give [no-cache, no-store, must-revalidate], anything else gives
    [public, max-age=3600].  The second handler sets the immutable policy for
    [.ts] and [.m4s], [no-cache] for [.m3u8], and no [Cache-Control] at all
    for any other suffix. *)
Theorem cache_control_by_suffix {R : Runtime} env req1 req2 cfg1 cfg2 r :
  fetched (handler1 env req1) = Some cfg1 ->
  fetched (handler2 req2) = Some cfg2 ->
  (ar_status r < 400)%Z ->
  (exists resp,
     run (handler1 env req1) (Replies r) = Responded resp
     /\ headers resp !! "Cache-Control"
        = Some (if endsWith (ax_url cfg1) (js ".ts")
                   || endsWith (ax_url cfg1) (js ".m4s")
                   || endsWith (ax_url cfg1) (js ".mp4")
                then js "public, max-age=31536000, immutable"
                else if endsWith (ax_url cfg1) (js ".m3u8")
                        || endsWith (ax_url cfg1) (js ".mpd")
                then js "no-cache, no-store, must-revalidate"
                else js "public, max-age=3600"))
  /\ (exists resp,
       run (handler2 req2) (Replies r) = Responded resp
       /\ headers resp !! "Cache-Control"
          = if endsWith (ax_url cfg2) (js ".ts") || endsWith (ax_url cfg2) (js ".m4s")
            then Some (js "public, max-age=31536000, immutable")
            else if endsWith (ax_url cfg2) (js ".m3u8") then Some (js "no-cache")
            else None).
Proof.
  intros Hf1 Hf2 Hs. split.
  - apply handler1_fetched in Hf1
      as (decodedUrl & decodedReferer & u & _ & _ & _ & _ & _ & -> & ->).
    cbn [run axios fetchConfig ax_validateStatus ax_url]. unfold validateStatus.
    destruct (Z.ltb_spec (ar_status r) 500); [|lia].
    cbn [afterFetch1]. destruct (Z.leb_spec 400 (ar_status r)); [lia|].
    eexists. split; [reflexivity|].
    destruct (isM3U8 _ _).
    + destruct (rewritePlaylist1 _ _ _ _).
      * cbn [headers respond]. apply cacheControl1_lookup.
      * rewrite catch1_lookup by done. apply cacheControl1_lookup.
    + cbn [headers respond]. apply cacheControl1_lookup.
  - apply handler2_fetched in Hf2 as (decodedUrl & hs & _ & _ & _ & _ & -> & ->).
    cbn [run axios fetchConfig ax_validateStatus ax_url]. unfold validateStatus.
    destruct (Z.ltb_spec (ar_status r) 500); [|lia].
    cbn [afterFetch2]. eexists. split; [reflexivity|].
    destruct (isPlaylist2 _ _).
    + destruct (rewritePlaylist2 _ _ _ _).
      * cbn [headers respond]. apply cacheControl2_lookup.
      * rewrite catch2_headers. apply cacheControl2_lookup.
    + cbn [headers respond]. apply cacheControl2_lookup.
Qed.

(** Witness of C8: the playlist (first handler) and an [.mp4] file (second
    handler). *)
Lemma cache_control_by_suffix_witness :
  (exists resp,
     run (handler1 (R := reference) noEnv exampleRequest)
         (Replies (reply 200 mpegurl playlistBytes)) = Responded resp
     /\ headers resp !! "Cache-Control"
        = Some (if endsWith (ax_url exampleConfig1) (js ".ts")
                   || endsWith (ax_url exampleConfig1) (js ".m4s")
                   || endsWith (ax_url exampleConfig1) (js ".mp4")
                then js "public, max-age=31536000, immutable"
                else if endsWith (ax_url exampleConfig1) (js ".m3u8")
                        || endsWith (ax_url exampleConfig1) (js ".mpd")
                then js "no-cache, no-store, must-revalidate"
                else js "public, max-age=3600"))
  /\ (exists resp,
       run (handler2 (R := reference) mp4Request)
           (Replies (reply 200 mpegurl playlistBytes)) = Responded resp
       /\ headers resp !! "Cache-Control"
          = if endsWith (ax_url mp4Config2) (js ".ts")
               || endsWith (ax_url mp4Config2) (js ".m4s")
            then Some (js "public, max-age=31536000, immutable")
            else if endsWith (ax_url mp4Config2) (js ".m3u8")
            then Some (js "no-cache")
            else None).
Proof.
  apply (cache_control_by_suffix (R := reference) noEnv exampleRequest mp4Request
           exampleConfig1 mp4Config2 (reply 200 mpegurl playlistBytes));
    vm_compute; reflexivity.
Defined.

(** Counterexample to C8 as stated: for an [.mp4] URL the second handler
    sets no [Cache-Control] header. *)
Lemma second_handler_mp4_has_no_cache_control :
  exists resp,
    run (handler2 (R := reference) mp4Request) (Replies (reply 200 "video/mp4" (bytes "data")))
    = Responded resp
    /\ status resp = 200%Z
    /\ headers resp !! "Cache-Control" = None.
Proof. eexists. repeat split; vm_compute; reflexivity. Qed.

(** C9.  A GET request without the [url] query parameter (or with an empty
    one) is answered by both handlers with status 400 and a JSON body whose
    [error] is [URL parameter is required], whatever its other parameters
    and headers are, and nothing is fetched upstream. *)
Theorem missing_url_rejected {R : Runtime} env req :
  method req = "GET" -> truthy (query_url req) = false ->
  handler1 env req
  = Done (Responded (respond
      (setHeader "Access-Control-Allow-Origin" (js "*") ∅) 400
      (JsonBody [
        ("error", JString (js "URL parameter is required"));
        ("usage", JString (js "/api/proxy?url=<encoded_url>&referer=<optional_referer>"))])))
  /\ handler2 req
     = Done (Responded (respond corsHeaders2 400
         (JsonBody [("error", JString (js "URL parameter is required"))])))
  /\ fetched (handler1 env req) = None
  /\ fetched (handler2 req) = None.
Proof.
  intros Hm Hu. unfold handler1, handler2. rewrite Hm, Hu. cbn. done.
Qed.

(** Witness of C9: a request with a referer and a range, but no [url]. *)
Lemma missing_url_rejected_witness :
  handler1 (R := reference) noEnv noUrlRequest
  = Done (Responded (respond
      (setHeader "Access-Control-Allow-Origin" (js "*") ∅) 400
      (JsonBody [
        ("error", JString (js "URL parameter is required"));
        ("usage", JString (js "/api/proxy?url=<encoded_url>&referer=<optional_referer>"))])))
  /\ handler2 (R := reference) noUrlRequest
     = Done (Responded (respond corsHeaders2 400
         (JsonBody [("error", JString (js "URL parameter is required"))])))
  /\ fetched (handler1 (R := reference) noEnv noUrlRequest) = None
  /\ fetched (handler2 (R := reference) noUrlRequest) = None.
Proof.
  apply (missing_url_rejected (R := reference) noEnv noUrlRequest); reflexivity.
Defined.

(** C10.  For a GET request with a valid [url] and a [referer] that is not
    percent-decodable, the first handler throws the URIError of
    [decodeURIComponent] out of the handler (the call sits before its [try])
    and sends no response; the second handler catches it and answers 500
    with a JSON body, not 400. *)
Theorem malformed_referer_uncaught {R : Runtime} env req decodedUrl u e :
  method req = "GET" ->
  truthy (query_url req) = true ->
  decodeURIComponent (inTemplate (query_url req)) = Normal decodedUrl ->
  URL_new decodedUrl None = Normal u ->
  truthy (query_referer req) = true ->
  decodeURIComponent (inTemplate (query_referer req)) = Throw e ->
  handler1 env req = Done (Uncaught URIError)
  /\ handler2 req
     = Done (Responded (respond corsHeaders2 500
         (JsonBody [("error", JString (js "URI malformed"))]))).
Proof.
  intros Hm Hu Hd HU Hr He.
  pose proof (decodeURIComponent_Throw _ _ He) as ->.
  unfold handler1, handler2, fetchHeaders2.
  rewrite Hm, Hu, Hd, HU, Hr, He. cbn. done.
Qed.

(** Witness of C10: the referer [https://a.com/%zz]. *)
Lemma malformed_referer_uncaught_witness :
  handler1 (R := reference) noEnv malformedRefererRequest = Done (Uncaught URIError)
  /\ handler2 (R := reference) malformedRefererRequest
     = Done (Responded (respond corsHeaders2 500
         (JsonBody [("error", JString (js "URI malformed"))]))).
Proof.
  apply (malformed_referer_uncaught (R := reference) noEnv malformedRefererRequest
           exampleUrl exampleURL URIError); vm_compute; reflexivity.
Defined.

(** ** Further properties of the handlers *)

(** X1.  A request with method OPTIONS is answered without any fetch, with an
    empty body and [Access-Control-Allow-Origin: *]: status 204 by the first
    handler, 200 by the second. *)
Theorem options_preflight {R : Runtime} env req :
  method req = "OPTIONS" ->
  exists resp1 resp2,
    handler1 env req = Done (Responded resp1)
    /\ status resp1 = 204%Z /\ body resp1 = NoBody
    /\ headers resp1 !! "Access-Control-Allow-Origin" = Some (js "*")
    /\ handler2 req = Done (Responded resp2)
    /\ status resp2 = 200%Z /\ body resp2 = NoBody
    /\ headers resp2 !! "Access-Control-Allow-Origin" = Some (js "*").
Proof.
  intros Hm. unfold handler1, handler2. rewrite Hm. cbn [bool_decide decide_rel].
  rewrite bool_decide_eq_true_2 by done.
  eexists _, _. repeat split.
Qed.

Lemma options_preflight_witness :
  exists resp1 resp2,
    handler1 (R := reference) noEnv optionsRequest = Done (Responded resp1)
    /\ status resp1 = 204%Z /\ body resp1 = NoBody
    /\ headers resp1 !! "Access-Control-Allow-Origin" = Some (js "*")
    /\ handler2 (R := reference) optionsRequest = Done (Responded resp2)
    /\ status resp2 = 200%Z /\ body resp2 = NoBody
    /\ headers resp2 !! "Access-Control-Allow-Origin" = Some (js "*").
Proof. apply (options_preflight (R := reference) noEnv optionsRequest). reflexivity. Defined.

(** X2.  A request whose method is neither GET nor OPTIONS is answered 405
    with a JSON body whose [error] is [Method not allowed], without any
    fetch. *)
Theorem other_methods_rejected {R : Runtime} env req :
  method req <> "OPTIONS" -> method req <> "GET" ->
  handler1 env req
  = Done (Responded (respond
      (setHeader "Access-Control-Allow-Origin" (js "*") ∅) 405
      (JsonBody [
        ("error", JString (js "Method not allowed"));
        ("allowedMethods", JStrings [js "GET"; js "OPTIONS"])])))
  /\ handler2 req
     = Done (Responded (respond corsHeaders2 405
         (JsonBody [("error", JString (js "Method not allowed"))]))).
Proof.
  intros Ho Hg. unfold handler1, handler2.
  rewrite !bool_decide_eq_false_2 by done. done.
Qed.

Lemma other_methods_rejected_witness :
  handler1 (R := reference) noEnv postRequest
  = Done (Responded (respond
      (setHeader "Access-Control-Allow-Origin" (js "*") ∅) 405
      (JsonBody [
        ("error", JString (js "Method not allowed"));
        ("allowedMethods", JStrings [js "GET"; js "OPTIONS"])])))
  /\ handler2 (R := reference) postRequest
     = Done (Responded (respond corsHeaders2 405
         (JsonBody [("error", JString (js "Method not allowed"))]))).
Proof.
  apply (other_methods_rejected (R := reference) noEnv postRequest); discriminate.
Defined.

(** X3.  The first handler validates the [url] parameter before any fetch:
    when it is not percent-decodable the answer is 400 with [error]
    [Invalid URL encoding] and the message of the URIError; when it decodes
    to something the [URL] constructor refuses, the answer is 400 with
    [error] [Invalid URL format] and the decoded text. *)
Theorem invalid_url_rejected {R : Runtime} env req1 req2 e decodedUrl e' :
  method req1 = "GET" -> truthy (query_url req1) = true ->
  decodeURIComponent (inTemplate (query_url req1)) = Throw e ->
  method req2 = "GET" -> truthy (query_url req2) = true ->
  decodeURIComponent (inTemplate (query_url req2)) = Normal decodedUrl ->
  URL_new decodedUrl None = Throw e' ->
  handler1 env req1
  = Done (Responded (respond
      (setHeader "Access-Control-Allow-Origin" (js "*") ∅) 400
      (JsonBody [
        ("error", JString (js "Invalid URL encoding"));
        ("message", JString (js "URI malformed"))])))
  /\ handler1 env req2
     = Done (Responded (respond
         (setHeader "Access-Control-Allow-Origin" (js "*") ∅) 400
         (JsonBody [
           ("error", JString (js "Invalid URL format"));
           ("url", JString decodedUrl)]))).
Proof.
  intros Hm1 Hu1 Hd1 Hm2 Hu2 Hd2 HU.
  pose proof (decodeURIComponent_Throw _ _ Hd1) as ->.
  unfold handler1. rewrite Hm1, Hu1, Hd1, Hm2, Hu2, Hd2, HU. done.
Qed.

Lemma invalid_url_rejected_witness :
  handler1 (R := reference) noEnv undecodableUrlRequest
  = Done (Responded (respond
      (setHeader "Access-Control-Allow-Origin" (js "*") ∅) 400
      (JsonBody [
        ("error", JString (js "Invalid URL encoding"));
        ("message", JString (js "URI malformed"))])))
  /\ handler1 (R := reference) noEnv relativeUrlRequest
     = Done (Responded (respond
         (setHeader "Access-Control-Allow-Origin" (js "*") ∅) 400
         (JsonBody [
           ("error", JString (js "Invalid URL format"));
           ("url", JString (js "playlist.m3u8"))]))).
Proof.
  apply (invalid_url_rejected (R := reference) noEnv undecodableUrlRequest
           relativeUrlRequest URIError (js "playlist.m3u8") InvalidURL);
    vm_compute; reflexivity.
Defined.

Section MoreFacts.
Context {R : Runtime}.

Lemma fetchHeaders1_Range req ref v :
  req_headers req !! "range" = Some v -> v <> [] ->
  fetchHeaders1 req ref !! "Range" = Some v.
Proof.
  intros Hr Hv. unfold fetchHeaders1. rewrite Hr.
  destruct v as [|c v]; [done|]. by rewrite lookup_insert_eq.
Qed.

Lemma fetchHeaders2_Range req hs v :
  fetchHeaders2 req = Normal hs ->
  req_headers req !! "range" = Some v -> v <> [] ->
  hs !! "Range" = Some v.
Proof.
  unfold fetchHeaders2. intros H Hr Hv.
  apply bind_Normal in H as (hs' & _ & H). rewrite Hr in H.
  destruct v as [|c v]; [done|]. injection H as <-. by rewrite lookup_insert_eq.
Qed.

End MoreFacts.

Section RangeFacts.
Context {R : Runtime}.

(** Without an inbound [Range] header, or with an empty one, the fetch has
    no [Range] header. *)
Lemma fetchHeaders1_no_Range req ref :
  truthy (req_headers req !! "range") = false ->
  fetchHeaders1 req ref !! "Range" = None.
Proof.
  intros Hr. unfold fetchHeaders1.
  destruct (req_headers req !! "range") as [[|c v]|]; [|done|];
    by rewrite !lookup_insert_ne by done.
Qed.

Lemma fetchHeaders2_no_Range req hs :
  fetchHeaders2 req = Normal hs ->
  truthy (req_headers req !! "range") = false ->
  hs !! "Range" = None.
Proof.
  unfold fetchHeaders2. intros H Hr.
  apply bind_Normal in H as (h & Hh & H).
  assert (Hnone : h !! "Range" = None).
  { destruct (truthy (query_referer req)).
    - apply bind_Normal in Hh as (ref & _ & Hh).
      apply bind_Normal in Hh as (u & _ & Hh). injection Hh as <-.
      by rewrite !lookup_insert_ne by done.
    - injection Hh as <-. by rewrite !lookup_insert_ne by done. }
  destruct (req_headers req !! "range") as [[|c v]|]; [|done|];
    by injection H as <-.
Qed.

End RangeFacts.

(** X4.  Every request that reaches the fetch is sent on as a GET of the
    percent-decoded [url] parameter, by both handlers.  An inbound [Range]
    header that is not empty is forwarded upstream as it is; without one no
    [Range] header is sent. *)
Theorem range_forwarded {R : Runtime}
  env1 req1 cfg1 req2 cfg2 env3 req3 cfg3 v3 req4 cfg4 v4 env5 req5 cfg5 req6 cfg6 :
  fetched (handler1 env1 req1) = Some cfg1 ->
  fetched (handler2 req2) = Some cfg2 ->
  fetched (handler1 env3 req3) = Some cfg3 ->
  req_headers req3 !! "range" = Some v3 -> v3 <> [] ->
  fetched (handler2 req4) = Some cfg4 ->
  req_headers req4 !! "range" = Some v4 -> v4 <> [] ->
  fetched (handler1 env5 req5) = Some cfg5 ->
  truthy (req_headers req5 !! "range") = false ->
  fetched (handler2 req6) = Some cfg6 ->
  truthy (req_headers req6 !! "range") = false ->
  ax_method cfg1 = "GET"
  /\ decodeURIComponent (inTemplate (query_url req1)) = Normal (ax_url cfg1)
  /\ ax_method cfg2 = "GET"
  /\ decodeURIComponent (inTemplate (query_url req2)) = Normal (ax_url cfg2)
  /\ ax_headers cfg3 !! "Range" = Some v3
  /\ ax_headers cfg4 !! "Range" = Some v4
  /\ ax_headers cfg5 !! "Range" = None
  /\ ax_headers cfg6 !! "Range" = None.
Proof.
  intros Hf1 Hf2 Hf3 Hr3 Hv3 Hf4 Hr4 Hv4 Hf5 Hr5 Hf6 Hr6.
  apply handler1_fetched in Hf1 as (url1 & ref1 & u1 & _ & _ & Hd1 & _ & _ & -> & _).
  apply handler2_fetched in Hf2 as (url2 & hs2 & _ & _ & Hd2 & _ & -> & _).
  apply handler1_fetched in Hf3 as (url3 & ref3 & u3 & _ & _ & _ & _ & _ & -> & _).
  apply handler2_fetched in Hf4 as (url4 & hs4 & _ & _ & _ & Hhs4 & -> & _).
  apply handler1_fetched in Hf5 as (url5 & ref5 & u5 & _ & _ & _ & _ & _ & -> & _).
  apply handler2_fetched in Hf6 as (url6 & hs6 & _ & _ & _ & Hhs6 & -> & _).
  cbn [fetchConfig ax_headers ax_method ax_url].
  split; [done|]. split; [done|]. split; [done|]. split; [done|].
  split; [by apply fetchHeaders1_Range|]. split; [by eapply fetchHeaders2_Range|].
  split; [by apply fetchHeaders1_no_Range|by eapply fetchHeaders2_no_Range].
Qed.

(** Witness of X4: the example request, which has no range, and the same
    request for the bytes 100 to 199. *)
Lemma range_forwarded_witness :
  ax_method exampleConfig1 = "GET"
  /\ decodeURIComponent (inTemplate (query_url exampleRequest))
     = Normal (ax_url exampleConfig1)
  /\ ax_method exampleConfig2 = "GET"
  /\ decodeURIComponent (inTemplate (query_url exampleRequest))
     = Normal (ax_url exampleConfig2)
  /\ ax_headers (configOf (handler1 (R := reference) noEnv rangeRequest)) !! "Range"
     = Some (js "bytes=100-199")
  /\ ax_headers (configOf (handler2 (R := reference) rangeRequest)) !! "Range"
     = Some (js "bytes=100-199")
  /\ ax_headers exampleConfig1 !! "Range" = None
  /\ ax_headers exampleConfig2 !! "Range" = None.
Proof.
  apply (range_forwarded (R := reference) noEnv exampleRequest exampleConfig1
           exampleRequest exampleConfig2
           noEnv rangeRequest
           (configOf (handler1 (R := reference) noEnv rangeRequest)) (js "bytes=100-199")
           rangeRequest
           (configOf (handler2 (R := reference) rangeRequest)) (js "bytes=100-199")
           noEnv exampleRequest exampleConfig1 exampleRequest exampleConfig2);
    solve [vm_compute; reflexivity | discriminate].
Defined.

(** X5.  A response that is not a playlist and whose status is below 400 is
    passed through: both handlers answer with the upstream status and the
    upstream bytes, unmodified. *)
Theorem binary_passed_through {R : Runtime} env req1 cfg1 req2 cfg2 r :
  fetched (handler1 env req1) = Some cfg1 ->
  fetched (handler2 req2) = Some cfg2 ->
  (ar_status r < 400)%Z ->
  isM3U8 (contentType1 r) (ax_url cfg1) = false ->
  isPlaylist2 (contentType2 r) (ax_url cfg2) = false ->
  statusOf (run (handler1 env req1) (Replies r)) = Some (ar_status r)
  /\ bodyOf (run (handler1 env req1) (Replies r)) = Some (BinaryBody (ar_data r))
  /\ statusOf (run (handler2 req2) (Replies r)) = Some (ar_status r)
  /\ bodyOf (run (handler2 req2) (Replies r)) = Some (BinaryBody (ar_data r)).
Proof.
  intros Hf1 Hf2 Hs Hm1 Hm2.
  apply handler1_fetched in Hf1 as (url & ref & u & _ & _ & _ & _ & _ & -> & ->).
  apply handler2_fetched in Hf2 as (url2 & hs & _ & _ & _ & _ & -> & ->).
  cbn [run axios fetchConfig ax_validateStatus ax_url] in *. unfold validateStatus.
  destruct (Z.ltb_spec (ar_status r) 500); [|lia].
  cbn [afterFetch1 afterFetch2]. destruct (Z.leb_spec 400 (ar_status r)); [lia|].
  rewrite Hm1, Hm2. done.
Qed.

Lemma binary_passed_through_witness :
  statusOf (run (handler1 (R := reference) noEnv segmentRequest)
                (Replies (reply 206 "video/mp2t" (bytes "G@"))))
  = Some (ar_status (reply 206 "video/mp2t" (bytes "G@")))
  /\ bodyOf (run (handler1 (R := reference) noEnv segmentRequest)
                 (Replies (reply 206 "video/mp2t" (bytes "G@"))))
     = Some (BinaryBody (ar_data (reply 206 "video/mp2t" (bytes "G@"))))
  /\ statusOf (run (handler2 (R := reference) segmentRequest)
                   (Replies (reply 206 "video/mp2t" (bytes "G@"))))
     = Some (ar_status (reply 206 "video/mp2t" (bytes "G@")))
  /\ bodyOf (run (handler2 (R := reference) segmentRequest)
                 (Replies (reply 206 "video/mp2t" (bytes "G@"))))
     = Some (BinaryBody (ar_data (reply 206 "video/mp2t" (bytes "G@")))).
Proof.
  apply (binary_passed_through (R := reference) noEnv segmentRequest
           (configOf (handler1 (R := reference) noEnv segmentRequest))
           segmentRequest segmentConfig2 (reply 206 "video/mp2t" (bytes "G@")));
    vm_compute; reflexivity.
Defined.

(** X6.  An upstream status of 500 or more is rejected by axios and handled
    in the [catch] blocks: both handlers answer with the upstream status
    and a JSON body whose [error] is [Upstream error]; a failed name lookup
    is answered 502 with [error] [DNS lookup failed] by the first handler. *)
Theorem upstream_failures {R : Runtime} env req1 cfg1 req2 cfg2 r code message :
  fetched (handler1 env req1) = Some cfg1 ->
  fetched (handler2 req2) = Some cfg2 ->
  (500 <= ar_status r)%Z ->
  code = "ENOTFOUND" \/ code = "EAI_AGAIN" ->
  statusOf (run (handler1 env req1) (Replies r)) = Some (ar_status r)
  /\ bodyOf (run (handler1 env req1) (Replies r))
     = Some (JsonBody [
         ("error", JString (js "Upstream error"));
         ("status", JNumber (ar_status r));
         ("message", JString (js ("Request failed with status code " +:+ pretty (ar_status r))));
         ("url", JString (ax_url cfg1))])
  /\ run (handler2 req2) (Replies r)
     = Responded (respond corsHeaders2 (ar_status r)
         (JsonBody [("error", JString (js "Upstream error"));
                    ("status", JNumber (ar_status r))]))
  /\ run (handler1 env req1) (Unreachable code message)
     = Responded (respond
         (setHeader "Access-Control-Allow-Origin" (js "*") ∅) 502
         (JsonBody [
           ("error", JString (js "DNS lookup failed"));
           ("message", JString (js "Could not resolve upstream host"));
           ("url", JString (ax_url cfg1))])).
Proof.
  intros Hf1 Hf2 Hs Hc.
  apply handler1_fetched in Hf1 as (url & ref & u & _ & _ & _ & _ & _ & -> & ->).
  apply handler2_fetched in Hf2 as (url2 & hs & _ & _ & _ & _ & -> & ->).
  cbn [run axios fetchConfig ax_validateStatus ax_url]. unfold validateStatus.
  destruct (Z.ltb_spec (ar_status r) 500); [lia|].
  cbn [afterFetch1 afterFetch2 catch2 e_response]. unfold catch1.
  cbn [e_code e_response e_message].
  assert (Hq : (ar_status r `div` 100 - 4 >= 1)%Z) by lia.
  assert (Hne : forall c,
            match (ar_status r `div` 100 - 4)%Z with
            | 0%Z => Some "ERR_BAD_REQUEST"
            | 1%Z => Some "ERR_BAD_RESPONSE"
            | _ => None
            end = Some c -> c = "ERR_BAD_RESPONSE").
  { intros c. destruct (ar_status r `div` 100 - 4)%Z as [|[]|]; try lia; congruence. }
  repeat split.
  - repeat case_bool_decide; try (exfalso; by eapply (Hne _) in H0);
      try match goal with H : _ = Some _ |- _ => apply Hne in H; discriminate end.
    cbn. destruct (Z.eqb_spec (ar_status r) 0); [lia|done].
  - repeat case_bool_decide;
      try match goal with H : _ = Some _ |- _ => apply Hne in H; discriminate end.
    done.
  - destruct Hc as [-> | ->]; done.
Qed.

Lemma upstream_failures_witness :
  statusOf (run (handler1 (R := reference) noEnv exampleRequest) (Replies unavailable))
  = Some (ar_status unavailable)
  /\ bodyOf (run (handler1 (R := reference) noEnv exampleRequest) (Replies unavailable))
     = Some (JsonBody [
         ("error", JString (js "Upstream error"));
         ("status", JNumber (ar_status unavailable));
         ("message", JString (js ("Request failed with status code "
                                  +:+ pretty (ar_status unavailable))));
         ("url", JString (ax_url exampleConfig1))])
  /\ run (handler2 (R := reference) exampleRequest) (Replies unavailable)
     = Responded (respond corsHeaders2 (ar_status unavailable)
         (JsonBody [("error", JString (js "Upstream error"));
                    ("status", JNumber (ar_status unavailable))]))
  /\ run (handler1 (R := reference) noEnv exampleRequest)
         (Unreachable "ENOTFOUND" (js "getaddrinfo ENOTFOUND cdn.example.com"))
     = Responded (respond
         (setHeader "Access-Control-Allow-Origin" (js "*") ∅) 502
         (JsonBody [
           ("error", JString (js "DNS lookup failed"));
           ("message", JString (js "Could not resolve upstream host"));
           ("url", JString (ax_url exampleConfig1))])).
Proof.
  apply (upstream_failures (R := reference) noEnv exampleRequest exampleConfig1
           exampleRequest exampleConfig2 unavailable "ENOTFOUND"
           (js "getaddrinfo ENOTFOUND cdn.example.com"));
    [vm_compute; reflexivity | vm_compute; reflexivity | vm_compute; discriminate
    | left; reflexivity].
Defined.

Lemma catch1_json {R : Runtime} res error url :
  exists j, body (catch1 res error url) = JsonBody j.
Proof. unfold catch1. repeat case_match; eexists; reflexivity. Qed.

(** X7.  When a line of a playlist is a relative reference that the [URL]
    constructor refuses, the first handler sends no playlist at all: the
    throw leaves [lines.map] and the body is the JSON error of the [catch]
    block. *)
Theorem unresolvable_reference_no_playlist {R : Runtime} env req cfg r line e :
  fetched (handler1 env req) = Some cfg ->
  (ar_status r < 400)%Z ->
  isM3U8 (contentType1 r) (ax_url cfg) = true ->
  line ∈ split (bufferToString (ar_data r)) 10 ->
  isRelativeReference line = true ->
  URL_new (trim line) (Some (basePathOf (ax_url cfg))) = Throw e ->
  exists j, bodyOf (run (handler1 env req) (Replies r)) = Some (JsonBody j).
Proof.
  intros Hf Hs Hm Hin Hrel Hu.
  apply handler1_fetched in Hf as (url & ref & u & _ & _ & _ & _ & _ & -> & ->).
  cbn [run axios fetchConfig ax_validateStatus ax_url] in *. unfold validateStatus.
  destruct (Z.ltb_spec (ar_status r) 500); [|lia].
  cbn [bodyOf]. rewrite afterFetch1_playlist_body by done.
  destruct (unresolvable_reference_throws _ _ (getProxyBaseUrl env req) ref _ _ Hin Hrel Hu)
    as (e' & ->).
  destruct (catch1_json ∅ e' url) as (j & ->). by exists j.
Qed.

Lemma unresolvable_reference_no_playlist_witness :
  exists j,
    bodyOf (run (handler1 (R := reference) noEnv exampleRequest)
                (Replies (reply 200 mpegurl (bytes "#EXTM3U" ++ LFb ++ bytes "//"))))
    = Some (JsonBody j).
Proof.
  apply (unresolvable_reference_no_playlist (R := reference) noEnv exampleRequest
           exampleConfig1 (reply 200 mpegurl (bytes "#EXTM3U" ++ LFb ++ bytes "//"))
           (js "//") InvalidURL); try (vm_compute; reflexivity).
  apply list_elem_of_lookup. exists 1%nat. vm_compute. reflexivity.
Defined.

(** * Lines, escapes, headers and totality *)

(** ** Lines: [split], [join] and [trim] *)

Lemma split_nonempty s sep : split s sep <> [].
Proof.
  destruct s as [|c s]; [done|]. cbn [split].
  destruct (c =? sep); [done|]. by destruct (split s sep).
Qed.

Lemma join_cons_head c l ls sep : join ((c :: l) :: ls) sep = c :: join (l :: ls) sep.
Proof. by destruct ls. Qed.

(** Joining the lines of a text gives the text back. *)
Lemma join_split s : join (split s 10) LF = s.
Proof.
  induction s as [|c s IH]; [done|]. cbn [split].
  pose proof (split_nonempty s 10) as Hne.
  destruct (N.eqb_spec c 10) as [->|Hc].
  - destruct (split s 10) as [|l ls]; [done|].
    change (join ([] :: l :: ls) LF) with (LF ++ join (l :: ls) LF).
    by rewrite IH.
  - destruct (split s 10) as [|l ls]; [done|].
    by rewrite join_cons_head, IH.
Qed.

Lemma split_no_sep l sep : Forall (fun c => c <> sep) l -> split l sep = [l].
Proof.
  induction 1 as [|c l Hc _ IH]; [done|]. cbn [split].
  destruct (N.eqb_spec c sep); [done|]. by rewrite IH.
Qed.

Lemma split_app_sep l t sep :
  Forall (fun c => c <> sep) l -> split (l ++ sep :: t) sep = l :: split t sep.
Proof.
  induction 1 as [|c l Hc _ IH]; cbn [app split].
  - by rewrite N.eqb_refl.
  - destruct (N.eqb_spec c sep); [done|]. by rewrite IH.
Qed.

(** Splitting the join of lines without a line feed gives the lines back. *)
Lemma split_join ls :
  ls <> [] -> Forall (Forall (fun c => c <> 10)) ls -> split (join ls LF) 10 = ls.
Proof.
  induction ls as [|l ls IH]; [done|]. intros _ Hall.
  apply Forall_cons in Hall as [Hl Hls].
  destruct ls as [|l2 ls]; [by apply split_no_sep|].
  change (join (l :: l2 :: ls) LF) with (l ++ 10 :: join (l2 :: ls) LF).
  rewrite split_app_sep by done. by rewrite IH.
Qed.

(** No line of a split text holds the separator. *)
Lemma split_lines_no_sep s sep : Forall (Forall (fun c => c <> sep)) (split s sep).
Proof.
  induction s as [|c s IH]; [by repeat constructor|]. cbn [split].
  destruct (N.eqb_spec c sep) as [->|Hc]; [by constructor|].
  destruct (split s sep) as [|l ls]; [by repeat constructor|].
  apply Forall_cons in IH as [Hl Hls]. by repeat constructor.
Qed.

Lemma trimStart_Forall (P : N -> Prop) s : Forall P s -> Forall P (trimStart s).
Proof.
  induction 1 as [|c s Hc Hs IH]; [done|]. cbn [trimStart].
  destruct (isWhiteSpace c); [done|by constructor].
Qed.

Lemma trim_Forall (P : N -> Prop) s : Forall P s -> Forall P (trim s).
Proof.
  intros H. unfold trim, trimEnd.
  apply List.Forall_rev, trimStart_Forall, List.Forall_rev, trimStart_Forall, H.
Qed.

(** [s.includes(c)] for one character is false exactly when no code unit of
    [s] is [c]. *)
Lemma includes_char s c : includes s [c] = false <-> Forall (fun x => x <> c) s.
Proof.
  induction s as [|d s IH]; [done|]. cbn [includes startsWith].
  rewrite andb_true_r, orb_false_iff, IH, Forall_cons, N.eqb_neq.
  split; intros [H1 H2]; split; congruence.
Qed.

(** ** The base path *)

Lemma lastIndexOf_from_slash s i :
  (0 <= i)%Z ->
  (Forall (fun c => c <> 47) s /\ lastIndexOf_from s (js "/") i = (-1)%Z)
  \/ exists b rest,
       s = b ++ 47 :: rest /\ Forall (fun c => c <> 47) rest
       /\ lastIndexOf_from s (js "/") i = (i + Z.of_nat (length b))%Z.
Proof.
  revert i. induction s as [|c s IH]; intros i Hi; [left; done|].
  cbn [lastIndexOf_from].
  destruct (IH (i + 1)%Z ltac:(lia)) as [[Hno Hr]|(b & rest & -> & Hrest & Hr)].
  - rewrite Hr. cbn [Z.leb Z.compare].
    change (startsWith (c :: s) (js "/")) with ((47 =? c) && true).
    rewrite andb_true_r.
    destruct (N.eqb_spec 47 c) as [<-|Hc].
    + right. exists [], s. cbn [length app]. repeat split; [done|lia].
    + left. split; [constructor; [congruence|done]|done].
  - right. rewrite Hr.
    destruct (Z.leb_spec 0 (i + 1 + Z.of_nat (length b))); [|lia].
    exists (c :: b), rest. cbn [length app]. repeat split; [done|lia].
Qed.

Lemma substring_prefix (s t : jsstring) :
  substring (s ++ t) 0 (Z.of_nat (length s)) = s.
Proof.
  unfold substring. rewrite length_app.
  replace (Z.min (Z.max 0 0) _) with 0%Z by lia.
  replace (Z.min (Z.max (Z.of_nat (length s)) 0) _) with (Z.of_nat (length s)) by lia.
  replace (Z.min 0 (Z.of_nat (length s))) with 0%Z by lia.
  replace (Z.max 0 (Z.of_nat (length s))) with (Z.of_nat (length s)) by lia.
  rewrite Z.sub_0_r, Nat2Z.id. change (Z.to_nat 0) with 0%nat. rewrite drop_0.
  by rewrite take_app_length.
Qed.

(** The base path of a URL with a slash is the URL up to its last slash. *)
Lemma basePathOf_slash b rest :
  Forall (fun c => c <> 47) rest ->
  basePathOf (b ++ js "/" ++ rest) = b ++ js "/".
Proof.
  intros Hrest. unfold basePathOf, lastIndexOf.
  destruct (lastIndexOf_from_slash (b ++ js "/" ++ rest) 0 ltac:(lia))
    as [[Hno _]|(b' & rest' & Heq & Hrest' & ->)].
  - apply Forall_app in Hno as [_ Hno]. by apply Forall_cons in Hno as [? _].
  - assert (b' = b) as ->.
    { clear -Heq Hrest Hrest'. revert b' Heq.
      induction b as [|c b IH]; intros [|c' b'] Heq; cbn in Heq.
      - done.
      - injection Heq as <- ->. apply Forall_app in Hrest as [_ H].
        by apply Forall_cons in H as [? _].
      - injection Heq as -> <-. apply Forall_app in Hrest' as [_ H].
        by apply Forall_cons in H as [? _].
      - injection Heq as <- Heq. f_equal. by apply IH. }
    replace (0 + Z.of_nat (length b) + 1)%Z with (Z.of_nat (length (b ++ js "/")))
      by (rewrite length_app; cbn; lia).
    rewrite (app_assoc b (js "/") rest). apply substring_prefix.
Qed.

(** The base path of a URL without a slash is empty. *)
Lemma basePathOf_no_slash url :
  Forall (fun c => c <> 47) url -> basePathOf url = [].
Proof.
  intros Hno. unfold basePathOf, lastIndexOf.
  destruct (lastIndexOf_from_slash url 0 ltac:(lia))
    as [[_ ->]|(b & rest & -> & _ & _)].
  - change (-1 + 1)%Z with 0%Z. unfold substring.
    by rewrite Z.min_id, Z.max_id, Z.sub_diag.
  - apply Forall_app in Hno as [_ H]. by apply Forall_cons in H as [? _].
Qed.

Lemma basePathOf_cases url :
  (Forall (fun c => c <> 47) url /\ basePathOf url = [])
  \/ exists b rest, url = b ++ js "/" ++ rest /\ Forall (fun c => c <> 47) rest
                    /\ basePathOf url = b ++ js "/".
Proof.
  destruct (lastIndexOf_from_slash url 0 ltac:(lia))
    as [[Hno _]|(b & rest & -> & Hrest & _)].
  - left. split; [done|by apply basePathOf_no_slash].
  - right. exists b, rest. repeat split; [done|by apply basePathOf_slash].
Qed.

(** ** What [encodeURIComponent] writes and throws *)

Lemma hexDigit_ge d : 48 <= hexDigit d.
Proof. unfold hexDigit. destruct (N.ltb_spec d 10); lia. Qed.

Lemma pctEncode_chars cp : Forall (fun x => x = 37 \/ 48 <= x) (pctEncode cp).
Proof.
  unfold pctEncode. apply Forall_flat_map, Forall_forall. intros b _.
  unfold pctOctet.
  repeat (apply Forall_cons; split; [first [by left | right; apply hexDigit_ge]|]).
  constructor.
Qed.

(** Every code unit [encodeURIComponent] writes is unreserved, a percent
    sign or a hexadecimal digit; in particular no line feed, no double quote
    and no ampersand comes out of it. *)
Lemma encodeURIComponent_chars_aux n : forall s e,
  (length s <= n)%nat -> encodeURIComponent s = Normal e ->
  Forall (fun x => uriUnreserved x = true \/ x = 37 \/ 48 <= x) e.
Proof.
  induction n as [|n IH]; intros s e Hn He.
  - destruct s; [|cbn in Hn; lia]. injection He as <-. constructor.
  - destruct s as [|c s]; [injection He as <-; constructor|].
    cbn [encodeURIComponent] in He. cbn [length] in Hn.
    destruct (uriUnreserved c) eqn:Hu.
    + apply bind_Normal in He as (r & Hr & He). injection He as <-.
      constructor; [by left|]. apply (IH s); [lia|done].
    + destruct (isLowSurrogate c); [done|].
      destruct (isHighSurrogate c).
      * destruct s as [|d s]; [done|]. destruct (isLowSurrogate d); [|done].
        apply bind_Normal in He as (r & Hr & He). injection He as <-.
        apply Forall_app. split.
        -- eapply Forall_impl; [apply pctEncode_chars|]. intros x []; auto.
        -- apply (IH s); [cbn [length] in Hn; lia|done].
      * apply bind_Normal in He as (r & Hr & He). injection He as <-.
        apply Forall_app. split.
        -- eapply Forall_impl; [apply pctEncode_chars|]. intros x []; auto.
        -- apply (IH s); [lia|done].
Qed.

Lemma encodeURIComponent_no s e c :
  c < 48 -> c <> 37 -> uriUnreserved c = false ->
  encodeURIComponent s = Normal e -> Forall (fun x => x <> c) e.
Proof.
  intros Hc H37 Hu He.
  eapply Forall_impl; [by apply (encodeURIComponent_chars_aux (length s) s e)|].
  intros x Hx Heq. subst x. destruct Hx as [Hx|[Hx|Hx]]; [congruence|done|lia].
Qed.

(** The only error of [encodeURIComponent] is the URIError. *)
Lemma encodeURIComponent_Throw_aux n : forall s e,
  (length s <= n)%nat -> encodeURIComponent s = Throw e -> e = URIError.
Proof.
  induction n as [|n IH]; intros s e Hn He.
  - destruct s; [done|cbn in Hn; lia].
  - destruct s as [|c s]; [done|].
    cbn [encodeURIComponent] in He. cbn [length] in Hn.
    assert (Hrec : forall t (k : jsstring -> completion jsstring),
               (length t <= n)%nat -> (forall r, k r <> Throw e) ->
               encodeURIComponent t ≫= k = Throw e -> e = URIError).
    { intros t k Ht Hk H. destruct (encodeURIComponent t) eqn:Ht'.
      - by apply Hk in H.
      - injection H as ->. by apply (IH t). }
    destruct (uriUnreserved c).
    + by apply Hrec in He; [|lia|].
    + destruct (isLowSurrogate c); [by injection He|].
      destruct (isHighSurrogate c).
      * destruct s as [|d s]; [by injection He|].
        destruct (isLowSurrogate d); [|by injection He].
        by apply Hrec in He; [|cbn [length] in Hn; lia|].
      * by apply Hrec in He; [|lia|].
Qed.

Lemma encodeURIComponent_Throw s e : encodeURIComponent s = Throw e -> e = URIError.
Proof. by apply (encodeURIComponent_Throw_aux (length s)). Qed.

(** A string without a percent sign decodes to itself. *)
Lemma Decode_no_percent s : Forall (fun c => c <> 37) s -> decodeURIComponent s = Normal s.
Proof.
  unfold decodeURIComponent.
  induction 1 as [|c s Hc _ IH]; [done|]. cbn [Decode].
  destruct (N.eqb_spec c 37); [done|]. by rewrite IH.
Qed.

(** What encodes is not empty when the text is not. *)
Lemma encodeURIComponent_nonempty s e :
  s <> [] -> encodeURIComponent s = Normal e -> e <> [].
Proof.
  destruct s as [|c s]; [done|]. intros _ He. cbn [encodeURIComponent] in He.
  assert (Hp : forall cp r, pctEncode cp ++ r <> []).
  { intros cp r. unfold pctEncode, utf8.
    destruct (cp <? 128); [done|]. destruct (cp <? 2048); [done|].
    by destruct (cp <? 65536). }
  destruct (uriUnreserved c).
  - apply bind_Normal in He as (r & _ & He). by injection He as <-.
  - destruct (isLowSurrogate c); [done|]. destruct (isHighSurrogate c).
    + destruct s as [|d s]; [done|]. destruct (isLowSurrogate d); [|done].
      apply bind_Normal in He as (r & _ & He). injection He as <-. apply Hp.
    + apply bind_Normal in He as (r & _ & He). injection He as <-. apply Hp.
Qed.

(** ** The regular expression of [rewriteUriInTag] *)

Lemma spanUnquoted_app uri rest :
  Forall (fun c => c <> 34) uri ->
  spanUnquoted (uri ++ quote ++ rest) = (uri, quote ++ rest).
Proof.
  induction 1 as [|c uri Hc _ IH]; [done|]. cbn [app spanUnquoted].
  destruct (N.eqb_spec c 34); [done|]. cbn [app] in IH. by rewrite IH.
Qed.

Lemma matchUriHere_attribute uri rest :
  uri <> [] -> Forall (fun c => c <> 34) uri ->
  matchUriHere (js "URI=" ++ quote ++ uri ++ quote ++ rest) = Some (uri, rest).
Proof.
  intros Hne Huri. unfold matchUriHere.
  rewrite (app_assoc (js "URI=") quote), startsWith_app.
  change (drop 5 ((js "URI=" ++ quote) ++ uri ++ quote ++ rest))
    with (uri ++ quote ++ rest).
  rewrite spanUnquoted_app by done. by destruct uri.
Qed.

Lemma startsWith_app_long s t p :
  (length p <= length s)%nat -> startsWith (s ++ t) p = startsWith s p.
Proof.
  revert s. induction p as [|c p IH]; intros [|d s] Hl; cbn in Hl |- *; try done; [lia|].
  rewrite IH by lia. done.
Qed.

Lemma matchUriHere_eq s :
  matchUri s
  = match matchUriHere s with
    | Some (uri, rest) => Some ([], uri, rest)
    | None =>
        match s with
        | [] => None
        | c :: s' =>
            match matchUri s' with
            | Some (before, uri, rest) => Some (c :: before, uri, rest)
            | None => None
            end
        end
    end.
Proof. by destruct s. Qed.

(** No match begins inside a text that does not hold the five characters
    the expression starts with, whatever follows the text. *)
Lemma startsWith_straddle c before t :
  includes (c :: before) (js "URI=" ++ quote) = false ->
  startsWith ((c :: before) ++ js "URI=" ++ t) (js "URI=" ++ quote) = false.
Proof.
  intros Hinc. cbn [includes] in Hinc. apply orb_false_elim in Hinc as [Hs _].
  destruct (decide (5 <= length (c :: before))%nat) as [Hl|Hl].
  - by rewrite startsWith_app_long.
  - clear Hs. change (js "URI=" ++ quote) with [85; 82; 73; 61; 34].
    change (js "URI=" ++ t) with (85 :: 82 :: 73 :: 61 :: t).
    destruct before as [|c2 [|c3 [|c4 [|c5 ?]]]]; [| | | |cbn in Hl; lia];
      cbn [app startsWith];
      repeat match goal with
             | |- context [?a =? ?b] =>
                 first [ is_var b; destruct (a =? b); cbn [andb]; try reflexivity
                       | let v := eval vm_compute in (a =? b) in
                         change (a =? b) with v; cbn [andb]; try reflexivity ]
             end.
Qed.

(** The leftmost match: the first well-formed attribute of a text whose
    part in front of it does not hold the text URI= followed by a quote. *)
Lemma matchUri_first before uri rest :
  includes before (js "URI=" ++ quote) = false ->
  uri <> [] -> Forall (fun c => c <> 34) uri ->
  matchUri (before ++ js "URI=" ++ quote ++ uri ++ quote ++ rest)
  = Some (before, uri, rest).
Proof.
  intros Hinc Hne Huri. induction before as [|c before IH].
  - rewrite matchUriHere_eq. cbn [app]. by rewrite matchUriHere_attribute.
  - rewrite matchUriHere_eq. unfold matchUriHere at 1.
    rewrite startsWith_straddle by done.
    cbn [app]. rewrite IH; [done|].
    cbn [includes] in Hinc. by apply orb_false_elim in Hinc as [_ ?].
Qed.

(** ** Headers of the responses *)

Section ResponseFacts.
Context {R : Runtime}.

Lemma catch1_cors res error url :
  headers (catch1 res error url) !! "Access-Control-Allow-Origin" = Some (js "*").
Proof.
  unfold catch1. repeat case_match; cbn [respond headers]; apply lookup_insert_eq.
Qed.

Lemma cacheControl1_lookup_ne url res key :
  key <> "Cache-Control" -> key <> "Pragma" -> key <> "Expires" ->
  cacheControl1 url res !! key = res !! key.
Proof.
  intros H1 H2 H3. unfold cacheControl1, setHeader.
  repeat case_match; by rewrite ?lookup_insert_ne by done.
Qed.

Lemma cacheControl2_lookup_ne url res key :
  key <> "Cache-Control" -> cacheControl2 url res !! key = res !! key.
Proof.
  intros H1. unfold cacheControl2, setHeader.
  repeat case_match; by rewrite ?lookup_insert_ne by done.
Qed.

Lemma forward_lookup name from response res :
  forward name from response res !! name
  = if truthy (ar_headers response !! from) then ar_headers response !! from
    else res !! name.
Proof.
  unfold forward, setHeader.
  destruct (ar_headers response !! from) as [[|c v]|]; cbn [truthy]; [done| |done].
  apply lookup_insert_eq.
Qed.

Lemma afterFetch1_headers env req url ref r key :
  (ar_status r < 400)%Z -> key <> "Access-Control-Allow-Origin" ->
  headers (afterFetch1 env req url ref (Normal r)) !! key = sent1 url r !! key.
Proof.
  intros Hs Hk. unfold afterFetch1. destruct (Z.leb_spec 400 (ar_status r)); [lia|].
  fold (sent1 url r). destruct (isM3U8 _ _); [|done].
  destruct (rewritePlaylist1 _ _ _ _); [done|]. by apply catch1_lookup.
Qed.

Lemma afterFetch2_headers req url r :
  headers (afterFetch2 req url (Normal r)) = sent2 url r.
Proof.
  unfold afterFetch2. fold (sent2 url r). destruct (isPlaylist2 _ _); [|done].
  destruct (rewritePlaylist2 _ _ _ _); [done|]. apply catch2_headers.
Qed.

Lemma sent1_cors url r : sent1 url r !! "Access-Control-Allow-Origin" = Some (js "*").
Proof.
  unfold sent1. rewrite cacheControl1_lookup_ne by done.
  rewrite !forward_lookup_ne by done. unfold setHeader.
  rewrite lookup_insert_ne by done. rewrite !forward_lookup_ne by done.
  by rewrite !lookup_insert_ne by done.
Qed.

Lemma sent2_cors url r key :
  key <> "Cache-Control" -> key <> "Accept-Ranges" -> key <> "Content-Range" ->
  key <> "Content-Length" -> key <> "Content-Type" ->
  sent2 url r !! key = corsHeaders2 !! key.
Proof.
  intros. unfold sent2. rewrite cacheControl2_lookup_ne by done. unfold setHeader.
  rewrite lookup_insert_ne by done. rewrite !forward_lookup_ne by done.
  by rewrite lookup_insert_ne by done.
Qed.

Lemma afterFetch1_cors env req url ref result :
  headers (afterFetch1 env req url ref result) !! "Access-Control-Allow-Origin"
  = Some (js "*").
Proof.
  unfold afterFetch1. destruct result as [r|e]; [|apply catch1_cors].
  destruct (400 <=? ar_status r)%Z; [apply lookup_insert_eq|].
  fold (sent1 url r). destruct (isM3U8 _ _); [|apply sent1_cors].
  destruct (rewritePlaylist1 _ _ _ _); [apply sent1_cors|apply catch1_cors].
Qed.

Lemma afterFetch2_cors req url result key :
  key <> "Cache-Control" -> key <> "Accept-Ranges" -> key <> "Content-Range" ->
  key <> "Content-Length" -> key <> "Content-Type" ->
  headers (afterFetch2 req url result) !! key = corsHeaders2 !! key.
Proof.
  intros. destruct result as [r|e].
  - rewrite afterFetch2_headers. by apply sent2_cors.
  - cbn [afterFetch2]. by rewrite catch2_headers.
Qed.

(** The second handler answers every request. *)
Lemma handler2_responds req net : exists resp, run (handler2 req) net = Responded resp.
Proof.
  unfold handler2. repeat case_match; cbn [run]; eauto.
Qed.

Lemma handler2_cors req net resp key :
  key <> "Cache-Control" -> key <> "Accept-Ranges" -> key <> "Content-Range" ->
  key <> "Content-Length" -> key <> "Content-Type" ->
  run (handler2 req) net = Responded resp ->
  headers resp !! key = corsHeaders2 !! key.
Proof.
  intros ? ? ? ? ?. unfold handler2.
  repeat case_match; cbn [run]; intros [= <-];
    rewrite ?catch2_headers; try done.
  by apply afterFetch2_cors.
Qed.

Lemma axios_fetchConfig d d' url hs hs' net :
  axios (fetchConfig d url hs) net = axios (fetchConfig d' url hs') net.
Proof. by destruct net. Qed.

Lemma afterFetch1_base env req req' url ref result :
  getProxyBaseUrl env req = getProxyBaseUrl env req' ->
  afterFetch1 env req url ref result = afterFetch1 env req' url ref result.
Proof. intros H. unfold afterFetch1. by rewrite H. Qed.

Lemma afterFetch2_base req req' url result :
  proxyBase2 req = proxyBase2 req' -> query_referer req = query_referer req' ->
  afterFetch2 req url result = afterFetch2 req' url result.
Proof. intros H H'. unfold afterFetch2. by rewrite H, H'. Qed.

Lemma fetchHeaders2_referer req req' hs :
  query_referer req = query_referer req' ->
  fetchHeaders2 req = Normal hs -> exists hs', fetchHeaders2 req' = Normal hs'.
Proof.
  intros Hr. unfold fetchHeaders2. rewrite Hr. intros H.
  apply bind_Normal in H as (h & -> & _). eexists. reflexivity.
Qed.

Lemma fetchHeaders2_Throw req req' e :
  query_referer req = query_referer req' ->
  fetchHeaders2 req = Throw e -> fetchHeaders2 req' = Throw e.
Proof.
  intros Hr. unfold fetchHeaders2. rewrite Hr.
  match goal with |- ?c ≫= _ = _ -> ?c ≫= _ = _ => destruct c end; [done|].
  by intros [= ->].
Qed.

End ResponseFacts.

Lemma stripTrailingSlash_slash b : stripTrailingSlash (b ++ js "/") = b.
Proof.
  unfold stripTrailingSlash. change (js "/") with [47].
  by rewrite last_snoc, removelast_last.
Qed.

Lemma stripTrailingSlash_other b :
  endsWith b (js "/") = false -> stripTrailingSlash b = b.
Proof.
  unfold stripTrailingSlash, endsWith. destruct b as [|c b] using rev_ind; [done|].
  rewrite rev_unit, last_snoc. change (rev (js "/")) with [47]. cbn [startsWith].
  rewrite andb_true_r. intros H. destruct (N.eqb_spec 47 c) as [<-|]; [done|].
  by repeat case_match; try congruence.
Qed.

(** X8.  Every response of either handler carries
    [Access-Control-Allow-Origin: *], whatever the request and whatever
    happens upstream; the second handler answers every request, and always
    with [Access-Control-Allow-Methods: GET, OPTIONS] as well. *)
Theorem cors_on_every_response {R : Runtime} env req1 net1 resp1 req2 net2 :
  run (handler1 env req1) net1 = Responded resp1 ->
  headers resp1 !! "Access-Control-Allow-Origin" = Some (js "*")
  /\ exists resp2,
       run (handler2 req2) net2 = Responded resp2
       /\ headers resp2 !! "Access-Control-Allow-Origin" = Some (js "*")
       /\ headers resp2 !! "Access-Control-Allow-Methods" = Some (js "GET, OPTIONS").
Proof.
  intros H1. split.
  - revert H1. unfold handler1.
    repeat case_match; cbn [run]; intros [= <-];
      first [apply afterFetch1_cors | apply lookup_insert_eq | reflexivity].
  - destruct (handler2_responds req2 net2) as (resp2 & H2). exists resp2.
    split; [done|]. by rewrite !(handler2_cors req2 net2 resp2) by done.
Qed.

Lemma cors_on_every_response_witness :
  headers (responseOf (run (handler1 (R := reference) noEnv exampleRequest) TimesOut))
    !! "Access-Control-Allow-Origin" = Some (js "*")
  /\ exists resp2,
       run (handler2 (R := reference) malformedRefererRequest) TimesOut = Responded resp2
       /\ headers resp2 !! "Access-Control-Allow-Origin" = Some (js "*")
       /\ headers resp2 !! "Access-Control-Allow-Methods" = Some (js "GET, OPTIONS").
Proof.
  apply (cors_on_every_response (R := reference) noEnv exampleRequest TimesOut
           (responseOf (run (handler1 (R := reference) noEnv exampleRequest) TimesOut))
           malformedRefererRequest TimesOut).
  vm_compute. reflexivity.
Defined.

(** X9.  The inbound headers reach the response through the proxy base
    only: two requests with the same method and query get the same response
    from the first handler when [PROXY_BASE_URL] is set or their proxy bases
    agree, and from the second handler when their proxy bases agree (the
    upstream behaviour being the same). *)
Theorem response_depends_on_proxy_base_only {R : Runtime}
  env req1 req1' net1 req2 req2' net2 :
  method req1 = method req1' -> query_url req1 = query_url req1' ->
  query_referer req1 = query_referer req1' ->
  truthy (PROXY_BASE_URL env) = true \/ proxyBase2 req1 = proxyBase2 req1' ->
  method req2 = method req2' -> query_url req2 = query_url req2' ->
  query_referer req2 = query_referer req2' ->
  proxyBase2 req2 = proxyBase2 req2' ->
  run (handler1 env req1) net1 = run (handler1 env req1') net1
  /\ run (handler2 req2) net2 = run (handler2 req2') net2.
Proof.
  intros Hm1 Hu1 Hr1 Hb1 Hm2 Hu2 Hr2 Hb2. split.
  - assert (Hb : getProxyBaseUrl env req1 = getProxyBaseUrl env req1').
    { unfold getProxyBaseUrl. destruct Hb1 as [->|Hb]; [done|].
      destruct (truthy (PROXY_BASE_URL env)); [done|apply Hb]. }
    unfold handler1. rewrite Hm1, Hu1, Hr1.
    repeat case_match; try done; cbn [run];
      rewrite (afterFetch1_base env req1 req1') by done;
      f_equal; f_equal; apply axios_fetchConfig.
  - unfold handler2. rewrite Hm2, Hu2.
    destruct (bool_decide (method req2' = "OPTIONS")); [done|].
    destruct (negb (bool_decide (method req2' = "GET"))); [done|].
    destruct (negb (truthy (query_url req2'))); [done|].
    destruct (decodeURIComponent (inTemplate (query_url req2'))) as [url|e']; [|done].
    destruct (fetchHeaders2 req2) as [hs|e] eqn:Hh.
    + destruct (fetchHeaders2_referer req2 req2' hs Hr2 Hh) as (hs' & ->).
      cbn [run]. rewrite (afterFetch2_base req2 req2') by done.
      by rewrite (axios_fetchConfig None None url hs hs' net2).
    + by rewrite (fetchHeaders2_Throw req2 req2' e Hr2 Hh).
Qed.

Lemma response_depends_on_proxy_base_only_witness :
  run (handler1 (R := reference) envWithBase exampleRequest) (ok200 mpegurl playlistBytes)
  = run (handler1 (R := reference) envWithBase otherRequest) (ok200 mpegurl playlistBytes)
  /\ run (handler2 (R := reference) exampleRequest) (ok200 mpegurl playlistBytes)
     = run (handler2 (R := reference) otherRequest) (ok200 mpegurl playlistBytes).
Proof.
  apply (response_depends_on_proxy_base_only (R := reference) envWithBase
           exampleRequest otherRequest (ok200 mpegurl playlistBytes)
           exampleRequest otherRequest (ok200 mpegurl playlistBytes));
    first [left; reflexivity | vm_compute; reflexivity].
Defined.

(** X10.  [getProxyBaseUrl]: a [PROXY_BASE_URL] ending in a slash loses
    exactly that slash, one that does not end in a slash is used as it is,
    both whatever the request; without it the base is, for every request,
    the one the second handler computes.  In that base the host is the
    [x-forwarded-host] header when it is not empty and the [host] header
    otherwise. *)
Theorem proxy_base_url env1 b1 req1 env2 b2 req2 env3 req3 req4 h req5 :
  PROXY_BASE_URL env1 = Some (b1 ++ js "/") ->
  PROXY_BASE_URL env2 = Some b2 -> b2 <> [] -> endsWith b2 (js "/") = false ->
  truthy (PROXY_BASE_URL env3) = false ->
  req_headers req4 !! "x-forwarded-host" = Some h -> h <> [] ->
  truthy (req_headers req5 !! "x-forwarded-host") = false ->
  getProxyBaseUrl env1 req1 = b1
  /\ getProxyBaseUrl env2 req2 = b2
  /\ getProxyBaseUrl env3 req3 = proxyBase2 req3
  /\ proxyBase2 req4
     = orElse (req_headers req4 !! "x-forwarded-proto") (js "https") ++ js "://" ++ h
  /\ proxyBase2 req5
     = orElse (req_headers req5 !! "x-forwarded-proto") (js "https") ++ js "://"
       ++ inTemplate (req_headers req5 !! "host").
Proof.
  intros H1 H2 Hne Hend H3 Hh Hhne H5. unfold getProxyBaseUrl, proxyBase2.
  rewrite H1, H2, H3, Hh. cbn [inTemplate].
  split; [|split; [|split; [|split]]].
  - replace (truthy (Some (b1 ++ js "/"))) with true by (by destruct b1).
    apply stripTrailingSlash_slash.
  - replace (truthy (Some b2)) with true by (by destruct b2).
    by apply stripTrailingSlash_other.
  - done.
  - unfold orElseOpt. by destruct h.
  - unfold orElseOpt. by rewrite H5.
Qed.

(** Witness of X10: a configured base with and without a final slash, and
    the example requests, one with a forwarded host and one without. *)
Lemma proxy_base_url_witness :
  getProxyBaseUrl envWithBase exampleRequest = js "https://proxy.example"
  /\ getProxyBaseUrl {| PROXY_BASE_URL := Some (js "https://proxy.example/base") |}
       otherRequest = js "https://proxy.example/base"
  /\ getProxyBaseUrl noEnv exampleRequest = proxyBase2 exampleRequest
  /\ proxyBase2 otherRequest
     = orElse (req_headers otherRequest !! "x-forwarded-proto") (js "https")
       ++ js "://" ++ js "proxy.example"
  /\ proxyBase2 exampleRequest
     = orElse (req_headers exampleRequest !! "x-forwarded-proto") (js "https")
       ++ js "://" ++ inTemplate (req_headers exampleRequest !! "host").
Proof.
  apply (proxy_base_url envWithBase (js "https://proxy.example") exampleRequest
           {| PROXY_BASE_URL := Some (js "https://proxy.example/base") |}
           (js "https://proxy.example/base") otherRequest
           noEnv exampleRequest otherRequest (js "proxy.example") exampleRequest);
    solve [vm_compute; reflexivity | discriminate].
Defined.

(** X11.  The base path is the URL up to and including its last slash,
    and empty when the URL has no slash. *)
Theorem base_path_through_last_slash url :
  (includes url (js "/") = false /\ basePathOf url = [])
  \/ exists b rest,
       url = b ++ js "/" ++ rest /\ includes rest (js "/") = false
       /\ basePathOf url = b ++ js "/".
Proof.
  destruct (basePathOf_cases url) as [[Hno H]|(b & rest & Hu & Hno & H)].
  - left. split; [by apply includes_char|done].
  - right. exists b, rest. split; [done|]. split; [by apply includes_char|done].
Qed.

(** ** Directives with a URI attribute, and the url parameter *)

Section TagFacts.
Context {R : Runtime}.

Lemma rewriteUriInTag_unresolvable tag basePath P encRef before uri rest e :
  matchUri tag = Some (before, uri, rest) ->
  startsWith uri (js "http") = false ->
  URL_new uri (Some basePath) = Throw e ->
  rewriteUriInTag tag basePath P encRef = Normal tag.
Proof.
  intros Hm Hs Hu. unfold rewriteUriInTag. rewrite Hm, Hs. cbn [negb]. rewrite Hu.
  apply matchUri_spec in Hm as (Heq & _).
  change (Normal (before ++ (js "URI=" ++ quote ++ uri ++ quote) ++ rest) = Normal tag).
  by rewrite Heq, <- !app_assoc.
Qed.

Lemma rewriteUriInTag_target tag basePath P encRef before uri rest target E :
  matchUri tag = Some (before, uri, rest) ->
  (startsWith uri (js "http") = true /\ target = uri)
  \/ (startsWith uri (js "http") = false
      /\ exists u, URL_new uri (Some basePath) = Normal u /\ target = href u) ->
  encodeURIComponent target = Normal E ->
  rewriteUriInTag tag basePath P encRef
  = Normal (before ++ js "URI=" ++ quote ++ proxyCall P E encRef ++ quote ++ rest).
Proof.
  intros Hm Ht HE. unfold rewriteUriInTag. rewrite Hm.
  destruct Ht as [[-> ->]|[-> (u & -> & ->)]]; cbn [negb]; rewrite HE; cbn;
    by rewrite <- !app_assoc.
Qed.

End TagFacts.

(** X12.  A directive whose URI attribute holds a reference the [URL]
    constructor refuses is not an error: the first handler puts out the
    trimmed directive unchanged.  So is a directive that holds the text URI=
    and a quote but no match of the expression. *)
Theorem unresolvable_tag_kept {R : Runtime}
  basePath P encRef line before uri rest e line2 :
  isCommentOrBlank line = true ->
  matchUri (trim line) = Some (before, uri, rest) ->
  startsWith uri (js "http") = false ->
  URL_new uri (Some basePath) = Throw e ->
  isCommentOrBlank line2 = true ->
  includes (trim line2) (js "URI=" ++ quote) = true ->
  matchUri (trim line2) = None ->
  rewriteLine1 basePath P encRef line = Normal (trim line)
  /\ rewriteLine1 basePath P encRef line2 = Normal (trim line2).
Proof.
  intros Hc Hm Hs Hu Hc2 Hi2 Hm2. rewrite !rewriteLine1_comment by done.
  rewrite Hi2. split.
  - pose proof (matchUri_spec _ _ _ _ Hm) as (Heq & _).
    assert (Hinc : includes (trim line) (js "URI=" ++ quote) = true).
    { rewrite Heq, (app_assoc (js "URI=") quote). apply includes_app. }
    rewrite Hinc. by eapply rewriteUriInTag_unresolvable.
  - unfold rewriteUriInTag. by rewrite Hm2.
Qed.

Lemma unresolvable_tag_kept_witness :
  rewriteLine1 (R := reference) exampleBase proxyExample (js "r") unresolvableTag
  = Normal (trim unresolvableTag)
  /\ rewriteLine1 (R := reference) exampleBase proxyExample (js "r") emptyUriTag
     = Normal (trim emptyUriTag).
Proof.
  apply (unresolvable_tag_kept (R := reference) exampleBase proxyExample (js "r")
           unresolvableTag (js "#EXT-X-KEY:METHOD=AES-128,") (js "//") [] InvalidURL
           emptyUriTag); vm_compute; reflexivity.
Defined.

(** X13.  [rewriteUriInTag] replaces the value of the first URI attribute
    (non-empty, without a quote) by a proxy call on it, or on its resolution
    when it does not start with [http], and leaves everything before and
    after that attribute as it is, further URI attributes included. *)
Theorem first_uri_attribute_rewritten {R : Runtime}
  before uri rest basePath P encRef target E :
  includes before (js "URI=" ++ quote) = false ->
  uri <> [] -> includes uri quote = false ->
  (startsWith uri (js "http") = true /\ target = uri)
  \/ (startsWith uri (js "http") = false
      /\ exists u, URL_new uri (Some basePath) = Normal u /\ target = href u) ->
  encodeURIComponent target = Normal E ->
  rewriteUriInTag (before ++ js "URI=" ++ quote ++ uri ++ quote ++ rest)
    basePath P encRef
  = Normal (before ++ js "URI=" ++ quote ++ proxyCall P E encRef ++ quote ++ rest).
Proof.
  intros Hb Hne Hq Ht HE.
  apply (rewriteUriInTag_target _ _ _ _ before uri rest target E); [|done..].
  apply matchUri_first; [done..|]. by apply includes_char.
Qed.

Lemma first_uri_attribute_rewritten_witness :
  rewriteUriInTag (R := reference)
    (js "#EXT-X-KEY:METHOD=AES-128," ++ js "URI=" ++ quote ++ js "key.bin" ++ quote
     ++ js ",URI=" ++ quote ++ js "other.bin" ++ quote)
    exampleBase proxyExample (js "r")
  = Normal (js "#EXT-X-KEY:METHOD=AES-128," ++ js "URI=" ++ quote
            ++ proxyCall proxyExample
                 (js "https%3A%2F%2Fcdn.example.com%2Fvideos%2Fabc%2Fkey.bin") (js "r")
            ++ quote ++ js ",URI=" ++ quote ++ js "other.bin" ++ quote).
Proof.
  apply (first_uri_attribute_rewritten (R := reference)
           (js "#EXT-X-KEY:METHOD=AES-128,") (js "key.bin")
           (js ",URI=" ++ quote ++ js "other.bin" ++ quote)
           exampleBase proxyExample (js "r")
           (js "https://cdn.example.com/videos/abc/key.bin")
           (js "https%3A%2F%2Fcdn.example.com%2Fvideos%2Fabc%2Fkey.bin"));
    [reflexivity | discriminate | reflexivity | | reflexivity].
  right. split; [reflexivity|].
  exists {| href := js "https://cdn.example.com/videos/abc/key.bin";
            origin := js "https://cdn.example.com" |}.
  split; vm_compute; reflexivity.
Defined.

(** X14.  The [url] parameter the rewriting writes comes back as the URL
    to fetch: a request whose [url] query is [encodeURIComponent] of a
    well-formed, non-empty URL makes both handlers fetch that URL; so does,
    in the first handler, a [url] query that is a URL without a percent
    sign. *)
Theorem url_parameter_round_trip {R : Runtime}
  env U E u req1 ref1 req2 hs2 req3 U3 u3 ref3 :
  wf_string U -> U <> [] -> encodeURIComponent U = Normal E ->
  URL_new U None = Normal u ->
  method req1 = "GET" -> query_url req1 = Some E -> refererOf1 req1 = Normal ref1 ->
  method req2 = "GET" -> query_url req2 = Some E -> fetchHeaders2 req2 = Normal hs2 ->
  U3 <> [] -> includes U3 (js "%") = false -> URL_new U3 None = Normal u3 ->
  method req3 = "GET" -> query_url req3 = Some U3 -> refererOf1 req3 = Normal ref3 ->
  fetched (handler1 env req1) = Some (fetchConfig (Some true) U (fetchHeaders1 req1 ref1))
  /\ fetched (handler2 req2) = Some (fetchConfig None U hs2)
  /\ fetched (handler1 env req3)
     = Some (fetchConfig (Some true) U3 (fetchHeaders1 req3 ref3)).
Proof.
  intros Hwf Hne HE Hu Hm1 Hq1 Hr1 Hm2 Hq2 Hh2 Hne3 Hp3 Hu3 Hm3 Hq3 Hr3.
  pose proof (decode_encode U E Hwf HE) as Hd.
  pose proof (encodeURIComponent_nonempty U E Hne HE) as HEne.
  pose proof (Decode_no_percent U3 (proj1 (includes_char U3 37) Hp3)) as Hd3.
  unfold refererOf1 in Hr1, Hr3.
  unfold handler1, handler2. rewrite Hm1, Hm2, Hm3, Hq1, Hq2, Hq3.
  cbn [inTemplate]. rewrite Hd, Hd3, Hu, Hu3, Hr1, Hr3, Hh2.
  destruct E as [|c E]; [done|]. destruct U3 as [|c3 U3]; [done|]. done.
Qed.

Lemma url_parameter_round_trip_witness :
  fetched (handler1 (R := reference) noEnv exampleRequest)
  = Some (fetchConfig (Some true) exampleUrl (fetchHeaders1 exampleRequest defaultReferer))
  /\ fetched (handler2 (R := reference) exampleRequest)
     = Some (fetchConfig None exampleUrl (ax_headers exampleConfig2))
  /\ fetched (handler1 (R := reference) noEnv plainUrlRequest)
     = Some (fetchConfig (Some true) exampleUrl
               (fetchHeaders1 plainUrlRequest defaultReferer)).
Proof.
  apply (url_parameter_round_trip (R := reference) noEnv exampleUrl (js playlistUrl)
           exampleURL exampleRequest defaultReferer exampleRequest
           (ax_headers exampleConfig2) plainUrlRequest exampleUrl exampleURL
           defaultReferer);
    try solve [vm_compute; reflexivity | discriminate].
  unfold exampleUrl. repeat (constructor; [reflexivity|]). constructor.
Defined.

Ltac lookup_headers :=
  unfold sent1, sent2, forwarded;
  repeat first
    [ rewrite cacheControl1_lookup_ne by done
    | rewrite cacheControl2_lookup_ne by done
    | rewrite forward_lookup_ne by done
    | rewrite forward_lookup
    | progress unfold setHeader
    | rewrite lookup_insert_eq
    | rewrite lookup_insert_ne by done
    | rewrite lookup_empty ].

(** X15.  The headers the handlers set from the upstream response:
    [Content-Type] (with the default of each handler), [Content-Length] and
    [Content-Range] when upstream sent them, [Accept-Ranges] (default
    [bytes]), and in the first handler [ETag] and [Last-Modified], which the
    second never sets.  This holds for every upstream status below 400
    (first handler) or below 500 (second), rewritten playlists included. *)
Theorem upstream_headers_forwarded {R : Runtime} env req1 cfg1 r1 req2 cfg2 r2 :
  fetched (handler1 env req1) = Some cfg1 -> (ar_status r1 < 400)%Z ->
  fetched (handler2 req2) = Some cfg2 -> (ar_status r2 < 500)%Z ->
  headersOf (run (handler1 env req1) (Replies r1)) !! "Content-Type"
  = Some (orElse (ar_headers r1 !! "content-type") (js "application/octet-stream"))
  /\ headersOf (run (handler1 env req1) (Replies r1)) !! "Content-Length"
     = forwarded r1 "content-length"
  /\ headersOf (run (handler1 env req1) (Replies r1)) !! "Content-Range"
     = forwarded r1 "content-range"
  /\ headersOf (run (handler1 env req1) (Replies r1)) !! "Accept-Ranges"
     = Some (orElse (ar_headers r1 !! "accept-ranges") (js "bytes"))
  /\ headersOf (run (handler1 env req1) (Replies r1)) !! "ETag" = forwarded r1 "etag"
  /\ headersOf (run (handler1 env req1) (Replies r1)) !! "Last-Modified"
     = forwarded r1 "last-modified"
  /\ headersOf (run (handler2 req2) (Replies r2)) !! "Content-Type"
     = Some (orElse (ar_headers r2 !! "content-type") (js "application/vnd.apple.mpegurl"))
  /\ headersOf (run (handler2 req2) (Replies r2)) !! "Content-Length"
     = forwarded r2 "content-length"
  /\ headersOf (run (handler2 req2) (Replies r2)) !! "Content-Range"
     = forwarded r2 "content-range"
  /\ headersOf (run (handler2 req2) (Replies r2)) !! "Accept-Ranges"
     = Some (orElse (ar_headers r2 !! "accept-ranges") (js "bytes"))
  /\ headersOf (run (handler2 req2) (Replies r2)) !! "ETag" = None
  /\ headersOf (run (handler2 req2) (Replies r2)) !! "Last-Modified" = None.
Proof.
  intros Hf1 Hs1 Hf2 Hs2.
  apply handler1_fetched in Hf1 as (url & ref & u & _ & _ & _ & _ & _ & -> & ->).
  apply handler2_fetched in Hf2 as (url2 & hs & _ & _ & _ & _ & -> & ->).
  unfold headersOf.
  cbn [run axios fetchConfig ax_validateStatus responseOf]. unfold validateStatus.
  destruct (Z.ltb_spec (ar_status r1) 500); [|lia].
  destruct (Z.ltb_spec (ar_status r2) 500); [|lia].
  rewrite !afterFetch1_headers by done. rewrite afterFetch2_headers.
  repeat split; lookup_headers; try done;
    by destruct (truthy _).
Qed.

Lemma upstream_headers_forwarded_witness :
  headersOf (run (handler1 (R := reference) noEnv rangeRequest) (Replies partialSegment))
    !! "Content-Type"
  = Some (orElse (ar_headers partialSegment !! "content-type")
                 (js "application/octet-stream"))
  /\ headersOf (run (handler1 (R := reference) noEnv rangeRequest) (Replies partialSegment))
       !! "Content-Length" = forwarded partialSegment "content-length"
  /\ headersOf (run (handler1 (R := reference) noEnv rangeRequest) (Replies partialSegment))
       !! "Content-Range" = forwarded partialSegment "content-range"
  /\ headersOf (run (handler1 (R := reference) noEnv rangeRequest) (Replies partialSegment))
       !! "Accept-Ranges"
     = Some (orElse (ar_headers partialSegment !! "accept-ranges") (js "bytes"))
  /\ headersOf (run (handler1 (R := reference) noEnv rangeRequest) (Replies partialSegment))
       !! "ETag" = forwarded partialSegment "etag"
  /\ headersOf (run (handler1 (R := reference) noEnv rangeRequest) (Replies partialSegment))
       !! "Last-Modified" = forwarded partialSegment "last-modified"
  /\ headersOf (run (handler2 (R := reference) rangeRequest) (Replies denied))
       !! "Content-Type"
     = Some (orElse (ar_headers denied !! "content-type")
                    (js "application/vnd.apple.mpegurl"))
  /\ headersOf (run (handler2 (R := reference) rangeRequest) (Replies denied))
       !! "Content-Length" = forwarded denied "content-length"
  /\ headersOf (run (handler2 (R := reference) rangeRequest) (Replies denied))
       !! "Content-Range" = forwarded denied "content-range"
  /\ headersOf (run (handler2 (R := reference) rangeRequest) (Replies denied))
       !! "Accept-Ranges"
     = Some (orElse (ar_headers denied !! "accept-ranges") (js "bytes"))
  /\ headersOf (run (handler2 (R := reference) rangeRequest) (Replies denied))
       !! "ETag" = None
  /\ headersOf (run (handler2 (R := reference) rangeRequest) (Replies denied))
       !! "Last-Modified" = None.
Proof.
  apply (upstream_headers_forwarded (R := reference) noEnv rangeRequest
           (configOf (handler1 (R := reference) noEnv rangeRequest)) partialSegment
           rangeRequest (configOf (handler2 (R := reference) rangeRequest)) denied);
    vm_compute; reflexivity.
Defined.

(** ** Failures of the rewriting, and the outbound headers *)

Lemma mapM_Throw {A B} (f : A -> completion B) l e :
  mapM f l = Throw e -> exists x, x ∈ l /\ f x = Throw e.
Proof.
  induction l as [|x l IH]; [done|]. cbn [mapM]. intros H.
  destruct (f x) as [y|e'] eqn:Hx.
  - destruct (mapM f l) as [ys|e'']; [done|]. injection H as ->.
    destruct IH as (x' & Hin & Hx'); [done|]. exists x'. split; [by right|done].
  - injection H as ->. exists x. split; [by left|done].
Qed.

Section PlaylistFacts.
Context {R : Runtime}.

Lemma rewriteLine2_Throw basePath P referer line e :
  rewriteLine2 basePath P referer line = Throw e -> e = URIError.
Proof.
  unfold rewriteLine2. destruct (_ || _); [done|].
  cbv zeta.
  destruct (encodeURIComponent
              (if negb (startsWith (trim line) (js "http"))
               then basePath ++ trim line else trim line)) as [E|e1] eqn:H1.
  - destruct (encodeURIComponent (orElse referer defaultReferer)) as [E2|e2] eqn:H2;
      [done|]. intros [= <-]. by apply encodeURIComponent_Throw in H2.
  - intros [= <-]. by apply encodeURIComponent_Throw in H1.
Qed.

(** The rewriting of the second handler fails with a URIError only. *)
Lemma rewritePlaylist2_Throw content url P referer e :
  rewritePlaylist2 content url P referer = Throw e -> e = URIError.
Proof.
  unfold rewritePlaylist2. destruct (mapM _ _) as [ys|e'] eqn:Hm; [done|].
  intros [= <-]. apply mapM_Throw in Hm as (x & _ & Hx).
  by apply rewriteLine2_Throw in Hx.
Qed.

Lemma fetchHeaders1_lookup req ref key :
  key <> "Range" ->
  fetchHeaders1 req ref !! key
  = (<["Accept-Encoding" := orElse (req_headers req !! "accept-encoding") (js "identity")]>
     (<["Accept-Language" := orElse (req_headers req !! "accept-language")
                                    (js "en-US,en;q=0.9")]>
     (<["Accept" := orElse (req_headers req !! "accept") (js "*/*")]>
     (<["Origin" := ref]>
     (<["Referer" := ref]>
     (<["User-Agent" := orElse (req_headers req !! "user-agent") userAgent]>
        (∅ : gmap string jsstring))))))) !! key.
Proof.
  intros Hk. unfold fetchHeaders1.
  destruct (req_headers req !! "range") as [[|c r]|]; [done| |done].
  by rewrite lookup_insert_ne by done.
Qed.

Lemma fetchHeaders2_lookup req hs key :
  fetchHeaders2 req = Normal hs ->
  key <> "Range" -> key <> "Origin" -> key <> "Referer" ->
  hs !! key
  = (<["Sec-Fetch-Site" := js "cross-site"]>
     (<["Sec-Fetch-Mode" := js "cors"]>
     (<["Sec-Fetch-Dest" := js "empty"]>
     (<["Pragma" := js "no-cache"]>
     (<["Cache-Control" := js "no-cache"]>
     (<["Connection" := js "keep-alive"]>
     (<["Accept-Encoding" := js "gzip, deflate, br"]>
     (<["Accept-Language" := js "en-US,en;q=0.9"]>
     (<["Accept" := js "*/*"]>
     (<["User-Agent" := userAgent]> (∅ : gmap string jsstring))))))))))) !! key.
Proof.
  unfold fetchHeaders2. intros H Hk1 Hk2 Hk3.
  apply bind_Normal in H as (h & Hh & H). injection H as <-.
  assert (h !! key
          = (<["Sec-Fetch-Site" := js "cross-site"]>
             (<["Sec-Fetch-Mode" := js "cors"]>
             (<["Sec-Fetch-Dest" := js "empty"]>
             (<["Pragma" := js "no-cache"]>
             (<["Cache-Control" := js "no-cache"]>
             (<["Connection" := js "keep-alive"]>
             (<["Accept-Encoding" := js "gzip, deflate, br"]>
             (<["Accept-Language" := js "en-US,en;q=0.9"]>
             (<["Accept" := js "*/*"]>
             (<["User-Agent" := userAgent]> (∅ : gmap string jsstring))))))))))) !! key)
    as <-.
  { destruct (truthy (query_referer req)).
    - apply bind_Normal in Hh as (ref & _ & Hh).
      apply bind_Normal in Hh as (u & _ & Hh). injection Hh as <-.
      by rewrite !lookup_insert_ne by done.
    - injection Hh as <-. by rewrite !lookup_insert_ne by done. }
  destruct (req_headers req !! "range") as [[|c r]|]; [done| |done].
  by rewrite lookup_insert_ne by done.
Qed.

Lemma fetchHeaders2_referer_lookup req hs :
  fetchHeaders2 req = Normal hs ->
  if truthy (query_referer req) then
    exists ref u,
      decodeURIComponent (inTemplate (query_referer req)) = Normal ref
      /\ URL_new ref None = Normal u
      /\ hs !! "Referer" = Some ref /\ hs !! "Origin" = Some (origin u)
  else hs !! "Referer" = Some defaultReferer /\ hs !! "Origin" = Some defaultReferer.
Proof.
  unfold fetchHeaders2. intros H.
  apply bind_Normal in H as (h & Hh & H). injection H as <-.
  assert (Hr : forall key, key <> "Range" ->
            match req_headers req !! "range" with
            | Some (c :: r) => <["Range" := c :: r]> h
            | _ => h
            end !! key = h !! key).
  { intros key Hk. destruct (req_headers req !! "range") as [[|c r]|]; [done| |done].
    by rewrite lookup_insert_ne by done. }
  rewrite !Hr by done.
  destruct (truthy (query_referer req)).
  - apply bind_Normal in Hh as (ref & Hd & Hh).
    apply bind_Normal in Hh as (u & Hu & Hh). injection Hh as <-.
    exists ref, u. split; [done|]. split; [done|]. split.
    + rewrite lookup_insert_ne by done. apply lookup_insert_eq.
    + apply lookup_insert_eq.
  - injection Hh as <-. split.
    + rewrite lookup_insert_ne by done. apply lookup_insert_eq.
    + apply lookup_insert_eq.
Qed.

End PlaylistFacts.

(** X16.  An upstream response without a content type: the first handler
    passes it through as [application/octet-stream] unless the URL ends in
    [.m3u8]; the second handler labels it [application/vnd.apple.mpegurl]
    and rewrites it as a playlist, whatever the URL. *)
Theorem untyped_response {R : Runtime} env req1 cfg1 req2 cfg2 r :
  fetched (handler1 env req1) = Some cfg1 ->
  fetched (handler2 req2) = Some cfg2 ->
  truthy (ar_headers r !! "content-type") = false ->
  (ar_status r < 400)%Z ->
  endsWith (ax_url cfg1) (js ".m3u8") = false ->
  bodyOf (run (handler1 env req1) (Replies r)) = Some (BinaryBody (ar_data r))
  /\ headersOf (run (handler1 env req1) (Replies r)) !! "Content-Type"
     = Some (js "application/octet-stream")
  /\ bodyOf (run (handler2 req2) (Replies r))
     = Some (match rewritePlaylist2 (bufferToString (ar_data r)) (ax_url cfg2)
                     (proxyBase2 req2) (query_referer req2) with
             | Normal newContent => TextBody newContent
             | Throw _ => JsonBody [("error", JString (js "URI malformed"))]
             end)
  /\ headersOf (run (handler2 req2) (Replies r)) !! "Content-Type"
     = Some (js "application/vnd.apple.mpegurl").
Proof.
  intros Hf1 Hf2 Hct Hs Hend.
  apply handler1_fetched in Hf1 as (url & ref & u & _ & _ & _ & _ & _ & -> & ->).
  apply handler2_fetched in Hf2 as (url2 & hs & _ & _ & _ & _ & -> & ->).
  unfold headersOf.
  cbn [run axios fetchConfig ax_validateStatus ax_url responseOf bodyOf] in *.
  unfold validateStatus. destruct (Z.ltb_spec (ar_status r) 500); [|lia].
  assert (Hc1 : contentType1 r = js "application/octet-stream").
  { unfold contentType1. by destruct (ar_headers r !! "content-type") as [[|??]|]. }
  assert (Hc2 : contentType2 r = js "application/vnd.apple.mpegurl").
  { unfold contentType2. by destruct (ar_headers r !! "content-type") as [[|??]|]. }
  repeat split.
  - unfold afterFetch1. destruct (Z.leb_spec 400 (ar_status r)); [lia|].
    rewrite Hc1. unfold isM3U8. rewrite Hend. done.
  - rewrite afterFetch1_headers by done. lookup_headers. by rewrite Hc1.
  - rewrite afterFetch2_playlist_body by (by rewrite Hc2).
    destruct (rewritePlaylist2 _ _ _ _) as [out|e] eqn:Hrw; [done|].
    by apply rewritePlaylist2_Throw in Hrw as ->.
  - rewrite afterFetch2_headers. lookup_headers. by rewrite Hc2.
Qed.

Lemma untyped_response_witness :
  bodyOf (run (handler1 (R := reference) noEnv segmentRequest) (Replies untypedSegment))
  = Some (BinaryBody (ar_data untypedSegment))
  /\ headersOf (run (handler1 (R := reference) noEnv segmentRequest)
                    (Replies untypedSegment)) !! "Content-Type"
     = Some (js "application/octet-stream")
  /\ bodyOf (run (handler2 (R := reference) segmentRequest) (Replies untypedSegment))
     = Some (match rewritePlaylist2 (bufferToString (ar_data untypedSegment))
                     (ax_url segmentConfig2) (proxyBase2 segmentRequest)
                     (query_referer segmentRequest) with
             | Normal newContent => TextBody newContent
             | Throw _ => JsonBody [("error", JString (js "URI malformed"))]
             end)
  /\ headersOf (run (handler2 (R := reference) segmentRequest)
                    (Replies untypedSegment)) !! "Content-Type"
     = Some (js "application/vnd.apple.mpegurl").
Proof.
  apply (untyped_response (R := reference) noEnv segmentRequest
           (configOf (handler1 (R := reference) noEnv segmentRequest))
           segmentRequest segmentConfig2 untypedSegment);
    vm_compute; reflexivity.
Defined.

(** X17.  The second handler does not validate the [url] parameter: when
    it cannot be percent-decoded the answer is 500 with the message of the
    URIError, and anything that can be decoded is fetched, with the default
    referer and origin when no referer is given. *)
Theorem second_handler_url_not_validated {R : Runtime} req1 e req2 decodedUrl :
  method req1 = "GET" -> truthy (query_url req1) = true ->
  decodeURIComponent (inTemplate (query_url req1)) = Throw e ->
  method req2 = "GET" -> truthy (query_url req2) = true ->
  decodeURIComponent (inTemplate (query_url req2)) = Normal decodedUrl ->
  truthy (query_referer req2) = false ->
  handler2 req1
  = Done (Responded (respond corsHeaders2 500
            (JsonBody [("error", JString (js "URI malformed"))])))
  /\ exists hs,
       fetched (handler2 req2) = Some (fetchConfig None decodedUrl hs)
       /\ hs !! "Referer" = Some defaultReferer
       /\ hs !! "Origin" = Some defaultReferer.
Proof.
  intros Hm1 Hu1 Hd1 Hm2 Hu2 Hd2 Hr2.
  pose proof (decodeURIComponent_Throw _ _ Hd1) as ->.
  unfold handler2. rewrite Hm1, Hu1, Hd1, Hm2, Hu2, Hd2. split; [done|].
  cbn [bool_decide decide_rel negb].
  destruct (fetchHeaders2 req2) as [hs|e] eqn:Hh.
  - exists hs. split; [done|].
    pose proof (fetchHeaders2_referer_lookup req2 hs Hh) as H. by rewrite Hr2 in H.
  - unfold fetchHeaders2 in Hh. rewrite Hr2 in Hh. done.
Qed.

Lemma second_handler_url_not_validated_witness :
  handler2 (R := reference) undecodableUrlRequest
  = Done (Responded (respond corsHeaders2 500
            (JsonBody [("error", JString (js "URI malformed"))])))
  /\ exists hs,
       fetched (handler2 (R := reference) relativeUrlRequest)
       = Some (fetchConfig None (js "playlist.m3u8") hs)
       /\ hs !! "Referer" = Some defaultReferer
       /\ hs !! "Origin" = Some defaultReferer.
Proof.
  apply (second_handler_url_not_validated (R := reference) undecodableUrlRequest
           URIError relativeUrlRequest (js "playlist.m3u8")); vm_compute; reflexivity.
Defined.

(** X18.  The referer: when it decodes to something the [URL] constructor
    refuses, the second handler answers 500 with the message of that error
    and fetches nothing, while the first handler fetches with it as
    [Referer] and [Origin]; when it is a URL, the second handler sends it as
    [Referer] and its origin as [Origin]; when it cannot be decoded, the
    second handler answers 500. *)
Theorem referer_validation {R : Runtime}
  env req decodedUrl u0 ref e req' decodedUrl' ref' u' req3 decodedUrl3 e3 :
  method req = "GET" -> truthy (query_url req) = true ->
  decodeURIComponent (inTemplate (query_url req)) = Normal decodedUrl ->
  URL_new decodedUrl None = Normal u0 ->
  truthy (query_referer req) = true ->
  decodeURIComponent (inTemplate (query_referer req)) = Normal ref ->
  URL_new ref None = Throw e -> e_response e = None ->
  method req' = "GET" -> truthy (query_url req') = true ->
  decodeURIComponent (inTemplate (query_url req')) = Normal decodedUrl' ->
  truthy (query_referer req') = true ->
  decodeURIComponent (inTemplate (query_referer req')) = Normal ref' ->
  URL_new ref' None = Normal u' ->
  method req3 = "GET" -> truthy (query_url req3) = true ->
  decodeURIComponent (inTemplate (query_url req3)) = Normal decodedUrl3 ->
  truthy (query_referer req3) = true ->
  decodeURIComponent (inTemplate (query_referer req3)) = Throw e3 ->
  handler2 req
  = Done (Responded (respond corsHeaders2 500 (JsonBody [("error", JString (e_message e))])))
  /\ (exists cfg,
        fetched (handler1 env req) = Some cfg
        /\ ax_headers cfg !! "Referer" = Some ref
        /\ ax_headers cfg !! "Origin" = Some ref)
  /\ (exists cfg',
        fetched (handler2 req') = Some cfg'
        /\ ax_headers cfg' !! "Referer" = Some ref'
        /\ ax_headers cfg' !! "Origin" = Some (origin u'))
  /\ handler2 req3
     = Done (Responded (respond corsHeaders2 500
               (JsonBody [("error", JString (js "URI malformed"))]))).
Proof.
  intros Hm Hq Hd Hu Hr Hdr Hur He Hm' Hq' Hd' Hr' Hdr' Hur' Hm3 Hq3 Hd3 Hr3 Hdr3.
  pose proof (decodeURIComponent_Throw _ _ Hdr3) as ->.
  repeat split.
  - unfold handler2, fetchHeaders2. rewrite Hm, Hq, Hd, Hr, Hdr.
    cbn [bool_decide decide_rel negb mbind completion_bind]. rewrite Hur.
    cbn [mbind completion_bind]. unfold catch2. by rewrite He.
  - eexists. unfold handler1. rewrite Hm, Hq, Hd, Hu, Hr, Hdr.
    cbn [bool_decide decide_rel negb fetched]. split; [reflexivity|].
    cbn [fetchConfig ax_headers]. rewrite !fetchHeaders1_lookup by done.
    split; [rewrite !lookup_insert_ne by done|rewrite !lookup_insert_ne by done];
      apply lookup_insert_eq.
  - destruct (fetchHeaders2 req') as [hs|e'] eqn:Hh.
    + exists (fetchConfig None decodedUrl' hs). unfold handler2.
      rewrite Hm', Hq', Hd', Hh. split; [done|]. cbn [fetchConfig ax_headers].
      pose proof (fetchHeaders2_referer_lookup req' hs Hh) as H. rewrite Hr' in H.
      destruct H as (ref0 & u0' & Hd0 & Hu0 & H1 & H2).
      rewrite Hdr' in Hd0. injection Hd0 as <-. rewrite Hur' in Hu0.
      injection Hu0 as <-. done.
    + unfold fetchHeaders2 in Hh. rewrite Hr', Hdr' in Hh.
      cbn [mbind completion_bind] in Hh. rewrite Hur' in Hh. done.
  - unfold handler2, fetchHeaders2. rewrite Hm3, Hq3, Hd3, Hr3, Hdr3. done.
Qed.

Lemma referer_validation_witness :
  handler2 (R := reference) wordRefererRequest
  = Done (Responded (respond corsHeaders2 500
            (JsonBody [("error", JString (e_message InvalidURL))])))
  /\ (exists cfg,
        fetched (handler1 (R := reference) noEnv wordRefererRequest) = Some cfg
        /\ ax_headers cfg !! "Referer" = Some (js "megacloud")
        /\ ax_headers cfg !! "Origin" = Some (js "megacloud"))
  /\ (exists cfg',
        fetched (handler2 (R := reference) pageRefererRequest) = Some cfg'
        /\ ax_headers cfg' !! "Referer" = Some (js "https://site.example/watch?v=1")
        /\ ax_headers cfg' !! "Origin"
           = Some (origin {| href := js "https://site.example/watch?v=1";
                             origin := js "https://site.example" |}))
  /\ handler2 (R := reference) malformedRefererRequest
     = Done (Responded (respond corsHeaders2 500
               (JsonBody [("error", JString (js "URI malformed"))]))).
Proof.
  apply (referer_validation (R := reference) noEnv wordRefererRequest exampleUrl
           exampleURL (js "megacloud") InvalidURL
           pageRefererRequest exampleUrl (js "https://site.example/watch?v=1")
           {| href := js "https://site.example/watch?v=1";
              origin := js "https://site.example" |}
           malformedRefererRequest exampleUrl URIError);
    vm_compute; reflexivity.
Defined.

(** X19.  The outbound request: the first handler forwards the inbound
    [User-Agent], [Accept], [Accept-Language] and [Accept-Encoding] (with
    defaults) and sends the referer as [Origin] too; the second handler sends
    its own fixed values.  Both allow 30000 ms and 5 redirects; only the
    first sets [decompress]. *)
Theorem browser_headers {R : Runtime} env req1 cfg1 req2 cfg2 :
  fetched (handler1 env req1) = Some cfg1 ->
  fetched (handler2 req2) = Some cfg2 ->
  ax_headers cfg1 !! "User-Agent"
  = Some (orElse (req_headers req1 !! "user-agent") userAgent)
  /\ ax_headers cfg1 !! "Accept" = Some (orElse (req_headers req1 !! "accept") (js "*/*"))
  /\ ax_headers cfg1 !! "Accept-Language"
     = Some (orElse (req_headers req1 !! "accept-language") (js "en-US,en;q=0.9"))
  /\ ax_headers cfg1 !! "Accept-Encoding"
     = Some (orElse (req_headers req1 !! "accept-encoding") (js "identity"))
  /\ ax_headers cfg1 !! "Origin" = ax_headers cfg1 !! "Referer"
  /\ ax_headers cfg2 !! "User-Agent" = Some userAgent
  /\ ax_headers cfg2 !! "Accept" = Some (js "*/*")
  /\ ax_headers cfg2 !! "Accept-Language" = Some (js "en-US,en;q=0.9")
  /\ ax_headers cfg2 !! "Accept-Encoding" = Some (js "gzip, deflate, br")
  /\ ax_timeout cfg1 = 30000%Z /\ ax_maxRedirects cfg1 = 5%Z
  /\ ax_decompress cfg1 = Some true
  /\ ax_timeout cfg2 = 30000%Z /\ ax_maxRedirects cfg2 = 5%Z
  /\ ax_decompress cfg2 = None.
Proof.
  intros Hf1 Hf2.
  apply handler1_fetched in Hf1 as (url & ref & u & _ & _ & _ & _ & _ & -> & _).
  apply handler2_fetched in Hf2 as (url2 & hs & _ & _ & _ & Hh & -> & _).
  cbn [fetchConfig ax_headers ax_timeout ax_maxRedirects ax_decompress].
  rewrite !fetchHeaders1_lookup by done.
  rewrite !(fetchHeaders2_lookup req2 hs) by done.
  repeat split.
Qed.

Lemma browser_headers_witness :
  ax_headers (configOf (handler1 (R := reference) noEnv browserRequest)) !! "User-Agent"
  = Some (orElse (req_headers browserRequest !! "user-agent") userAgent)
  /\ ax_headers (configOf (handler1 (R := reference) noEnv browserRequest)) !! "Accept"
     = Some (orElse (req_headers browserRequest !! "accept") (js "*/*"))
  /\ ax_headers (configOf (handler1 (R := reference) noEnv browserRequest))
       !! "Accept-Language"
     = Some (orElse (req_headers browserRequest !! "accept-language")
                    (js "en-US,en;q=0.9"))
  /\ ax_headers (configOf (handler1 (R := reference) noEnv browserRequest))
       !! "Accept-Encoding"
     = Some (orElse (req_headers browserRequest !! "accept-encoding") (js "identity"))
  /\ ax_headers (configOf (handler1 (R := reference) noEnv browserRequest)) !! "Origin"
     = ax_headers (configOf (handler1 (R := reference) noEnv browserRequest)) !! "Referer"
  /\ ax_headers (configOf (handler2 (R := reference) browserRequest)) !! "User-Agent"
     = Some userAgent
  /\ ax_headers (configOf (handler2 (R := reference) browserRequest)) !! "Accept"
     = Some (js "*/*")
  /\ ax_headers (configOf (handler2 (R := reference) browserRequest)) !! "Accept-Language"
     = Some (js "en-US,en;q=0.9")
  /\ ax_headers (configOf (handler2 (R := reference) browserRequest)) !! "Accept-Encoding"
     = Some (js "gzip, deflate, br")
  /\ ax_timeout (configOf (handler1 (R := reference) noEnv browserRequest)) = 30000%Z
  /\ ax_maxRedirects (configOf (handler1 (R := reference) noEnv browserRequest)) = 5%Z
  /\ ax_decompress (configOf (handler1 (R := reference) noEnv browserRequest)) = Some true
  /\ ax_timeout (configOf (handler2 (R := reference) browserRequest)) = 30000%Z
  /\ ax_maxRedirects (configOf (handler2 (R := reference) browserRequest)) = 5%Z
  /\ ax_decompress (configOf (handler2 (R := reference) browserRequest)) = None.
Proof.
  apply (browser_headers (R := reference) noEnv browserRequest
           (configOf (handler1 (R := reference) noEnv browserRequest))
           browserRequest (configOf (handler2 (R := reference) browserRequest)));
    vm_compute; reflexivity.
Defined.

(** ** The lines of a rewritten playlist *)

Lemma mapM_forallb {A B} (f : A -> completion B) (g : A -> B) (p : A -> bool) l :
  (forall x, p x = true -> f x = Normal (g x)) ->
  forallb p l = true -> mapM f l = Normal (g <$> l).
Proof.
  intros Hf. induction l as [|x l IH]; [done|]. cbn [forallb mapM fmap list_fmap].
  intros [Hx Hl]%andb_true_iff. by rewrite (Hf x Hx), (IH Hl).
Qed.

Section LineFacts.
Context {R : Runtime}.

Lemma handler_bodyOf h net out :
  bodyOf (run h net) = Some (TextBody out) ->
  exists resp, run h net = Responded resp /\ body resp = TextBody out.
Proof.
  destruct (run h net) as [resp|e]; [|done]. intros [= H]. by exists resp.
Qed.

Lemma proxyCall_no_char P E encRef c :
  includes (js "/api/proxy?url=") [c] = false ->
  includes (js "&referer=") [c] = false ->
  Forall (fun x => x <> c) P -> Forall (fun x => x <> c) E ->
  Forall (fun x => x <> c) encRef ->
  Forall (fun x => x <> c) (proxyCall P E encRef).
Proof.
  intros H1 H2 HP HE Hr. unfold proxyCall.
  repeat (apply Forall_app; split); try done; by apply includes_char.
Qed.

(** No line of the rewritten playlist holds a line feed when the proxy base
    holds none. *)
Lemma rewriteLine1_no_LF basePath P encRef ref line o :
  Forall (fun x => x <> 10) P -> encodeURIComponent ref = Normal encRef ->
  Forall (fun x => x <> 10) line ->
  rewriteLine1 basePath P encRef line = Normal o ->
  Forall (fun x => x <> 10) o.
Proof.
  intros HP Href Hline Ho.
  assert (Hr : Forall (fun x => x <> 10) encRef)
    by (by eapply (encodeURIComponent_no ref)).
  assert (Hlink : forall t E, encodeURIComponent t = Normal E ->
            Forall (fun x => x <> 10) (proxyCall P E encRef)).
  { intros t E HE. apply proxyCall_no_char; try done.
    by eapply (encodeURIComponent_no t). }
  pose proof (trim_Forall _ _ Hline) as Htrim.
  destruct (isCommentOrBlank line) eqn:Hc.
  - rewrite rewriteLine1_comment in Ho by done.
    destruct (includes (trim line) (js "URI=" ++ quote)); [|by injection Ho as <-].
    destruct (matchUri (trim line)) as [[[before uri] rest]|] eqn:Hm.
    + destruct (rewriteUriInTag_match _ _ _ _ _ _ _ _ Hm Ho) as (rep & Hrep & ->).
      apply matchUri_spec in Hm as (Heq & _). rewrite Heq in Htrim.
      apply Forall_app in Htrim as [Hb Ht]. apply Forall_app in Ht as [_ Ht].
      apply Forall_app in Ht as [_ Ht]. apply Forall_app in Ht as [Hu Ht].
      apply Forall_app in Ht as [_ Hrest].
      repeat (apply Forall_app; split); try done.
      inversion Hrep as [E ? HE|u E ? ? HE|]; subst;
        repeat (apply Forall_app; split); try done;
        try (by apply includes_char); by eapply (encodeURIComponent_no _ E).
    + unfold rewriteUriInTag in Ho. rewrite Hm in Ho. by injection Ho as <-.
  - unfold rewriteLine1 in Ho. fold (isCommentOrBlank line) in Ho. rewrite Hc in Ho.
    apply bind_Normal in Ho as (t & _ & Ho).
    apply bind_Normal in Ho as (E & HE & Ho). injection Ho as <-. by eapply Hlink.
Qed.

Lemma rewriteLine2_no_LF basePath P referer line o :
  Forall (fun x => x <> 10) P -> Forall (fun x => x <> 10) line ->
  rewriteLine2 basePath P referer line = Normal o ->
  Forall (fun x => x <> 10) o.
Proof.
  intros HP Hline Ho. pose proof (trim_Forall _ _ Hline) as Htrim.
  destruct (isCommentOrBlank line) eqn:Hc.
  - rewrite rewriteLine2_comment in Ho by done. by injection Ho as <-.
  - unfold rewriteLine2 in Ho. fold (isCommentOrBlank line) in Ho. rewrite Hc in Ho.
    apply bind_Normal in Ho as (E & HE & Ho).
    apply bind_Normal in Ho as (E2 & HE2 & Ho). injection Ho as <-.
    apply proxyCall_no_char; try done.
    + by eapply (encodeURIComponent_no _ E).
    + by eapply (encodeURIComponent_no _ E2).
Qed.

Lemma rewriteLine1_kept basePath P encRef line :
  isCommentOrBlank line && negb (includes (trim line) (js "URI=" ++ quote)) = true ->
  rewriteLine1 basePath P encRef line = Normal (id line).
Proof.
  intros [Hc Hi%negb_true_iff]%andb_true_iff.
  rewrite rewriteLine1_comment by done. by rewrite Hi.
Qed.

Lemma Forall2_no_LF {A} (f : A -> jsstring -> Prop) (ls : list A) (os : list jsstring) :
  Forall2 f ls os -> ls <> [] ->
  (forall l o, l ∈ ls -> f l o -> Forall (fun x => x <> 10) o) ->
  split (join os LF) 10 = os.
Proof.
  intros H Hne Hf. apply split_join.
  - destruct H; done.
  - clear Hne. induction H as [|l o ls os Hlo H IH]; constructor.
    + apply (Hf l o); [by left|done].
    + apply IH. intros l' o' Hin. apply Hf. by right.
Qed.

End LineFacts.

(** X20.  A playlist of directives and blank lines only: the first
    handler sends the text as it came when no line holds the text URI= and a
    quote; the second handler sends the trimmed lines. *)
Theorem directives_only_playlist {R : Runtime}
  env req1 cfg1 ref encRef r1 req2 cfg2 r2 :
  fetched (handler1 env req1) = Some cfg1 ->
  ax_headers cfg1 !! "Referer" = Some ref -> encodeURIComponent ref = Normal encRef ->
  (ar_status r1 < 400)%Z -> isM3U8 (contentType1 r1) (ax_url cfg1) = true ->
  forallb (fun line => isCommentOrBlank line
                       && negb (includes (trim line) (js "URI=" ++ quote)))
          (split (bufferToString (ar_data r1)) 10) = true ->
  fetched (handler2 req2) = Some cfg2 ->
  (ar_status r2 < 500)%Z -> isPlaylist2 (contentType2 r2) (ax_url cfg2) = true ->
  forallb isCommentOrBlank (split (bufferToString (ar_data r2)) 10) = true ->
  bodyOf (run (handler1 env req1) (Replies r1))
  = Some (TextBody (bufferToString (ar_data r1)))
  /\ bodyOf (run (handler2 req2) (Replies r2))
     = Some (TextBody (join (trim <$> split (bufferToString (ar_data r2)) 10) LF)).
Proof.
  intros Hf1 Href Henc Hs1 Hm1 Hl1 Hf2 Hs2 Hm2 Hl2.
  apply handler1_fetched in Hf1 as (url & ref0 & u & _ & _ & _ & _ & _ & -> & ->).
  apply handler2_fetched in Hf2 as (url2 & hs & _ & _ & _ & _ & -> & ->).
  cbn [fetchConfig ax_headers ax_url] in *.
  rewrite fetchHeaders1_Referer in Href. injection Href as ->.
  cbn [run axios fetchConfig ax_validateStatus bodyOf]. unfold validateStatus.
  destruct (Z.ltb_spec (ar_status r1) 500); [|lia].
  destruct (Z.ltb_spec (ar_status r2) 500); [|lia].
  rewrite afterFetch1_playlist_body, afterFetch2_playlist_body by done.
  unfold rewritePlaylist1, rewritePlaylist2. rewrite Henc.
  cbn [mbind completion_bind].
  rewrite (mapM_forallb _ id _ _ (fun line H => rewriteLine1_kept _ _ _ line H) Hl1).
  rewrite (mapM_forallb _ trim _ _ (fun line H =>
             rewriteLine2_comment _ _ _ line H) Hl2).
  cbn [mbind completion_bind]. by rewrite list_fmap_id, join_split.
Qed.

Lemma directives_only_playlist_witness :
  bodyOf (run (handler1 (R := reference) noEnv exampleRequest)
              (Replies (reply 200 mpegurl directivesOnly)))
  = Some (TextBody (bufferToString (ar_data (reply 200 mpegurl directivesOnly))))
  /\ bodyOf (run (handler2 (R := reference) exampleRequest)
                 (Replies (reply 200 mpegurl directivesOnly)))
     = Some (TextBody (join (trim <$> split (bufferToString
                                (ar_data (reply 200 mpegurl directivesOnly))) 10) LF)).
Proof.
  apply (directives_only_playlist (R := reference) noEnv exampleRequest exampleConfig1
           defaultReferer (js "https%3A%2F%2Fmegacloud.tv")
           (reply 200 mpegurl directivesOnly)
           exampleRequest exampleConfig2 (reply 200 mpegurl directivesOnly));
    vm_compute; reflexivity.
Defined.

(** X21.  The rewritten playlist has the lines of the upstream playlist,
    one for one and in order: splitting the body sent at the line feeds
    gives, line by line, what the callback returned, as long as the proxy
    base holds no line feed. *)
Theorem playlist_rewritten_line_by_line {R : Runtime}
  env req1 cfg1 r1 out1 req2 cfg2 r2 out2 :
  fetched (handler1 env req1) = Some cfg1 ->
  bodyOf (run (handler1 env req1) (Replies r1)) = Some (TextBody out1) ->
  includes (getProxyBaseUrl env req1) LF = false ->
  fetched (handler2 req2) = Some cfg2 ->
  bodyOf (run (handler2 req2) (Replies r2)) = Some (TextBody out2) ->
  includes (proxyBase2 req2) LF = false ->
  (exists ref encRef,
     ax_headers cfg1 !! "Referer" = Some ref
     /\ encodeURIComponent ref = Normal encRef
     /\ Forall2 (fun line o =>
                   rewriteLine1 (basePathOf (ax_url cfg1)) (getProxyBaseUrl env req1)
                     encRef line = Normal o)
                (split (bufferToString (ar_data r1)) 10) (split out1 10))
  /\ Forall2 (fun line o =>
                rewriteLine2 (basePathOf (ax_url cfg2)) (proxyBase2 req2)
                  (query_referer req2) line = Normal o)
             (split (bufferToString (ar_data r2)) 10) (split out2 10).
Proof.
  intros Hf1 Hb1 HP1 Hf2 Hb2 HP2.
  apply handler_bodyOf in Hb1 as (resp1 & Hrun1 & Hbody1).
  apply handler_bodyOf in Hb2 as (resp2 & Hrun2 & Hbody2).
  destruct (handler1_playlist _ _ _ _ _ _ Hf1 Hrun1 Hbody1) as (ref & Href & Hrw1).
  pose proof (handler2_playlist _ _ _ _ _ Hf2 Hrun2 Hbody2) as Hrw2.
  apply rewritePlaylist1_Normal in Hrw1 as (encRef & lines1 & Henc & Hall1 & ->).
  apply rewritePlaylist2_Normal in Hrw2 as (lines2 & Hall2 & ->).
  apply includes_char in HP1, HP2.
  split.
  - exists ref, encRef. split; [done|]. split; [done|].
    rewrite (Forall2_no_LF _ _ _ Hall1); [done|apply split_nonempty|].
    intros l o Hin Ho.
    apply (rewriteLine1_no_LF (basePathOf (ax_url cfg1)) (getProxyBaseUrl env req1)
             encRef ref l o HP1 Henc); [|done].
    pose proof (split_lines_no_sep (bufferToString (ar_data r1)) 10) as Hno.
    by apply (proj1 (Forall_forall _ _) Hno).
  - rewrite (Forall2_no_LF _ _ _ Hall2); [done|apply split_nonempty|].
    intros l o Hin Ho.
    apply (rewriteLine2_no_LF (basePathOf (ax_url cfg2)) (proxyBase2 req2)
             (query_referer req2) l o HP2); [|done].
    pose proof (split_lines_no_sep (bufferToString (ar_data r2)) 10) as Hno.
    by apply (proj1 (Forall_forall _ _) Hno).
Qed.

Lemma playlist_rewritten_line_by_line_witness :
  (exists ref encRef,
     ax_headers exampleConfig1 !! "Referer" = Some ref
     /\ encodeURIComponent ref = Normal encRef
     /\ Forall2 (fun line o =>
                   rewriteLine1 (R := reference) (basePathOf (ax_url exampleConfig1))
                     (getProxyBaseUrl noEnv exampleRequest) encRef line = Normal o)
                (split (bufferToString (ar_data (reply 200 mpegurl playlistBytes))) 10)
                (split rewrittenPlaylist1 10))
  /\ Forall2 (fun line o =>
                rewriteLine2 (basePathOf (ax_url exampleConfig2))
                  (proxyBase2 exampleRequest) (query_referer exampleRequest) line
                = Normal o)
             (split (bufferToString (ar_data (reply 200 mpegurl playlistBytes))) 10)
             (split rewrittenPlaylist2 10).
Proof.
  apply (playlist_rewritten_line_by_line (R := reference) noEnv exampleRequest
           exampleConfig1 (reply 200 mpegurl playlistBytes) rewrittenPlaylist1
           exampleRequest exampleConfig2 (reply 200 mpegurl playlistBytes)
           rewrittenPlaylist2); vm_compute; reflexivity.
Defined.

(** ** Well-formed strings *)

Lemma high_not_low c : isHighSurrogate c = true -> isLowSurrogate c = false.
Proof. unfold isHighSurrogate, isLowSurrogate. ltb_cases; done. Qed.

Lemma whitespace_not_surrogate c :
  isWhiteSpace c = true -> isLowSurrogate c = false /\ isHighSurrogate c = false.
Proof.
  intros Hw.
  assert (Hc : c < 55296 \/ 57343 < c).
  { destruct (N.lt_ge_cases c 55296) as [|H1]; [by left|].
    destruct (N.lt_ge_cases 57343 c) as [|H2]; [by right|].
    exfalso. revert Hw. unfold isWhiteSpace. ltb_cases; done. }
  unfold isLowSurrogate, isHighSurrogate. split; ltb_cases; done.
Qed.

Lemma unreserved_not_surrogate c :
  uriUnreserved c = true -> isLowSurrogate c = false /\ isHighSurrogate c = false.
Proof.
  intros Hw.
  assert (Hc : c < 55296 \/ 57343 < c).
  { destruct (N.lt_ge_cases c 55296) as [|H1]; [by left|].
    destruct (N.lt_ge_cases 57343 c) as [|H2]; [by right|].
    exfalso. revert Hw. unfold uriUnreserved, isAlnum. ltb_cases; done. }
  unfold isLowSurrogate, isHighSurrogate. split; ltb_cases; done.
Qed.

Lemma isWellFormed_unit c s :
  isLowSurrogate c = false -> isHighSurrogate c = false ->
  isWellFormed (c :: s) = isWellFormed s.
Proof. intros Hl Hh. cbn [isWellFormed]. by rewrite Hl, Hh. Qed.

Lemma isWellFormed_pair c d s :
  isHighSurrogate c = true -> isLowSurrogate d = true ->
  isWellFormed (c :: d :: s) = isWellFormed s.
Proof.
  intros Hh Hl. cbn [isWellFormed]. by rewrite (high_not_low c Hh), Hh, Hl.
Qed.

(** Well-formed strings are built from single units and surrogate pairs. *)
Lemma isWellFormed_ind (P : jsstring -> Prop) :
  P [] ->
  (forall c s, isLowSurrogate c = false -> isHighSurrogate c = false ->
               isWellFormed s = true -> P s -> P (c :: s)) ->
  (forall c d s, isHighSurrogate c = true -> isLowSurrogate d = true ->
                 isWellFormed s = true -> P s -> P (c :: d :: s)) ->
  forall s, isWellFormed s = true -> P s.
Proof.
  intros Hnil Hunit Hpair s.
  assert (H : forall n s, (length s <= n)%nat -> isWellFormed s = true -> P s).
  { clear s. induction n as [|n IH]; intros s Hn Hs.
    - destruct s; [done|cbn in Hn; lia].
    - destruct s as [|c s]; [done|]. cbn [isWellFormed] in Hs. cbn [length] in Hn.
      destruct (isLowSurrogate c) eqn:Hl; [done|].
      destruct (isHighSurrogate c) eqn:Hh.
      + destruct s as [|d s]; [done|]. apply andb_true_iff in Hs as [Hd Hs].
        apply Hpair; [done..|]. apply IH; [cbn [length] in Hn; lia|done].
      + apply Hunit; [done..|]. apply IH; [lia|done]. }
  by apply (H (length s)).
Qed.

Lemma isWellFormed_app a b :
  isWellFormed a = true -> isWellFormed b = true -> isWellFormed (a ++ b) = true.
Proof.
  intros Ha Hb. revert a Ha. apply isWellFormed_ind; [done| |].
  - intros c s Hl Hh _ IH. cbn [app]. by rewrite isWellFormed_unit.
  - intros c d s Hh Hl _ IH. cbn [app]. by rewrite isWellFormed_pair.
Qed.

(** A well-formed string can be cut at a unit that is no surrogate. *)
Lemma isWellFormed_cut_aux n : forall a c t,
  (length a <= n)%nat ->
  isLowSurrogate c = false -> isHighSurrogate c = false ->
  isWellFormed (a ++ c :: t) = true ->
  isWellFormed a = true /\ isWellFormed t = true.
Proof.
  induction n as [|n IH]; intros a c t Hn Hl Hh H.
  - destruct a; [|cbn in Hn; lia]. cbn [app] in H.
    by rewrite isWellFormed_unit in H.
  - destruct a as [|x a]; [cbn [app] in H; by rewrite isWellFormed_unit in H|].
    cbn [app isWellFormed] in H. cbn [length] in Hn.
    destruct (isLowSurrogate x) eqn:Hxl; [done|].
    destruct (isHighSurrogate x) eqn:Hxh.
    + destruct a as [|d a].
      * cbn [app] in H. by rewrite Hl in H.
      * cbn [app] in H. apply andb_true_iff in H as [Hd H].
        destruct (IH a c t) as [Ha Ht]; [cbn [length] in Hn; lia|done..|].
        by rewrite isWellFormed_pair.
    + destruct (IH a c t) as [Ha Ht]; [lia|done..|].
      by rewrite isWellFormed_unit.
Qed.

Lemma isWellFormed_cut a c t :
  isLowSurrogate c = false -> isHighSurrogate c = false ->
  isWellFormed (a ++ c :: t) = true ->
  isWellFormed a = true /\ isWellFormed t = true.
Proof. by apply (isWellFormed_cut_aux (length a)). Qed.

Lemma isWellFormed_split s :
  isWellFormed s = true -> Forall (fun l => isWellFormed l = true) (split s 10).
Proof.
  revert s. apply isWellFormed_ind.
  - by repeat constructor.
  - intros c s Hl Hh Hs IH. cbn [split].
    destruct (c =? 10); [by constructor|].
    destruct (split s 10) as [|l ls]; [by repeat constructor; rewrite isWellFormed_unit|].
    apply Forall_cons in IH as [Hl' Hls]. constructor; [|done].
    by rewrite isWellFormed_unit.
  - intros c d s Hh Hl Hs IH.
    assert (Hc : (c =? 10) = false).
    { unfold isHighSurrogate in Hh. apply N.eqb_neq. intros ->. done. }
    assert (Hd : (d =? 10) = false).
    { unfold isLowSurrogate in Hl. apply N.eqb_neq. intros ->. done. }
    cbn [split]. rewrite Hc, Hd.
    destruct (split s 10) as [|l ls].
    + repeat constructor. by rewrite isWellFormed_pair.
    + apply Forall_cons in IH as [Hl' Hls]. constructor; [|done].
      by rewrite isWellFormed_pair.
Qed.

Lemma isWellFormed_trimStart s :
  isWellFormed s = true -> isWellFormed (trimStart s) = true.
Proof.
  revert s. apply isWellFormed_ind; [done| |].
  - intros c s Hl Hh Hs IH. cbn [trimStart].
    destruct (isWhiteSpace c); [done|]. by rewrite isWellFormed_unit.
  - intros c d s Hh Hl Hs IH. cbn [trimStart].
    destruct (isWhiteSpace c) eqn:Hw.
    + apply whitespace_not_surrogate in Hw as [_ Hw]. congruence.
    + by rewrite isWellFormed_pair.
Qed.

Lemma trimEnd_snoc s c :
  trimEnd (s ++ [c]) = if isWhiteSpace c then trimEnd s else s ++ [c].
Proof.
  unfold trimEnd. rewrite rev_unit. cbn [trimStart].
  destruct (isWhiteSpace c); [done|].
  change (c :: rev s) with ([c] ++ rev s). by rewrite rev_app_distr, rev_involutive.
Qed.

Lemma isWellFormed_trimEnd s :
  isWellFormed s = true -> isWellFormed (trimEnd s) = true.
Proof.
  induction s as [|c s IH] using rev_ind; [done|]. intros H.
  rewrite trimEnd_snoc. destruct (isWhiteSpace c) eqn:Hw; [|done].
  apply whitespace_not_surrogate in Hw as [Hl Hh].
  apply IH. by apply (isWellFormed_cut s c []).
Qed.

Lemma isWellFormed_trim s : isWellFormed s = true -> isWellFormed (trim s) = true.
Proof. intros H. by apply isWellFormed_trimEnd, isWellFormed_trimStart. Qed.

Lemma isWellFormed_basePathOf url :
  isWellFormed url = true -> isWellFormed (basePathOf url) = true.
Proof.
  intros H. destruct (basePathOf_cases url) as [[_ ->]|(b & rest & Hu & _ & ->)]; [done|].
  rewrite Hu in H. apply (isWellFormed_cut b 47 rest) in H as [Hb _]; [|done..].
  by apply isWellFormed_app.
Qed.

(** [encodeURIComponent] returns on every well-formed string. *)
Lemma encodeURIComponent_total s :
  isWellFormed s = true -> exists e, encodeURIComponent s = Normal e.
Proof.
  revert s. apply isWellFormed_ind.
  - by exists [].
  - intros c s Hl Hh _ [e He]. cbn [encodeURIComponent]. rewrite He, Hl, Hh.
    destruct (uriUnreserved c); eexists; reflexivity.
  - intros c d s Hh Hl _ [e He]. cbn [encodeURIComponent].
    destruct (uriUnreserved c) eqn:Hu.
    + apply unreserved_not_surrogate in Hu as [_ Hu]. congruence.
    + rewrite (high_not_low c Hh), Hh, Hl, He. eexists; reflexivity.
Qed.

(** ** The text of a buffer *)

Lemma isWellFormed_utf16 cps :
  Forall isScalar cps -> isWellFormed (flat_map utf16 cps) = true.
Proof.
  induction 1 as [|cp cps [Hlt Hns] _ IH]; [done|]. cbn [flat_map].
  unfold utf16. destruct (N.ltb_spec cp 65536).
  - cbn [app]. rewrite isWellFormed_unit; [done| |];
      unfold isLowSurrogate, isHighSurrogate; ltb_cases; done.
  - cbn [app]. rewrite isWellFormed_pair; [done| |];
      unfold isLowSurrogate, isHighSurrogate; ltb_cases; done.
Qed.

Lemma leadOf_completes b cp need lo hi :
  leadOf b = LeadSeq cp need lo hi -> completes need cp lo hi.
Proof.
  unfold leadOf. ltb_cases; cbn [andb]; try done;
    intros [= <- <- <- <-]; cbn [completes]; intros; unfold isScalar; lia.
Qed.

Lemma utf8Text_scalars bs : forall cp need lo hi,
  completes need cp lo hi -> Forall isScalar (utf8Text bs cp need lo hi).
Proof.
  assert (H65533 : isScalar 65533) by (unfold isScalar; lia).
  induction bs as [|b bs IH]; intros cp need lo hi Hc.
  - cbn [utf8Text]. destruct need; [constructor|]. by constructor.
  - cbn [utf8Text].
    assert (Hstart : Forall isScalar
              match leadOf b with
              | LeadAscii => b :: utf8Text bs 0 0 128 191
              | LeadSeq c n l h => utf8Text bs c n l h
              | LeadBad => 65533 :: utf8Text bs 0 0 128 191
              end).
    { destruct (leadOf b) as [|c n l h|] eqn:Hlead.
      - constructor; [|by apply IH].
        unfold leadOf in Hlead. destruct (N.ltb_spec b 128).
        + unfold isScalar. lia.
        + by repeat case_match.
      - apply IH. by eapply leadOf_completes.
      - constructor; [done|by apply IH]. }
    destruct need as [|m]; [done|].
    destruct (N.leb_spec lo b), (N.leb_spec b hi); cbn [andb];
      try (by constructor).
    specialize (Hc b ltac:(lia)). destruct m as [|m].
    + constructor; [done|by apply IH].
    + by apply IH.
Qed.

(** The text of a buffer is well formed, whatever the octets. *)
Lemma isWellFormed_bufferToString data : isWellFormed (bufferToString data) = true.
Proof. unfold bufferToString. by apply isWellFormed_utf16, utf8Text_scalars. Qed.

(** ** Rewriting returns *)

Lemma mapM_total {A B} (f : A -> completion B) l :
  Forall (fun x => exists y, f x = Normal y) l -> exists ys, mapM f l = Normal ys.
Proof.
  induction 1 as [|x l [y Hy] _ [ys Hys]]; [by exists []|].
  exists (y :: ys). cbn [mapM]. by rewrite Hy, Hys.
Qed.

Section TotalFacts.
Context {R : Runtime}.

Lemma rewriteLine2_total basePath P referer line :
  isWellFormed basePath = true -> isWellFormed line = true ->
  isWellFormed (orElse referer defaultReferer) = true ->
  exists o, rewriteLine2 basePath P referer line = Normal o.
Proof.
  intros Hb Hl Hr. unfold rewriteLine2. pose proof (isWellFormed_trim _ Hl) as Ht.
  destruct (_ || _); [by eexists|]. cbv zeta.
  destruct (encodeURIComponent_total
              (if negb (startsWith (trim line) (js "http"))
               then basePath ++ trim line else trim line)) as [E ->].
  { destruct (negb _); [by apply isWellFormed_app|done]. }
  destruct (encodeURIComponent_total _ Hr) as [E2 ->]. by eexists.
Qed.

Lemma rewriteLine1_total basePath P encRef line :
  isWellFormed line = true -> rewritable1 basePath line = true ->
  exists o, rewriteLine1 basePath P encRef line = Normal o.
Proof.
  intros Hl Hok. pose proof (isWellFormed_trim _ Hl) as Ht.
  unfold rewritable1 in Hok. destruct (isCommentOrBlank line) eqn:Hc.
  - rewrite rewriteLine1_comment by done.
    destruct (includes (trim line) (js "URI=" ++ quote)); [|by eexists].
    unfold rewriteUriInTag.
    destruct (matchUri (trim line)) as [[[before uri] rest]|] eqn:Hm; [|by eexists].
    apply matchUri_spec in Hm as (Heq & _).
    assert (Huri : isWellFormed uri = true).
    { rewrite Heq in Ht.
      replace (before ++ js "URI=" ++ quote ++ uri ++ quote ++ rest)
        with ((before ++ js "URI=") ++ 34 :: uri ++ 34 :: rest) in Ht
        by (by rewrite <- app_assoc).
      apply (isWellFormed_cut _ 34 _) in Ht as [_ Ht]; [|done..].
      by apply (isWellFormed_cut uri 34 rest) in Ht as [Ht _]. }
    destruct (startsWith uri (js "http")); cbn [negb orb] in Hok |- *.
    + destruct (encodeURIComponent_total _ Huri) as [E ->]. by eexists.
    + destruct (URL_new uri (Some basePath)) as [u|e]; [|by eexists].
      destruct (encodeURIComponent_total _ Hok) as [E ->]. by eexists.
  - unfold rewriteLine1. fold (isCommentOrBlank line). rewrite Hc.
    destruct (startsWith (trim line) (js "http")); cbn [negb orb] in Hok |- *.
    + cbn [mbind completion_bind].
      destruct (encodeURIComponent_total _ Ht) as [E ->]. by eexists.
    + destruct (URL_new (trim line) (Some basePath)) as [u|e]; [|done].
      cbn [mbind completion_bind].
      destruct (encodeURIComponent_total _ Hok) as [E ->]. by eexists.
Qed.

Lemma rewritePlaylist2_total data url P referer :
  isWellFormed url = true -> isWellFormed (orElse referer defaultReferer) = true ->
  exists out, rewritePlaylist2 (bufferToString data) url P referer = Normal out.
Proof.
  intros Hu Hr. unfold rewritePlaylist2.
  destruct (mapM_total (rewriteLine2 (basePathOf url) P referer)
              (split (bufferToString data) 10)) as [ys ->]; [|by eexists].
  eapply Forall_impl; [apply isWellFormed_split, isWellFormed_bufferToString|].
  intros line Hl. apply rewriteLine2_total; [by apply isWellFormed_basePathOf|done..].
Qed.

Lemma rewritePlaylist1_total data url P ref :
  isWellFormed ref = true ->
  forallb (rewritable1 (basePathOf url)) (split (bufferToString data) 10) = true ->
  exists out, rewritePlaylist1 (bufferToString data) url P ref = Normal out.
Proof.
  intros Hr Hok. unfold rewritePlaylist1.
  destruct (encodeURIComponent_total _ Hr) as [encRef ->]. cbn [mbind completion_bind].
  destruct (mapM_total (rewriteLine1 (basePathOf url) P encRef)
              (split (bufferToString data) 10)) as [ys ->]; [|by eexists].
  pose proof (isWellFormed_split _ (isWellFormed_bufferToString data)) as Hwf.
  induction Hwf as [|line lines Hl _ IH]; [constructor|].
  cbn [forallb] in Hok. apply andb_true_iff in Hok as [Hx Hok].
  constructor; [by apply rewriteLine1_total|by apply IH].
Qed.

End TotalFacts.

(** X22.  Rewriting returns.  The second handler sends the rewritten
    playlist with the upstream status whenever the URL and the referer are
    well-formed strings, whatever the octets of the body.  So does the first
    handler when the referer is well formed and every line can be rewritten:
    references on a line of their own resolve, and resolved references are
    well formed. *)
Theorem playlist_rewriting_succeeds {R : Runtime}
  env req1 cfg1 ref r1 req2 cfg2 r2 :
  fetched (handler1 env req1) = Some cfg1 ->
  (ar_status r1 < 400)%Z -> isM3U8 (contentType1 r1) (ax_url cfg1) = true ->
  ax_headers cfg1 !! "Referer" = Some ref -> isWellFormed ref = true ->
  forallb (rewritable1 (basePathOf (ax_url cfg1)))
          (split (bufferToString (ar_data r1)) 10) = true ->
  fetched (handler2 req2) = Some cfg2 ->
  (ar_status r2 < 500)%Z -> isPlaylist2 (contentType2 r2) (ax_url cfg2) = true ->
  isWellFormed (ax_url cfg2) = true ->
  isWellFormed (orElse (query_referer req2) defaultReferer) = true ->
  (exists out1,
     rewritePlaylist1 (bufferToString (ar_data r1)) (ax_url cfg1)
       (getProxyBaseUrl env req1) ref = Normal out1
     /\ bodyOf (run (handler1 env req1) (Replies r1)) = Some (TextBody out1)
     /\ statusOf (run (handler1 env req1) (Replies r1)) = Some (ar_status r1))
  /\ exists out2,
       rewritePlaylist2 (bufferToString (ar_data r2)) (ax_url cfg2)
         (proxyBase2 req2) (query_referer req2) = Normal out2
       /\ bodyOf (run (handler2 req2) (Replies r2)) = Some (TextBody out2)
       /\ statusOf (run (handler2 req2) (Replies r2)) = Some (ar_status r2).
Proof.
  intros Hf1 Hs1 Hm1 Href Hwf Hok Hf2 Hs2 Hm2 Hu2 Hr2.
  apply handler1_fetched in Hf1 as (url & ref0 & u & _ & _ & _ & _ & _ & -> & ->).
  apply handler2_fetched in Hf2 as (url2 & hs & _ & _ & _ & _ & -> & ->).
  cbn [fetchConfig ax_headers ax_url] in *.
  rewrite fetchHeaders1_Referer in Href. injection Href as ->.
  cbn [run axios fetchConfig ax_validateStatus bodyOf statusOf]. unfold validateStatus.
  destruct (Z.ltb_spec (ar_status r1) 500); [|lia].
  destruct (Z.ltb_spec (ar_status r2) 500); [|lia].
  destruct (rewritePlaylist1_total (ar_data r1) url (getProxyBaseUrl env req1) ref Hwf Hok)
    as [out1 H1].
  destruct (rewritePlaylist2_total (ar_data r2) url2 (proxyBase2 req2)
              (query_referer req2) Hu2 Hr2) as [out2 H2].
  split.
  - exists out1. split; [done|]. unfold afterFetch1.
    destruct (Z.leb_spec 400 (ar_status r1)); [lia|]. by rewrite Hm1, H1.
  - exists out2. split; [done|]. unfold afterFetch2. by rewrite Hm2, H2.
Qed.

Lemma playlist_rewriting_succeeds_witness :
  (exists out1,
     rewritePlaylist1 (R := reference)
       (bufferToString (ar_data (reply 206 mpegurl playlistBytes)))
       (ax_url exampleConfig1) (getProxyBaseUrl noEnv exampleRequest) defaultReferer
     = Normal out1
     /\ bodyOf (run (handler1 (R := reference) noEnv exampleRequest)
                    (Replies (reply 206 mpegurl playlistBytes)))
        = Some (TextBody out1)
     /\ statusOf (run (handler1 (R := reference) noEnv exampleRequest)
                      (Replies (reply 206 mpegurl playlistBytes)))
        = Some (ar_status (reply 206 mpegurl playlistBytes)))
  /\ exists out2,
       rewritePlaylist2 (bufferToString (ar_data denied)) (ax_url exampleConfig2)
         (proxyBase2 exampleRequest) (query_referer exampleRequest) = Normal out2
       /\ bodyOf (run (handler2 (R := reference) exampleRequest) (Replies denied))
          = Some (TextBody out2)
       /\ statusOf (run (handler2 (R := reference) exampleRequest) (Replies denied))
          = Some (ar_status denied).
Proof.
  apply (playlist_rewriting_succeeds (R := reference) noEnv exampleRequest
           exampleConfig1 defaultReferer (reply 206 mpegurl playlistBytes)
           exampleRequest exampleConfig2 denied); vm_compute; reflexivity.
Defined.

(** ** Network failures *)

(** X23.  A network failure whose code is none of [ECONNABORTED],
    [ENOTFOUND] and [EAI_AGAIN] is answered 500 by the first handler, with
    [error] [Internal proxy error], the message of the error and the URL;
    the second handler answers every network failure 500 with the message as
    [error]. *)
Theorem other_network_errors {R : Runtime}
  env req1 cfg1 code message req2 cfg2 code2 message2 :
  fetched (handler1 env req1) = Some cfg1 ->
  code <> "ECONNABORTED" -> code <> "ENOTFOUND" -> code <> "EAI_AGAIN" ->
  fetched (handler2 req2) = Some cfg2 ->
  run (handler1 env req1) (Unreachable code message)
  = Responded (respond
      (setHeader "Access-Control-Allow-Origin" (js "*") ∅) 500
      (JsonBody [
        ("error", JString (js "Internal proxy error"));
        ("message", JString message);
        ("url", JString (ax_url cfg1))]))
  /\ run (handler2 req2) (Unreachable code2 message2)
     = Responded (respond corsHeaders2 500 (JsonBody [("error", JString message2)])).
Proof.
  intros Hf1 Hc1 Hc2 Hc3 Hf2.
  apply handler1_fetched in Hf1 as (url & ref & u & _ & _ & _ & _ & _ & -> & ->).
  apply handler2_fetched in Hf2 as (url2 & hs & _ & _ & _ & _ & -> & ->).
  cbn [run axios afterFetch1 afterFetch2 catch2 e_response fetchConfig ax_url].
  split; [|done]. unfold catch1. cbn [e_code e_response e_message].
  rewrite !bool_decide_eq_false_2 by congruence. done.
Qed.

Lemma other_network_errors_witness :
  run (handler1 (R := reference) noEnv exampleRequest)
      (Unreachable "ECONNREFUSED" (js "connect ECONNREFUSED"))
  = Responded (respond
      (setHeader "Access-Control-Allow-Origin" (js "*") ∅) 500
      (JsonBody [
        ("error", JString (js "Internal proxy error"));
        ("message", JString (js "connect ECONNREFUSED"));
        ("url", JString (ax_url exampleConfig1))]))
  /\ run (handler2 (R := reference) exampleRequest)
         (Unreachable "ENOTFOUND" (js "getaddrinfo ENOTFOUND cdn.example.com"))
     = Responded (respond corsHeaders2 500
         (JsonBody [("error", JString (js "getaddrinfo ENOTFOUND cdn.example.com"))])).
Proof.
  apply (other_network_errors (R := reference) noEnv exampleRequest exampleConfig1
           "ECONNREFUSED" (js "connect ECONNREFUSED")
           exampleRequest exampleConfig2
           "ENOTFOUND" (js "getaddrinfo ENOTFOUND cdn.example.com"));
    solve [vm_compute; reflexivity | discriminate].
Defined.

(** ** The playlist test *)

Lemma includes_cons c s p : includes s p = true -> includes (c :: s) p = true.
Proof. intros H. cbn [includes]. rewrite H. apply orb_true_r. Qed.

(** A text that holds [x-mpegurl] holds [mpegurl]. *)
Lemma includes_x_mpegurl s :
  includes s (js "x-mpegurl") = true -> includes s (js "mpegurl") = true.
Proof.
  induction s as [|c s IH]; [done|]. intros Hinc. cbn [includes] in Hinc.
  apply orb_true_iff in Hinc as [H|H].
  - apply startsWith_inv in H. rewrite H.
    change (js "x-mpegurl" ++ drop (length (js "x-mpegurl")) (c :: s))
      with ([120; 45] ++ js "mpegurl" ++ drop 9 (c :: s)).
    apply (includes_app [120; 45] (js "mpegurl")).
  - by apply includes_cons, IH.
Qed.

(** X24.  The playlist tests of the two handlers agree: the test for
    [x-mpegurl] in the first adds nothing to the test for [mpegurl]. *)
Theorem playlist_tests_agree contentType decodedUrl :
  isM3U8 contentType decodedUrl = isPlaylist2 contentType decodedUrl.
Proof.
  unfold isM3U8, isPlaylist2.
  destruct (includes contentType (js "mpegurl")) eqn:Hm; [done|].
  destruct (includes contentType (js "x-mpegurl")) eqn:Hx; [|done].
  apply includes_x_mpegurl in Hx. congruence.
Qed.

(** * Rewriting again, and following a link *)

(** ** Links of a rewritten playlist, and what follows them *)

(** What decodes is not empty when the text is not. *)
Lemma Decode_nonempty n : forall s pending need r,
  (length s <= n)%nat -> s <> [] -> Decode s pending need = Normal r -> r <> [].
Proof.
  induction n as [|n IH]; intros s pending need r Hlen Hne H.
  { destruct s; [done|simpl in Hlen; lia]. }
  destruct s as [|c s]; [done|]. simpl in Hlen. cbn [Decode] in H.
  assert (Hrec : forall s' p' m, (length s' <= n)%nat ->
            Decode s' p' (S m) = Normal r -> r <> []).
  { intros s' p' m Hl Hd. destruct s' as [|c' s']; [done|]. by eapply IH. }
  destruct (c =? 37).
  - destruct s as [|h1 [|h2 s2]]; [done..|]. simpl in Hlen.
    destruct (hexValue h1); [|done]. destruct (hexValue h2); [|done].
    destruct need as [|[|m]].
    + destruct (leadingOnes _) as [|[|[|[|[|?]]]]]; try done;
        try (eapply Hrec; [|exact H]; lia).
      apply bind_Normal in H as (r' & _ & H). by injection H as <-.
    + destruct (utf8Decode _) as [cp|]; [|done].
      apply bind_Normal in H as (r' & _ & H). injection H as <-.
      unfold utf16. by destruct (cp <? 65536).
    + eapply Hrec; [|exact H]. lia.
  - destruct need; [|done]. apply bind_Normal in H as (r' & _ & H).
    by injection H as <-.
Qed.

Lemma decodeURIComponent_nonempty s r :
  s <> [] -> decodeURIComponent s = Normal r -> r <> [].
Proof. intros. by eapply (Decode_nonempty (length s)). Qed.

(** The text of a buffer is made of 16-bit code units. *)
Lemma wf_bufferToString data : wf_string (bufferToString data).
Proof.
  unfold bufferToString, wf_string. apply Forall_flat_map.
  eapply Forall_impl; [by apply utf8Text_scalars|].
  intros cp [Hlt Hns]. unfold utf16. destruct (N.ltb_spec cp 65536).
  - by repeat constructor.
  - repeat constructor; lia.
Qed.

Lemma wf_split s sep : wf_string s -> Forall wf_string (split s sep).
Proof.
  unfold wf_string. induction 1 as [|c s Hc Hs IH]; [by repeat constructor|].
  cbn [split]. destruct (c =? sep); [by constructor|].
  destruct (split s sep) as [|l ls]; [by repeat constructor|].
  apply Forall_cons in IH as [Hl Hls]. by repeat constructor.
Qed.

(** Trimming leaves a text that starts with [http] starting with [http]. *)
Lemma trimEnd_app p c t :
  isWhiteSpace c = false -> trimEnd ((p ++ [c]) ++ t) = (p ++ [c]) ++ trimEnd t.
Proof.
  intros Hc. induction t as [|d t IH] using rev_ind.
  - rewrite app_nil_r. change (trimEnd []) with (@nil N). rewrite app_nil_r.
    by rewrite trimEnd_snoc, Hc.
  - rewrite app_assoc, !trimEnd_snoc. destruct (isWhiteSpace d); [done|].
    by rewrite app_assoc.
Qed.

Lemma trim_http s :
  startsWith s (js "http") = true -> startsWith (trim s) (js "http") = true.
Proof.
  intros H. apply startsWith_inv in H. rewrite H. unfold trim.
  change (js "http" ++ drop (length (js "http")) s)
    with (104 :: (js "ttp" ++ drop 4 s)) at 1.
  cbn [trimStart]. change (isWhiteSpace 104) with false. cbv iota.
  change (104 :: js "ttp" ++ drop 4 s) with ((js "htt" ++ [112]) ++ drop 4 s).
  rewrite trimEnd_app by done.
  change (js "htt" ++ [112]) with (js "http"). apply startsWith_app.
Qed.

Lemma startsWith_trans s p q :
  startsWith s p = true -> startsWith p q = true -> startsWith s q = true.
Proof.
  intros H1 H2. apply startsWith_inv in H1, H2. rewrite H1, H2, <- app_assoc.
  apply startsWith_app.
Qed.

Section LinkFacts.
Context {R : Runtime}.

(** A line that is no comment is rewritten to a proxy call. *)
Lemma rewriteLine1_link basePath P encRef line o :
  isCommentOrBlank line = false ->
  rewriteLine1 basePath P encRef line = Normal o ->
  exists E, o = proxyCall P E encRef.
Proof.
  intros Hc H. unfold isCommentOrBlank in Hc. unfold rewriteLine1 in H.
  rewrite Hc in H. apply bind_Normal in H as (target & _ & H).
  apply bind_Normal in H as (E & _ & H). injection H as <-. by exists E.
Qed.

Lemma rewriteLine2_link basePath P referer line o :
  isCommentOrBlank line = false ->
  rewriteLine2 basePath P referer line = Normal o ->
  exists E encRef, o = proxyCall P E encRef.
Proof.
  intros Hc H. unfold isCommentOrBlank in Hc. unfold rewriteLine2 in H.
  rewrite Hc in H. apply bind_Normal in H as (E & _ & H).
  apply bind_Normal in H as (encRef & _ & H). injection H as <-. by exists E, encRef.
Qed.

(** A line that starts with [http] is wrapped as it is. *)
Lemma rewriteLine1_wrapped basePath P encRef line o :
  wf_string line -> startsWith (trim line) (js "http") = true ->
  rewriteLine1 basePath P encRef line = Normal o -> wrapped P line o.
Proof.
  intros Hwf Hh H. pose proof (startsWith_http_not_comment _ Hh) as Hc.
  unfold isCommentOrBlank in Hc. unfold rewriteLine1 in H. rewrite Hc, Hh in H.
  cbn [negb mbind completion_bind] in H.
  apply bind_Normal in H as (E & HE & H). injection H as <-.
  exists E, encRef. split; [done|]. split; [|done].
  apply decode_encode; [|done]. by apply trim_Forall.
Qed.

Lemma rewriteLine2_wrapped basePath P referer line o :
  wf_string line -> startsWith (trim line) (js "http") = true ->
  rewriteLine2 basePath P referer line = Normal o -> wrapped P line o.
Proof.
  intros Hwf Hh H. pose proof (startsWith_http_not_comment _ Hh) as Hc.
  unfold isCommentOrBlank in Hc. unfold rewriteLine2 in H. rewrite Hc, Hh in H.
  cbn [negb] in H.
  apply bind_Normal in H as (E & HE & H).
  apply bind_Normal in H as (encRef & _ & H). injection H as <-.
  exists E, encRef. split; [done|]. split; [|done].
  apply decode_encode; [|done]. by apply trim_Forall.
Qed.

(** The lines of a playlist the first handler has rewritten, and of one the
    second handler has rewritten. *)
Lemma handler1_lines env req cfg r out :
  fetched (handler1 env req) = Some cfg ->
  bodyOf (run (handler1 env req) (Replies r)) = Some (TextBody out) ->
  exists ref encRef newLines,
    ax_headers cfg !! "Referer" = Some ref
    /\ encodeURIComponent ref = Normal encRef
    /\ out = join newLines LF
    /\ Forall2 (fun line o =>
                  rewriteLine1 (basePathOf (ax_url cfg)) (getProxyBaseUrl env req)
                    encRef line = Normal o)
               (split (bufferToString (ar_data r)) 10) newLines.
Proof.
  intros Hf Hb. apply handler_bodyOf in Hb as (resp & Hrun & Hbody).
  destruct (handler1_playlist _ _ _ _ _ _ Hf Hrun Hbody) as (ref & Href & Hrw).
  apply rewritePlaylist1_Normal in Hrw as (encRef & newLines & Henc & Hall & ->).
  by exists ref, encRef, newLines.
Qed.

Lemma handler2_lines req cfg r out :
  fetched (handler2 req) = Some cfg ->
  bodyOf (run (handler2 req) (Replies r)) = Some (TextBody out) ->
  exists newLines,
    out = join newLines LF
    /\ Forall2 (fun line o =>
                  rewriteLine2 (basePathOf (ax_url cfg)) (proxyBase2 req)
                    (query_referer req) line = Normal o)
               (split (bufferToString (ar_data r)) 10) newLines.
Proof.
  intros Hf Hb. apply handler_bodyOf in Hb as (resp & Hrun & Hbody).
  pose proof (handler2_playlist _ _ _ _ _ Hf Hrun Hbody) as Hrw.
  by apply rewritePlaylist2_Normal in Hrw as (newLines & Hall & ->); exists newLines.
Qed.

(** Rewriting a rewritten playlist again, whatever the handlers: the lines
    that were references are links that start with the proxy base, and a
    link that starts with [http] is wrapped. *)
Lemma relinked
  (f : jsstring -> jsstring -> Prop) (g : jsstring -> jsstring -> Prop)
  P P' content out newLines' :
  (forall line o, f line o -> isCommentOrBlank line = false ->
                  exists E encRef, o = proxyCall P E encRef) ->
  (forall line o, wf_string line -> startsWith (trim line) (js "http") = true ->
                  g line o -> wrapped P' line o) ->
  Forall2 f (split content 10) (split out 10) ->
  wf_string out ->
  startsWith P (js "http") = true ->
  Forall2 g (split out 10) newLines' ->
  forall i line,
    split content 10 !! i = Some line -> isCommentOrBlank line = false ->
    exists L o,
      split out 10 !! i = Some L /\ startsWith L P = true
      /\ newLines' !! i = Some o /\ wrapped P' L o.
Proof.
  intros Hf Hg Hall Hwf HP Hall' i line Hi Hc.
  destruct (Forall2_lookup_l _ _ _ _ _ Hall Hi) as (L & HL & HfL).
  destruct (Hf _ _ HfL Hc) as (E & encRef & ->).
  destruct (Forall2_lookup_l _ _ _ _ _ Hall' HL) as (o & Ho & Hgo).
  exists (proxyCall P E encRef), o. split; [done|].
  assert (HsP : startsWith (proxyCall P E encRef) P = true) by apply startsWith_app.
  split; [done|]. split; [done|]. apply Hg; [| |done].
  - pose proof (wf_split out 10 Hwf) as Hw.
    apply (proj1 (Forall_lookup _ _) Hw _ _ HL).
  - apply trim_http. by eapply startsWith_trans.
Qed.

End LinkFacts.

Section RelinkFacts.
Context {R : Runtime}.

Lemma handler1_split_lines env req cfg r out :
  fetched (handler1 env req) = Some cfg ->
  bodyOf (run (handler1 env req) (Replies r)) = Some (TextBody out) ->
  includes (getProxyBaseUrl env req) LF = false ->
  exists encRef,
    Forall2 (fun line o =>
               rewriteLine1 (basePathOf (ax_url cfg)) (getProxyBaseUrl env req)
                 encRef line = Normal o)
            (split (bufferToString (ar_data r)) 10) (split out 10).
Proof.
  intros Hf Hb HP.
  destruct (handler1_lines _ _ _ _ _ Hf Hb)
    as (ref & encRef & newLines & _ & Henc & -> & Hall).
  apply includes_char in HP. exists encRef.
  rewrite (Forall2_no_LF _ _ _ Hall); [done|apply split_nonempty|].
  intros l o Hin Ho.
  apply (rewriteLine1_no_LF (basePathOf (ax_url cfg)) (getProxyBaseUrl env req)
           encRef ref l o HP Henc); [|done].
  pose proof (split_lines_no_sep (bufferToString (ar_data r)) 10) as Hno.
  by apply (proj1 (Forall_forall _ _) Hno).
Qed.

Lemma handler2_split_lines req cfg r out :
  fetched (handler2 req) = Some cfg ->
  bodyOf (run (handler2 req) (Replies r)) = Some (TextBody out) ->
  includes (proxyBase2 req) LF = false ->
  Forall2 (fun line o =>
             rewriteLine2 (basePathOf (ax_url cfg)) (proxyBase2 req)
               (query_referer req) line = Normal o)
          (split (bufferToString (ar_data r)) 10) (split out 10).
Proof.
  intros Hf Hb HP.
  destruct (handler2_lines _ _ _ _ Hf Hb) as (newLines & -> & Hall).
  apply includes_char in HP.
  rewrite (Forall2_no_LF _ _ _ Hall); [done|apply split_nonempty|].
  intros l o Hin Ho.
  apply (rewriteLine2_no_LF (basePathOf (ax_url cfg)) (proxyBase2 req)
           (query_referer req) l o HP); [|done].
  pose proof (split_lines_no_sep (bufferToString (ar_data r)) 10) as Hno.
  by apply (proj1 (Forall_forall _ _) Hno).
Qed.

End RelinkFacts.

Section FollowUpFacts.
Context {R : Runtime}.

(** The Referer header of the first handler is what [refererOf1] gives, and
    it is not empty. *)
Lemma handler1_Referer env req cfg :
  fetched (handler1 env req) = Some cfg ->
  exists ref,
    refererOf1 req = Normal ref /\ ref <> []
    /\ ax_headers cfg !! "Referer" = Some ref.
Proof.
  intros Hf.
  apply handler1_fetched in Hf as (url & ref & u & _ & _ & _ & _ & Hr & -> & _).
  exists ref. split; [done|]. split.
  - unfold refererOf1 in Hr. destruct (query_referer req) as [[|c s]|];
      cbn [truthy inTemplate] in Hr.
    + injection Hr as <-. by vm_compute.
    + by apply (decodeURIComponent_nonempty (c :: s)).
    + injection Hr as <-. by vm_compute.
  - cbn [fetchConfig ax_headers]. apply fetchHeaders1_Referer.
Qed.

(** The Referer header of the second handler. *)
Lemma handler2_Referer req cfg :
  fetched (handler2 req) = Some cfg ->
  exists ref,
    decodeURIComponent (orElse (query_referer req) defaultReferer) = Normal ref
    /\ ax_headers cfg !! "Referer" = Some ref.
Proof.
  intros Hf. apply handler2_fetched in Hf as (url & hs & _ & _ & _ & Hhs & -> & _).
  cbn [fetchConfig ax_headers].
  pose proof (fetchHeaders2_referer_lookup req hs Hhs) as H.
  destruct (query_referer req) as [[|c s]|]; cbn [truthy orElse inTemplate] in H |- *.
  - destruct H as [H _]. by exists defaultReferer.
  - destruct H as (ref & u & Hd & _ & Href & _). by exists ref.
  - destruct H as [H _]. by exists defaultReferer.
Qed.

End FollowUpFacts.

(** ** The claims on rewriting again and on the referer *)

(** C3 (amended).  The body of a playlist response is a function of the
    upstream body bytes, the decoded upstream URL, the referer and the proxy
    base URL: two invocations that agree on these four send the same body,
    whatever else differs in the requests and in the upstream responses (for
    the second handler the referer is the query parameter as it came).  A
    line that starts with [http] is neither resolved nor inspected: it is
    percent-encoded as a whole and wrapped in a new proxy call.  In a
    rewritten playlist every line that was neither blank nor a comment has
    become a link that starts with the proxy base; when that base starts
    with [http] and holds no line feed, rewriting the rewritten playlist
    again wraps each of these links (see [wrapped]): the [url] parameter of
    the new link is the encoding of the whole first link and percent-decodes
    to that link. *)
Theorem rewriting_function_of_four_inputs {R : Runtime}
  env env' req1 req1' cfg1 cfg1' r1 r1'
  req2 req2' cfg2 cfg2' r2 r2'
  basePath P encRef referer line
  env3 req3 cfg3 r3 out3 env4 req4 cfg4 r4 out4
  req5 cfg5 r5 out5 req6 cfg6 r6 out6 :
  fetched (handler1 env req1) = Some cfg1 ->
  fetched (handler1 env' req1') = Some cfg1' ->
  ax_url cfg1 = ax_url cfg1' ->
  ax_headers cfg1 !! "Referer" = ax_headers cfg1' !! "Referer" ->
  getProxyBaseUrl env req1 = getProxyBaseUrl env' req1' ->
  ar_data r1 = ar_data r1' ->
  (ar_status r1 < 400)%Z -> (ar_status r1' < 400)%Z ->
  isM3U8 (contentType1 r1) (ax_url cfg1) = true ->
  isM3U8 (contentType1 r1') (ax_url cfg1') = true ->
  fetched (handler2 req2) = Some cfg2 ->
  fetched (handler2 req2') = Some cfg2' ->
  ax_url cfg2 = ax_url cfg2' ->
  query_referer req2 = query_referer req2' ->
  proxyBase2 req2 = proxyBase2 req2' ->
  ar_data r2 = ar_data r2' ->
  (ar_status r2 < 500)%Z -> (ar_status r2' < 500)%Z ->
  isPlaylist2 (contentType2 r2) (ax_url cfg2) = true ->
  isPlaylist2 (contentType2 r2') (ax_url cfg2') = true ->
  startsWith (trim line) (js "http") = true ->
  fetched (handler1 env3 req3) = Some cfg3 ->
  bodyOf (run (handler1 env3 req3) (Replies r3)) = Some (TextBody out3) ->
  startsWith (getProxyBaseUrl env3 req3) (js "http") = true ->
  includes (getProxyBaseUrl env3 req3) LF = false ->
  fetched (handler1 env4 req4) = Some cfg4 ->
  bufferToString (ar_data r4) = out3 ->
  bodyOf (run (handler1 env4 req4) (Replies r4)) = Some (TextBody out4) ->
  fetched (handler2 req5) = Some cfg5 ->
  bodyOf (run (handler2 req5) (Replies r5)) = Some (TextBody out5) ->
  startsWith (proxyBase2 req5) (js "http") = true ->
  includes (proxyBase2 req5) LF = false ->
  fetched (handler2 req6) = Some cfg6 ->
  bufferToString (ar_data r6) = out5 ->
  bodyOf (run (handler2 req6) (Replies r6)) = Some (TextBody out6) ->
  bodyOf (run (handler1 env req1) (Replies r1))
  = bodyOf (run (handler1 env' req1') (Replies r1'))
  /\ bodyOf (run (handler2 req2) (Replies r2))
     = bodyOf (run (handler2 req2') (Replies r2'))
  /\ rewriteLine1 basePath P encRef line
     = (E ← encodeURIComponent (trim line); Normal (proxyCall P E encRef))
  /\ rewriteLine2 basePath P referer line
     = (E ← encodeURIComponent (trim line);
        encRef' ← encodeURIComponent (orElse referer defaultReferer);
        Normal (proxyCall P E encRef'))
  /\ (exists newLines4,
        out4 = join newLines4 LF
        /\ forall i l,
             split (bufferToString (ar_data r3)) 10 !! i = Some l ->
             isCommentOrBlank l = false ->
             exists L o,
               split out3 10 !! i = Some L
               /\ startsWith L (getProxyBaseUrl env3 req3) = true
               /\ newLines4 !! i = Some o
               /\ wrapped (getProxyBaseUrl env4 req4) L o)
  /\ (exists newLines6,
        out6 = join newLines6 LF
        /\ forall i l,
             split (bufferToString (ar_data r5)) 10 !! i = Some l ->
             isCommentOrBlank l = false ->
             exists L o,
               split out5 10 !! i = Some L
               /\ startsWith L (proxyBase2 req5) = true
               /\ newLines6 !! i = Some o
               /\ wrapped (proxyBase2 req6) L o).
Proof.
  intros Hf1 Hf1' Hu1 Hr1 HP1 Hd1 Hs1 Hs1' Hm1 Hm1'
         Hf2 Hf2' Hu2 Hq2 HP2 Hd2 Hs2 Hs2' Hm2 Hm2' Hh
         Hf3 Hb3 Hh3 HL3 Hf4 Hd4 Hb4 Hf5 Hb5 Hh5 HL5 Hf6 Hd6 Hb6.
  split; [|split; [|split; [|split; [|split]]]].
  - apply handler1_fetched in Hf1 as (url & ref & u & _ & _ & _ & _ & _ & -> & Hh1).
    apply handler1_fetched in Hf1' as (url' & ref' & u' & _ & _ & _ & _ & _ & -> & Hh1').
    cbn [fetchConfig ax_url ax_headers] in Hu1, Hr1, Hm1, Hm1'. subst url'.
    rewrite !fetchHeaders1_Referer in Hr1. injection Hr1 as <-.
    rewrite Hh1, Hh1'. cbn [run axios fetchConfig ax_validateStatus]. unfold validateStatus.
    destruct (Z.ltb_spec (ar_status r1) 500); [|lia].
    destruct (Z.ltb_spec (ar_status r1') 500); [|lia].
    cbn [bodyOf]. rewrite !afterFetch1_playlist_body by done.
    by rewrite HP1, Hd1.
  - apply handler2_fetched in Hf2 as (url & hs & _ & _ & _ & _ & -> & Hh2).
    apply handler2_fetched in Hf2' as (url' & hs' & _ & _ & _ & _ & -> & Hh2').
    cbn [fetchConfig ax_url] in Hu2, Hm2, Hm2'. subst url'.
    rewrite Hh2, Hh2'. cbn [run axios fetchConfig ax_validateStatus]. unfold validateStatus.
    destruct (Z.ltb_spec (ar_status r2) 500); [|lia].
    destruct (Z.ltb_spec (ar_status r2') 500); [|lia].
    cbn [bodyOf]. rewrite !afterFetch2_playlist_body by done.
    by rewrite HP2, Hq2, Hd2.
  - pose proof (startsWith_http_not_comment _ Hh) as Hc.
    unfold isCommentOrBlank in Hc. unfold rewriteLine1. rewrite Hc, Hh. done.
  - pose proof (startsWith_http_not_comment _ Hh) as Hc.
    unfold isCommentOrBlank in Hc. unfold rewriteLine2. rewrite Hc, Hh. done.
  - destruct (handler1_split_lines _ _ _ _ _ Hf3 Hb3 HL3) as (encRef3 & Hall3).
    destruct (handler1_lines _ _ _ _ _ Hf4 Hb4)
      as (ref4 & encRef4 & newLines4 & _ & _ & -> & Hall4).
    exists newLines4. split; [done|]. rewrite Hd4 in Hall4.
    eapply relinked; [| |exact Hall3| |exact Hh3|exact Hall4].
    + intros l o Ho Hc. destruct (rewriteLine1_link _ _ _ _ _ Hc Ho) as [E ->].
      by exists E, encRef3.
    + intros l o Hwf Hl Ho. exact (rewriteLine1_wrapped _ _ _ _ _ Hwf Hl Ho).
    + rewrite <- Hd4. apply wf_bufferToString.
  - pose proof (handler2_split_lines _ _ _ _ Hf5 Hb5 HL5) as Hall5.
    destruct (handler2_lines _ _ _ _ Hf6 Hb6) as (newLines6 & -> & Hall6).
    exists newLines6. split; [done|]. rewrite Hd6 in Hall6.
    eapply relinked; [| |exact Hall5| |exact Hh5|exact Hall6].
    + intros l o Ho Hc. exact (rewriteLine2_link _ _ _ _ _ Hc Ho).
    + intros l o Hwf Hl Ho. exact (rewriteLine2_wrapped _ _ _ _ _ Hwf Hl Ho).
    + rewrite <- Hd6. apply wf_bufferToString.
Qed.

(** Witness of C3: the same playlist requested through two host names, with
    and without a range, answered with 200 and with 206; and the playlist of
    [segment001.ts], rewritten and then requested through the proxy itself. *)
Lemma rewriting_function_of_four_inputs_witness :
  bodyOf (run (handler1 (R := reference) noEnv exampleRequest)
              (Replies (reply 200 mpegurl playlistBytes)))
  = bodyOf (run (handler1 (R := reference) envWithBase otherRequest)
                (Replies (reply 206 "application/x-mpegurl" playlistBytes)))
  /\ bodyOf (run (handler2 (R := reference) exampleRequest)
                 (Replies (reply 200 mpegurl playlistBytes)))
     = bodyOf (run (handler2 (R := reference) otherRequest)
                   (Replies (reply 206 "application/x-mpegurl" playlistBytes)))
  /\ rewriteLine1 (R := reference) exampleBase proxyExample
       (js "https%3A%2F%2Fmegacloud.tv") (js onceRewritten)
     = (E ← encodeURIComponent (trim (js onceRewritten));
        Normal (proxyCall proxyExample E (js "https%3A%2F%2Fmegacloud.tv")))
  /\ rewriteLine2 exampleBase proxyExample None (js onceRewritten)
     = (E ← encodeURIComponent (trim (js onceRewritten));
        encRef' ← encodeURIComponent (orElse None defaultReferer);
        Normal (proxyCall proxyExample E encRef'))
  /\ (exists newLines4,
        js twiceRewritten = join newLines4 LF
        /\ forall i l,
             split (bufferToString (ar_data (reply 200 mpegurl (bytes "segment001.ts"))))
                   10 !! i = Some l ->
             isCommentOrBlank l = false ->
             exists L o,
               split (js onceRewritten) 10 !! i = Some L
               /\ startsWith L (getProxyBaseUrl noEnv exampleRequest) = true
               /\ newLines4 !! i = Some o
               /\ wrapped (getProxyBaseUrl noEnv proxiedRequest) L o)
  /\ (exists newLines6,
        js twiceRewritten = join newLines6 LF
        /\ forall i l,
             split (bufferToString (ar_data (reply 200 mpegurl (bytes "segment001.ts"))))
                   10 !! i = Some l ->
             isCommentOrBlank l = false ->
             exists L o,
               split (js onceRewritten) 10 !! i = Some L
               /\ startsWith L (proxyBase2 exampleRequest) = true
               /\ newLines6 !! i = Some o
               /\ wrapped (proxyBase2 proxiedRequest) L o).
Proof.
  apply (rewriting_function_of_four_inputs (R := reference)
           noEnv envWithBase exampleRequest otherRequest
           exampleConfig1
           (configOf (handler1 (R := reference) envWithBase otherRequest))
           (reply 200 mpegurl playlistBytes)
           (reply 206 "application/x-mpegurl" playlistBytes)
           exampleRequest otherRequest
           exampleConfig2
           (configOf (handler2 (R := reference) otherRequest))
           (reply 200 mpegurl playlistBytes)
           (reply 206 "application/x-mpegurl" playlistBytes)
           exampleBase proxyExample (js "https%3A%2F%2Fmegacloud.tv") None
           (js onceRewritten)
           noEnv exampleRequest exampleConfig1
           (reply 200 mpegurl (bytes "segment001.ts")) (js onceRewritten)
           noEnv proxiedRequest
           (configOf (handler1 (R := reference) noEnv proxiedRequest))
           (reply 200 mpegurl (bytes onceRewritten)) (js twiceRewritten)
           exampleRequest exampleConfig2
           (reply 200 mpegurl (bytes "segment001.ts")) (js onceRewritten)
           proxiedRequest (configOf (handler2 (R := reference) proxiedRequest))
           (reply 200 mpegurl (bytes onceRewritten)) (js twiceRewritten));
    vm_compute; reflexivity.
Defined.

(** Counterexample to C3 as stated.  Rewriting the rewritten playlist
    again does not give the same playlist: the link of [segment001.ts] is
    wrapped in a second link and its reference is encoded twice ([%3A] has
    become [%253A]). *)
Lemma rewriting_again_encodes_twice :
  bodyOf (run (handler1 (R := reference) noEnv exampleRequest)
              (ok200 mpegurl (bytes "segment001.ts")))
  = Some (TextBody (js onceRewritten))
  /\ bodyOf (run (handler1 (R := reference) noEnv proxiedRequest)
                 (ok200 mpegurl (bytes onceRewritten)))
     = Some (TextBody (js twiceRewritten))
  /\ bodyOf (run (handler2 (R := reference) proxiedRequest)
                 (ok200 mpegurl (bytes onceRewritten)))
     = Some (TextBody (js twiceRewritten))
  /\ js twiceRewritten <> js onceRewritten.
Proof. repeat split; try (vm_compute; reflexivity). intros H. vm_compute in H. discriminate H. Qed.

(** C6 (amended).  First handler: in a rewritten playlist every line is
    kept or is (or holds, inside a [URI] attribute) a proxy call whose
    [referer] parameter percent-decodes to the Referer header that was sent
    upstream; a request that follows such a link, its [referer] query being
    that header, sends the same Referer header when the header holds no
    percent sign.  Second handler: the [referer] parameter of every link
    percent-decodes to the [referer] query as it came (or to the default),
    and a request that follows such a link, its [referer] query being that
    value, sends the same Referer header as the first fetch; the parameter
    percent-decodes to the header that was sent when the [referer] query is
    absent or percent-decodes to itself. *)
Theorem referer_embedded_in_links {R : Runtime}
  env req1 cfg1 r1 resp1 out1 ref1 req2 cfg2 r2 resp2 out2 ref2
  req3 cfg3 r3 resp3 out3 req3' cfg3'
  env5 req5 cfg5 ref5 env5' req5' cfg5' :
  fetched (handler1 env req1) = Some cfg1 ->
  ax_headers cfg1 !! "Referer" = Some ref1 ->
  wf_string ref1 ->
  run (handler1 env req1) (Replies r1) = Responded resp1 ->
  body resp1 = TextBody out1 ->
  fetched (handler2 req2) = Some cfg2 ->
  ax_headers cfg2 !! "Referer" = Some ref2 ->
  wf_string ref2 ->
  refererUnescaped req2 ->
  run (handler2 req2) (Replies r2) = Responded resp2 ->
  body resp2 = TextBody out2 ->
  fetched (handler2 req3) = Some cfg3 ->
  wf_string (orElse (query_referer req3) defaultReferer) ->
  run (handler2 req3) (Replies r3) = Responded resp3 ->
  body resp3 = TextBody out3 ->
  query_referer req3' = Some (orElse (query_referer req3) defaultReferer) ->
  fetched (handler2 req3') = Some cfg3' ->
  fetched (handler1 env5 req5) = Some cfg5 ->
  ax_headers cfg5 !! "Referer" = Some ref5 ->
  includes ref5 (js "%") = false ->
  query_referer req5' = Some ref5 ->
  fetched (handler1 env5' req5') = Some cfg5' ->
  (exists newLines,
     out1 = join newLines LF
     /\ Forall2 (outLine (getProxyBaseUrl env req1) ref1)
                (split (bufferToString (ar_data r1)) 10) newLines)
  /\ (exists newLines,
        out2 = join newLines LF
        /\ Forall2 (outLine (proxyBase2 req2) ref2)
                   (split (bufferToString (ar_data r2)) 10) newLines)
  /\ (exists newLines,
        out3 = join newLines LF
        /\ Forall2 (outLine (proxyBase2 req3)
                      (orElse (query_referer req3) defaultReferer))
                   (split (bufferToString (ar_data r3)) 10) newLines)
  /\ ax_headers cfg3' !! "Referer" = ax_headers cfg3 !! "Referer"
  /\ ax_headers cfg5' !! "Referer" = Some ref5.
Proof.
  intros Hf1 Hr1 Hwf1 Hrun1 Hb1 Hf2 Hr2 Hwf2 Hun Hrun2 Hb2
         Hf3 Hwf3 Hrun3 Hb3 Hq3' Hf3' Hf5 Hr5 Hp5 Hq5' Hf5'.
  split; [|split; [|split; [|split]]].
  - apply handler1_fetched in Hf1
      as (url & ref & u & _ & _ & _ & _ & _ & -> & Hh).
    rewrite Hh in Hrun1. cbn [run] in Hrun1. injection Hrun1 as <-.
    cbn [fetchConfig ax_headers] in Hr1.
    rewrite fetchHeaders1_Referer in Hr1. inversion Hr1; subst ref.
    apply afterFetch1_TextBody in Hb1 as (r & Hax & Hp).
    destruct (validateStatus _); [injection Hax as <- | discriminate Hax].
    apply rewritePlaylist1_Normal in Hp as (encRef & newLines & He & Hl & ->).
    exists newLines. split; [done|].
    eapply Forall2_impl; [exact Hl|]. intros line o Hline.
    eapply rewriteLine1_outLine; [|exact Hline]. by apply decode_encode.
  - apply handler2_fetched in Hf2 as (url & hs & _ & _ & _ & Hhs & -> & Hh).
    rewrite Hh in Hrun2. cbn [run] in Hrun2. injection Hrun2 as <-.
    cbn [fetchConfig ax_headers] in Hr2.
    pose proof (fetchHeaders2_Referer _ _ _ Hhs Hr2) as Hq.
    apply afterFetch2_TextBody in Hb2 as (r & Hax & Hp).
    destruct (validateStatus _); [injection Hax as <- | discriminate Hax].
    apply rewritePlaylist2_Normal in Hp as (newLines & Hl & ->).
    exists newLines. split; [done|].
    eapply Forall2_impl; [exact Hl|]. intros line o Hline.
    eapply rewriteLine2_outLine; [|exact Hline].
    assert (Href : orElse (query_referer req2) defaultReferer = ref2).
    { unfold refererUnescaped in Hun.
      destruct (query_referer req2) as [[|c s]|];
        cbn [truthy orElse inTemplate] in Hq, Hun |- *; [done| |done].
      rewrite Hun in Hq by done. by injection Hq. }
    intros encRef He. rewrite Href in He. by apply decode_encode.
  - apply handler2_fetched in Hf3 as (url & hs & _ & _ & _ & Hhs & -> & Hh).
    rewrite Hh in Hrun3. cbn [run] in Hrun3. injection Hrun3 as <-.
    apply afterFetch2_TextBody in Hb3 as (r & Hax & Hp).
    destruct (validateStatus _); [injection Hax as <- | discriminate Hax].
    apply rewritePlaylist2_Normal in Hp as (newLines & Hl & ->).
    exists newLines. split; [done|].
    eapply Forall2_impl; [exact Hl|]. intros line o Hline.
    eapply rewriteLine2_outLine; [|exact Hline].
    intros encRef He. by apply decode_encode.
  - destruct (handler2_Referer _ _ Hf3) as (ref & Hd & ->).
    destruct (handler2_Referer _ _ Hf3') as (ref' & Hd' & ->).
    rewrite Hq3' in Hd'. f_equal.
    assert (Hq : orElse (Some (orElse (query_referer req3) defaultReferer))
                   defaultReferer
                 = orElse (query_referer req3) defaultReferer).
    { by destruct (query_referer req3) as [[|c s]|]. }
    rewrite Hq, Hd in Hd'. by injection Hd'.
  - destruct (handler1_Referer _ _ _ Hf5) as (ref & _ & Hne & Href).
    rewrite Hr5 in Href. injection Href as <-.
    destruct (handler1_Referer _ _ _ Hf5') as (ref' & Hd' & _ & ->).
    unfold refererOf1 in Hd'. rewrite Hq5' in Hd'.
    destruct ref5 as [|c s]; [done|]. cbn [truthy inTemplate] in Hd'.
    rewrite Decode_no_percent in Hd' by (by apply includes_char).
    by injection Hd' as <-.
Qed.

(** Witness of C6: the playlist of [segment001.ts] requested with the
    referer [https://a.com/%41] and with the address of a page as referer,
    and the requests that follow its link. *)
Lemma referer_embedded_in_links_witness :
  (exists newLines,
     proxyCall proxyExample
       (js "https%3A%2F%2Fcdn.example.com%2Fvideos%2Fabc%2Fsegment001.ts")
       (js "https%3A%2F%2Fa.com%2FA") = join newLines LF
     /\ Forall2 (outLine (getProxyBaseUrl noEnv escapedRefererRequest)
                   (js "https://a.com/A"))
                (split (bufferToString
                          (ar_data (reply 200 mpegurl (bytes "segment001.ts")))) 10)
                newLines)
  /\ (exists newLines,
        proxyCall proxyExample
          (js "https%3A%2F%2Fcdn.example.com%2Fvideos%2Fabc%2Fsegment001.ts")
          (js "https%3A%2F%2Fsite.example%2Fwatch%3Fv%3D1") = join newLines LF
        /\ Forall2 (outLine (proxyBase2 pageRefererRequest)
                      (js "https://site.example/watch?v=1"))
                   (split (bufferToString
                             (ar_data (reply 200 mpegurl (bytes "segment001.ts")))) 10)
                   newLines)
  /\ (exists newLines,
        proxyCall proxyExample
          (js "https%3A%2F%2Fcdn.example.com%2Fvideos%2Fabc%2Fsegment001.ts")
          (js "https%3A%2F%2Fa.com%2F%2541") = join newLines LF
        /\ Forall2 (outLine (proxyBase2 escapedRefererRequest)
                      (orElse (query_referer escapedRefererRequest) defaultReferer))
                   (split (bufferToString
                             (ar_data (reply 200 mpegurl (bytes "segment001.ts")))) 10)
                   newLines)
  /\ ax_headers (configOf (handler2 (R := reference) escapedFollowUp)) !! "Referer"
     = ax_headers (configOf (handler2 (R := reference) escapedRefererRequest)) !! "Referer"
  /\ ax_headers (configOf (handler1 (R := reference) noEnv pageFollowUp)) !! "Referer"
     = Some (js "https://site.example/watch?v=1").
Proof.
  apply (referer_embedded_in_links (R := reference) noEnv
           escapedRefererRequest
           (configOf (handler1 (R := reference) noEnv escapedRefererRequest))
           (reply 200 mpegurl (bytes "segment001.ts"))
           (responseOf (run (handler1 (R := reference) noEnv escapedRefererRequest)
                            (Replies (reply 200 mpegurl (bytes "segment001.ts")))))
           (proxyCall proxyExample
              (js "https%3A%2F%2Fcdn.example.com%2Fvideos%2Fabc%2Fsegment001.ts")
              (js "https%3A%2F%2Fa.com%2FA"))
           (js "https://a.com/A")
           pageRefererRequest
           (configOf (handler2 (R := reference) pageRefererRequest))
           (reply 200 mpegurl (bytes "segment001.ts"))
           (responseOf (run (handler2 (R := reference) pageRefererRequest)
                            (Replies (reply 200 mpegurl (bytes "segment001.ts")))))
           (proxyCall proxyExample
              (js "https%3A%2F%2Fcdn.example.com%2Fvideos%2Fabc%2Fsegment001.ts")
              (js "https%3A%2F%2Fsite.example%2Fwatch%3Fv%3D1"))
           (js "https://site.example/watch?v=1")
           escapedRefererRequest
           (configOf (handler2 (R := reference) escapedRefererRequest))
           (reply 200 mpegurl (bytes "segment001.ts"))
           (responseOf (run (handler2 (R := reference) escapedRefererRequest)
                            (Replies (reply 200 mpegurl (bytes "segment001.ts")))))
           (proxyCall proxyExample
              (js "https%3A%2F%2Fcdn.example.com%2Fvideos%2Fabc%2Fsegment001.ts")
              (js "https%3A%2F%2Fa.com%2F%2541"))
           escapedFollowUp
           (configOf (handler2 (R := reference) escapedFollowUp))
           noEnv pageRefererRequest
           (configOf (handler1 (R := reference) noEnv pageRefererRequest))
           (js "https://site.example/watch?v=1")
           noEnv pageFollowUp
           (configOf (handler1 (R := reference) noEnv pageFollowUp)));
    try (vm_compute; reflexivity).
  - repeat (constructor; [reflexivity|]). constructor.
  - repeat (constructor; [reflexivity|]). constructor.
  - change (wf_string (js "https://a.com/%41")).
    repeat (constructor; [reflexivity|]). constructor.
Defined.

(** Counterexample to C6 as stated.  With the query parameter
    [referer=https://a.com/%41] the second handler sends the Referer
    [https://a.com/A] upstream, and writes links whose [referer] parameter
    decodes to [https://a.com/%41].  With [referer=https://a.com/%2541] the
    first handler sends the Referer [https://a.com/%41] and writes links
    whose parameter decodes to it, but the request that follows such a link
    sends the Referer [https://a.com/A]. *)
Lemma referer_contexts_differ :
  (fetched (handler2 (R := reference) escapedRefererRequest)
     ≫= fun cfg => ax_headers cfg !! "Referer")
  = Some (js "https://a.com/A")
  /\ bodyOf (run (handler2 (R := reference) escapedRefererRequest)
                 (ok200 mpegurl (bytes "segment001.ts")))
     = Some (TextBody (proxyCall (js "https://proxy.example")
               (js "https%3A%2F%2Fcdn.example.com%2Fvideos%2Fabc%2Fsegment001.ts")
               (js "https%3A%2F%2Fa.com%2F%2541")))
  /\ decodeURIComponent (js "https%3A%2F%2Fa.com%2F%2541")
     = Normal (js "https://a.com/%41")
  /\ js "https://a.com/%41" <> js "https://a.com/A"
  /\ (fetched (handler1 (R := reference) noEnv twiceEscapedRefererRequest)
        ≫= fun cfg => ax_headers cfg !! "Referer")
     = Some (js "https://a.com/%41")
  /\ bodyOf (run (handler1 (R := reference) noEnv twiceEscapedRefererRequest)
                 (ok200 mpegurl (bytes "segment001.ts")))
     = Some (TextBody (proxyCall (js "https://proxy.example")
               (js "https%3A%2F%2Fcdn.example.com%2Fvideos%2Fabc%2Fsegment001.ts")
               (js "https%3A%2F%2Fa.com%2F%2541")))
  /\ query_referer escapedFollowUp = Some (js "https://a.com/%41")
  /\ (fetched (handler1 (R := reference) noEnv escapedFollowUp)
        ≫= fun cfg => ax_headers cfg !! "Referer")
     = Some (js "https://a.com/A").
Proof.
  repeat split; try (vm_compute; reflexivity). intros H. vm_compute in H. discriminate H.
Qed.
